(** * Book recommendation core: a shallow embedding and its properties

    The development follows [models/book.py], [models/user.py],
    [services/ml_recommender.py] and [services/recommendation_engine.py].

    Conventions of the embedding.
    - Python [float]s are exact rationals ([Qc], canonical fractions with
      Leibniz equality); rounding is not modelled.
    - Python [int]s are [Z]; [len] is [length] and is injected into [Z]
      where it meets an [int].
    - [Optional[T]] is [option T]; truthiness ([if x:], [x or y], [x and y])
      is written out case by case.
    - Python [str]s are [string]s of ASCII characters: [str.lower] and the
      regular-expression classes [\w] and [\s] are embedded as they act on
      ASCII text, and a statement that depends on them is made for such
      text.
    - Mutation of objects is explicit state passing: a function that writes
      to its arguments returns their new state next to its result.
    - scikit-learn's vectorizer and Python's float formatting are outside the
      repository; they are the fields of the class [PyRuntime]. *)

From Stdlib Require Import QArith Qcanon ZArith String Ascii Lia Lqa DecimalString.
From stdpp Require Import base list strings numbers gmap option sorting.

Local Open Scope string_scope.
Local Open Scope list_scope.
Local Open Scope Z_scope.
Local Open Scope Qc_scope.

(** ** Python built-ins used by the code *)

Module Py.

(** [l[:n]] for an [int] n, negative n counting from the end. *)
Definition take {A} (n : Z) (l : list A) : list A :=
  if decide (n < 0)%Z
  then firstn (Z.to_nat (Z.of_nat (length l) + n)) l
  else firstn (Z.to_nat n) l.

Definition len {A} (l : list A) : Z := Z.of_nat (length l).

(** [min(x, y)] on floats: the first argument unless the second is smaller. *)
Definition min (x y : Qc) : Qc := if decide (y < x) then y else x.

(** [max(m, n)] on ints. *)
Definition max (m n : Z) : Z := if decide (m < n)%Z then n else m.

(** Truthiness of an optional float, int, string and list. *)
Definition truthy_float (o : option Qc) : bool :=
  match o with Some x => bool_decide (x ≠ 0) | None => false end.
Definition truthy_int (o : option Z) : bool :=
  match o with Some n => bool_decide (n ≠ 0%Z) | None => false end.
Definition truthy_str (o : option string) : bool :=
  match o with Some s => bool_decide (s ≠ "") | None => false end.
Definition truthy_list {A} (o : option (list A)) : bool :=
  match o with Some (_ :: _) => true | _ => false end.

(** [o or d] for an optional float. *)
Definition float_or (o : option Qc) (d : Qc) : Qc :=
  match o with Some x => if decide (x = 0) then d else x | None => d end.

(** [o or []] for an optional list. *)
Definition list_or_nil {A} (o : option (list A)) : list A :=
  match o with Some l => l | None => [] end.

(** [str(n)] for an int. *)
Definition str_of_int (n : Z) : string := NilZero.string_of_int (Z.to_int n).

(** [sep.join(l)]. *)
Definition join (sep : string) (l : list string) : string := String.concat sep l.

(** [any(x in l2 for x in l1)]. *)
Definition any_in (l1 l2 : list string) : bool :=
  existsb (λ x, bool_decide (x ∈ l2)) l1.

(** [set(l1) & set(l2)] listed without repetition, in the order of [l1]
    (Python leaves the iteration order of a set unspecified). *)
Definition set_inter (l1 l2 : list string) : list string :=
  remove_dups (filter (λ x, x ∈ l2) l1).

(** [sum(l)] on floats. *)
Definition sum (l : list Qc) : Qc := foldl Qcplus 0 l.

(** Characters, ASCII only: [str.lower], and the regular-expression
    classes [\s], [\w] and [[a-z0-9]]. *)
Definition lower_char (c : ascii) : ascii :=
  let n := nat_of_ascii c in
  if (65 <=? n)%nat && (n <=? 90)%nat then ascii_of_nat (n + 32) else c.

Definition is_space (c : ascii) : bool :=
  let n := nat_of_ascii c in
  ((9 <=? n)%nat && (n <=? 13)%nat) || (n =? 32)%nat.

Definition is_lower_alnum (c : ascii) : bool :=
  let n := nat_of_ascii c in
  ((97 <=? n)%nat && (n <=? 122)%nat) || ((48 <=? n)%nat && (n <=? 57)%nat).

Definition is_word_char (c : ascii) : bool :=
  let n := nat_of_ascii c in
  ((97 <=? n)%nat && (n <=? 122)%nat) || ((65 <=? n)%nat && (n <=? 90)%nat)
  || ((48 <=? n)%nat && (n <=? 57)%nat) || (n =? 95)%nat.

Fixpoint lower (s : string) : string :=
  match s with
  | EmptyString => EmptyString
  | String c s' => String (lower_char c) (lower s')
  end.

Fixpoint filter_chars (keep : ascii → bool) (s : string) : string :=
  match s with
  | EmptyString => EmptyString
  | String c s' =>
      if keep c then String c (filter_chars keep s') else filter_chars keep s'
  end.

(** [sub in s] on strings. *)
Fixpoint contains (sub s : string) : bool :=
  String.prefix sub s
  || match s with EmptyString => false | String _ s' => contains sub s' end.

(** [re.findall(r'\b\w+\b', s)]: the maximal runs of word characters. *)
Fixpoint findall_words_from (cur : string) (s : string) : list string :=
  match s with
  | EmptyString => if decide (cur = "") then [] else [cur]
  | String c s' =>
      if is_word_char c
      then findall_words_from (cur +:+ String c "") s'
      else (if decide (cur = "") then [] else [cur]) ++ findall_words_from "" s'
  end.
Definition findall_words (s : string) : list string := findall_words_from "" s.

(** [list.sort(key=key, reverse=True)]: a stable sort into non-increasing
    key order; elements of equal key keep their original order.  With no
    [key] the elements are compared by [__lt__]. *)
Fixpoint insert_desc {A} (key : A → Qc) (x : A) (l : list A) : list A :=
  match l with
  | [] => [x]
  | y :: l' =>
      if decide (key x < key y) then y :: insert_desc key x l' else x :: l
  end.
Definition sort_desc {A} (key : A → Qc) (l : list A) : list A :=
  foldr (insert_desc key) [] l.

End Py.

(** A float literal [n/d]. *)
Definition frac (n : Z) (d : positive) : Qc := Q2Qc (n # d).

(** ** models/book.py *)

Module Book.

Record t := mk {
  title : string;
  authors : list string;
  year : Z;
  edition_count : Z;
  cover_id : option Z;
  subjects : option (list string);
  description : option string;
  work_id : option string;
  rating : option Qc;
  cover_url : option string;
  isbn : option string;
  publisher : option string;
  language : option string;
  page_count : option Z;
  embedding : option (list Qc);
  sentiment_score : option Qc;
  popularity_score : option Qc
}.

#[global] Instance eq_dec : EqDecision t.
Proof. solve_decision. Defined.

(** [book.sentiment_score = v] and [book.popularity_score = v]. *)
Definition set_sentiment_score (v : option Qc) (b : t) : t :=
  mk (title b) (authors b) (year b) (edition_count b) (cover_id b) (subjects b)
     (description b) (work_id b) (rating b) (cover_url b) (isbn b) (publisher b)
     (language b) (page_count b) (embedding b) v (popularity_score b).

Definition set_popularity_score (v : option Qc) (b : t) : t :=
  mk (title b) (authors b) (year b) (edition_count b) (cover_id b) (subjects b)
     (description b) (work_id b) (rating b) (cover_url b) (isbn b) (publisher b)
     (language b) (page_count b) (embedding b) (sentiment_score b) v.

(** [book.description = v], a write the caller may perform between calls. *)
Definition set_description (v : option string) (b : t) : t :=
  mk (title b) (authors b) (year b) (edition_count b) (cover_id b) (subjects b)
     v (work_id b) (rating b) (cover_url b) (isbn b) (publisher b)
     (language b) (page_count b) (embedding b) (sentiment_score b)
     (popularity_score b).

(** [' '.join(filter(None, parts))]: the non-empty parts, space separated. *)
Definition get_text_representation (b : t) : string :=
  let parts :=
    [ title b;
      Py.join " " (authors b);
      Py.join " " (Py.list_or_nil (subjects b));
      match description b with Some d => d | None => "" end ] in
  Py.join " " (filter (λ p, p ≠ "") parts).

Definition calculate_popularity_score (b : t) : Qc :=
  let edition_score := Py.min (Qc_of_Z (edition_count b) / Qc_of_Z 100) 1 in
  let rating_score := Py.float_or (rating b) 0 / Qc_of_Z 5 in
  edition_score * frac 4 10 + rating_score * frac 6 10.

(** The providers' last step on each book they build
    ([services/api_providers.py]):
    [book.popularity_score = book.calculate_popularity_score()]. *)
Definition assign_popularity_score (b : t) : t :=
  set_popularity_score (Some (calculate_popularity_score b)) b.

End Book.

Module BookRecommendation.

Record t := mk {
  book : Book.t;
  score : Qc;
  algorithm : string;
  reasons : list string
}.

#[global] Instance eq_dec : EqDecision t.
Proof. solve_decision. Defined.

(** [__lt__]: recommendations compare by score alone. *)
Definition lt (a b : t) : Prop := score a < score b.

Definition set_score (s : Qc) (r : t) : t :=
  mk (book r) s (algorithm r) (reasons r).

(** [recommendations.sort(reverse=True)]. *)
Definition sort_reverse (l : list t) : list t := Py.sort_desc score l.

End BookRecommendation.

(** ** models/user.py *)

Module ReadingHistory.

Record t := mk {
  book_id : string;
  title : string;
  authors : list string;
  rating : option Qc;
  read_date : option string;
  status : string;
  review : option string;
  tags : list string
}.

End ReadingHistory.

Module UserProfile.

Record t := mk {
  user_id : string;
  name : string;
  reading_history : list ReadingHistory.t;
  favorite_genres : list string;
  favorite_authors : list string;
  preferences : gmap string string;
  created_at : string
}.

End UserProfile.

(** [if not user_profile or not user_profile.reading_history]. *)
Definition has_history (user_profile : option UserProfile.t) : bool :=
  match user_profile with
  | Some p => match UserProfile.reading_history p with [] => false | _ => true end
  | None => false
  end.

(** ** What the repository takes from its libraries

    [tfidf_cosine texts] stands for
    [cosine_similarity(m[0:1], m[1:]).flatten()] with
    [m = TfidfVectorizer(...).fit_transform(texts)]: the similarity of the
    first text to each of the others, or [None] when scikit-learn raises.
    [format_percent2 x] is [f"{x:.2%}"] and [format_fixed1 x] is [f"{x:.1f}"]. *)
Class PyRuntime := {
  tfidf_cosine : list string → option (list Qc);
  format_percent2 : Qc → string;
  format_fixed1 : Qc → string
}.

(** ** services/ml_recommender.py *)

Module TFIDFRecommender.
Section with_runtime.
Context {rt : PyRuntime}.

Definition get_name : string := "TF-IDF Content-Based".

Definition _preprocess_text (text : string) : string :=
  Py.filter_chars (λ c, Py.is_lower_alnum c || Py.is_space c) (Py.lower text).

Definition _generate_reasons (target candidate : Book.t) (score : Qc) : list string :=
  let common_authors := Py.set_inter (Book.authors target) (Book.authors candidate) in
  let r_authors :=
    match common_authors with
    | [] => []
    | _ => ["Same author: " +:+ Py.join ", " common_authors]
    end in
  let r_subjects :=
    if Py.truthy_list (Book.subjects target) && Py.truthy_list (Book.subjects candidate)
    then
      let common_subjects :=
        Py.set_inter (firstn 5 (Py.list_or_nil (Book.subjects target)))
                     (firstn 5 (Py.list_or_nil (Book.subjects candidate))) in
      match common_subjects with
      | [] => []
      | _ => ["Similar topics: " +:+ Py.join ", " (firstn 3 common_subjects)]
      end
    else [] in
  let r_score := ["Content similarity: " +:+ format_percent2 score] in
  let r_rating :=
    match Book.rating candidate with
    | Some r => if decide (r = 0) then []
                else ["Rating: " +:+ format_fixed1 r +:+ "/5.0"]
    | None => []
    end in
  r_authors ++ r_subjects ++ r_score ++ r_rating.

Definition _apply_user_boost (score : Qc) (book : Book.t)
    (user_profile : UserProfile.t) : Qc :=
  let boost := 1 in
  let boost :=
    if Py.any_in (Book.authors book) (UserProfile.favorite_authors user_profile)
    then boost * frac 13 10 else boost in
  let boost :=
    if Py.truthy_list (Book.subjects book)
       && Py.any_in (Py.list_or_nil (Book.subjects book))
                    (UserProfile.favorite_genres user_profile)
    then boost * frac 12 10 else boost in
  Py.min (score * boost) 1.

(** The loop over [enumerate(similarities)].  [candidates[idx]] raises
    [IndexError] when the vectorizer returned more similarities than there
    are candidates; [None] is that exception. *)
Fixpoint scan (target_book : Book.t) (user_profile : option UserProfile.t)
    (similarities : list Qc) (candidates : list Book.t)
    : option (list BookRecommendation.t) :=
  match similarities with
  | [] => Some []
  | score :: sims =>
      if decide (frac 1 10 < score) then
        match candidates with
        | [] => None
        | book :: rest =>
            let reasons := _generate_reasons target_book book score in
            let score :=
              match user_profile with
              | Some p => _apply_user_boost score book p
              | None => score
              end in
            recs ← scan target_book user_profile sims rest;
            Some (BookRecommendation.mk book score get_name reasons :: recs)
        end
      else scan target_book user_profile sims (tail candidates)
  end.

(** The body of the [try] block. *)
Definition recommend_try (target_book : Book.t) (candidates : list Book.t)
    (user_profile : option UserProfile.t) (top_n : Z)
    : option (list BookRecommendation.t) :=
  let all_books := target_book :: candidates in
  let texts := fmap (λ b, _preprocess_text (Book.get_text_representation b)) all_books in
  similarities ← tfidf_cosine texts;
  recommendations ← scan target_book user_profile similarities candidates;
  Some (Py.take top_n (BookRecommendation.sort_reverse recommendations)).

(** [except Exception: return []]. *)
Definition recommend (target_book : Book.t) (candidates : list Book.t)
    (user_profile : option UserProfile.t) (top_n : Z)
    : list BookRecommendation.t :=
  match recommend_try target_book candidates user_profile top_n with
  | Some recs => recs
  | None => []
  end.

End with_runtime.
End TFIDFRecommender.

Module CollaborativeFilteringRecommender.
Section with_runtime.
Context {rt : PyRuntime}.

Definition get_name : string := "Collaborative Filtering".

(** [entry.rating and entry.rating >= 4.0]. *)
Definition liked (entry : ReadingHistory.t) : bool :=
  match ReadingHistory.rating entry with
  | Some r => bool_decide (r ≠ 0) && bool_decide (Qc_of_Z 4 ≤ r)
  | None => false
  end.

Definition _calculate_item_similarity (book : Book.t)
    (history_entry : ReadingHistory.t) : Qc :=
  let similarity := 0 in
  let similarity :=
    if Py.any_in (Book.authors book) (ReadingHistory.authors history_entry)
    then similarity + frac 5 10 else similarity in
  let similarity :=
    if Py.truthy_list (Book.subjects book)
       && bool_decide (ReadingHistory.tags history_entry ≠ [])
    then
      let subjects5 := firstn 5 (Py.list_or_nil (Book.subjects book)) in
      let common := Py.set_inter subjects5 (ReadingHistory.tags history_entry) in
      match common with
      | [] => similarity
      | _ =>
          similarity
          + frac 3 10
            * (Qc_of_Z (Py.len common)
               / Qc_of_Z (Py.max (Py.len subjects5)
                                 (Py.len (ReadingHistory.tags history_entry))))
      end
    else similarity in
  Py.min similarity 1.

(** One turn of the loop of [_calculate_cf_score] on the pair
    [(score, count)]. *)
Definition cf_step (book : Book.t) (acc : Qc * Z) (entry : ReadingHistory.t)
    : Qc * Z :=
  let '(score, count) := acc in
  match ReadingHistory.rating entry with
  | Some rating =>
      if bool_decide (rating ≠ 0) && bool_decide (Qc_of_Z 4 ≤ rating) then
        let similarity := _calculate_item_similarity book entry in
        if decide (0 < similarity)
        then (score + rating * similarity, (count + 1)%Z)
        else acc
      else acc
  | None => acc
  end.

Definition _calculate_cf_score (book : Book.t) (user_profile : UserProfile.t) : Qc :=
  let '(score, count) :=
    foldl (cf_step book) (0, 0%Z) (UserProfile.reading_history user_profile) in
  if decide (0 < count)%Z then (score / Qc_of_Z count) / Qc_of_Z 5 else 0.

Definition _generate_cf_reasons (book : Book.t) (user_profile : UserProfile.t)
    (score : Qc) : list string :=
  let similar_liked :=
    fmap ReadingHistory.title
      (filter (λ entry, liked entry = true
                 ∧ Py.any_in (Book.authors book) (ReadingHistory.authors entry) = true)
              (UserProfile.reading_history user_profile)) in
  let r_liked :=
    match similar_liked with
    | [] => []
    | first :: _ => ["You enjoyed: " +:+ first]
    end in
  let r_score := ["Match score: " +:+ format_percent2 score] in
  let r_rating :=
    match Book.rating book with
    | Some r => if decide (r = 0) then []
                else ["Community rating: " +:+ format_fixed1 r +:+ "/5.0"]
    | None => []
    end in
  r_liked ++ r_score ++ r_rating.

(** The list built by the loop of [_popularity_based_recommendations],
    before sorting. *)
Fixpoint popularity_candidates (candidates : list Book.t)
    : list BookRecommendation.t :=
  match candidates with
  | [] => []
  | book :: rest =>
      match Book.popularity_score book with
      | Some popularity =>
          if decide (popularity = 0) then popularity_candidates rest
          else
            BookRecommendation.mk book popularity "Popularity-Based"
              ["Popular book with " +:+ Py.str_of_int (Book.edition_count book)
               +:+ " editions"]
            :: popularity_candidates rest
      | None => popularity_candidates rest
      end
  end.

Definition _popularity_based_recommendations (candidates : list Book.t)
    (top_n : Z) : list BookRecommendation.t :=
  Py.take top_n (BookRecommendation.sort_reverse (popularity_candidates candidates)).

(** The list built by the loop of [recommend], before sorting. *)
Fixpoint scored_candidates (candidates : list Book.t)
    (user_profile : UserProfile.t) : list BookRecommendation.t :=
  match candidates with
  | [] => []
  | candidate :: rest =>
      let score := _calculate_cf_score candidate user_profile in
      if decide (0 < score)
      then BookRecommendation.mk candidate score get_name
             (_generate_cf_reasons candidate user_profile score)
           :: scored_candidates rest user_profile
      else scored_candidates rest user_profile
  end.

(** [_build_user_item_matrix] only writes [self.user_item_matrix], which
    nothing reads; the [try] block raises nothing here, so its handler is
    left out. *)
Definition recommend (target_book : Book.t) (candidates : list Book.t)
    (user_profile : option UserProfile.t) (top_n : Z)
    : list BookRecommendation.t :=
  match user_profile with
  | Some p =>
      if has_history user_profile
      then Py.take top_n
             (BookRecommendation.sort_reverse (scored_candidates candidates p))
      else _popularity_based_recommendations candidates top_n
  | None => _popularity_based_recommendations candidates top_n
  end.

End with_runtime.
End CollaborativeFilteringRecommender.

Module MLRecommender.
Section with_runtime.
Context {rt : PyRuntime}.

Definition get_name : string := "Hybrid ML".

(** [self.strategies], in order. *)
Inductive strategy := TFIDF | CollaborativeFiltering.

Definition strategies : list strategy := [TFIDF; CollaborativeFiltering].

Definition strategy_name (s : strategy) : string :=
  match s with
  | TFIDF => TFIDFRecommender.get_name
  | CollaborativeFiltering => CollaborativeFilteringRecommender.get_name
  end.

Definition strategy_recommend (s : strategy) (target_book : Book.t)
    (candidates : list Book.t) (user_profile : option UserProfile.t) (top_n : Z)
    : list BookRecommendation.t :=
  match s with
  | TFIDF => TFIDFRecommender.recommend target_book candidates user_profile top_n
  | CollaborativeFiltering =>
      CollaborativeFilteringRecommender.recommend target_book candidates
        user_profile top_n
  end.

(** [self.weights.get(name, 0.5)]. *)
Definition weights : list (string * Qc) :=
  [("TF-IDF Content-Based", frac 6 10); ("Collaborative Filtering", frac 4 10)].

Definition weights_get (name : string) (default : Qc) : Qc :=
  match list_find (λ kv, kv.1 = name) weights with
  | Some (_, (_, w)) => w
  | None => default
  end.

(** A value of the dict [all_recommendations].  The set [reasons] is kept
    as a list without repetition, in order of insertion. *)
Record entry := mk_entry {
  e_book : Book.t;
  e_scores : list Qc;
  e_reasons : list string;
  e_algorithms : list string
}.

(** [rec.book.work_id or rec.book.title]. *)
Definition book_id (b : Book.t) : string :=
  match Book.work_id b with
  | Some w => if decide (w = "") then Book.title b else w
  | None => Book.title b
  end.

Definition set_update (s new : list string) : list string :=
  foldl (λ acc x, if decide (x ∈ acc) then acc else acc ++ [x]) s new.

Definition record_rec (weight : Qc) (rec : BookRecommendation.t) (e : entry) : entry :=
  mk_entry (e_book e)
    (e_scores e ++ [BookRecommendation.score rec * weight])
    (set_update (e_reasons e) (BookRecommendation.reasons rec))
    (e_algorithms e ++ [BookRecommendation.algorithm rec]).

(** The body of [for rec in recs] on the dict, an association list in
    insertion order. *)
Fixpoint add_rec (weight : Qc) (rec : BookRecommendation.t)
    (all_recommendations : list (string * entry)) : list (string * entry) :=
  match all_recommendations with
  | [] =>
      [(book_id (BookRecommendation.book rec),
        record_rec weight rec (mk_entry (BookRecommendation.book rec) [] [] []))]
  | (k, e) :: rest =>
      if decide (k = book_id (BookRecommendation.book rec))
      then (k, record_rec weight rec e) :: rest
      else (k, e) :: add_rec weight rec rest
  end.

Definition add_recs (weight : Qc) (recs : list BookRecommendation.t)
    (all_recommendations : list (string * entry)) : list (string * entry) :=
  foldl (λ all rec, add_rec weight rec all) all_recommendations recs.

(** The first loop of [recommend], given what each strategy returned. *)
Definition merge (results : list (strategy * list BookRecommendation.t))
    : list (string * entry) :=
  foldl (λ all sr, add_recs (weights_get (strategy_name sr.1) (frac 5 10)) sr.2 all)
        [] results.

(** The body of the second loop: one merged book to one recommendation. *)
Definition combine (data : entry) : BookRecommendation.t :=
  let combined_score := Py.sum (e_scores data) / Qc_of_Z (Py.len strategies) in
  let combined_score :=
    if decide (1 < Py.len (e_algorithms data))%Z
    then combined_score * frac 12 10 else combined_score in
  let reasons :=
    firstn 4 (e_reasons data)
    ++ ["Recommended by: " +:+ Py.join ", " (e_algorithms data)] in
  BookRecommendation.mk (e_book data) (Py.min combined_score 1) get_name reasons.

(** [hybrid_recommendations] before sorting: one recommendation per
    identity, in the order the identities were first seen. *)
Definition hybrid_recommendations
    (results : list (strategy * list BookRecommendation.t))
    : list BookRecommendation.t :=
  fmap (λ kv, combine kv.2) (merge results).

(** Both strategies catch what they raise, so the [try] block raises
    nothing here and its handler is left out. *)
Definition recommend (target_book : Book.t) (candidates : list Book.t)
    (user_profile : option UserProfile.t) (top_n : Z)
    : list BookRecommendation.t :=
  let results :=
    fmap (λ s, (s, strategy_recommend s target_book candidates user_profile
                    (top_n * 2)%Z))
        strategies in
  Py.take top_n (BookRecommendation.sort_reverse (hybrid_recommendations results)).

End with_runtime.
End MLRecommender.

(** ** services/recommendation_engine.py *)

Module SentimentAnalyzer.

Definition POSITIVE_WORDS : list string :=
  [ "excellent"; "amazing"; "wonderful"; "brilliant"; "outstanding"; "fantastic";
    "great"; "good"; "best"; "love"; "beautiful"; "perfect"; "incredible";
    "masterpiece"; "compelling"; "engaging"; "captivating"; "thrilling";
    "inspiring"; "powerful"; "moving"; "delightful"; "entertaining" ].

Definition NEGATIVE_WORDS : list string :=
  [ "bad"; "terrible"; "awful"; "horrible"; "poor"; "worst"; "disappointing";
    "boring"; "dull"; "weak"; "confusing"; "tedious"; "mediocre"; "bland";
    "predictable"; "slow"; "disappointing"; "frustrating" ].

Definition analyze (text : string) : Qc :=
  if decide (text = "") then 0
  else
    let words := Py.findall_words (Py.lower text) in
    let positive_count := Py.len (filter (λ w, w ∈ POSITIVE_WORDS) words) in
    let negative_count := Py.len (filter (λ w, w ∈ NEGATIVE_WORDS) words) in
    let total := (positive_count + negative_count)%Z in
    if decide (total = 0%Z) then 0
    else Qc_of_Z (positive_count - negative_count) / Qc_of_Z total.

Definition get_sentiment_label (score : Qc) : string :=
  if decide (frac 3 10 < score) then "Positive"
  else if decide (score < frac (-3) 10) then "Negative"
  else "Neutral".

End SentimentAnalyzer.

(** The list objects a caller shares with the engine, by address: a call
    that sorts the list it was given changes what the caller sees. *)
Module Heap.

Abbreviation ref := nat (only parsing).
Abbreviation t := (list (list Book.t)) (only parsing).
Definition M (A : Type) : Type := t → A * t.

Definition ret {A} (x : A) : M A := λ h, (x, h).
Definition bind {A B} (m : M A) (k : A → M B) : M B :=
  λ h, let '(x, h') := m h in k x h'.

(** Reading a list, building a fresh one, and [list.sort] in place. *)
Definition read (r : ref) : M (list Book.t) := λ h, (default [] (h !! r), h).
Definition alloc (l : list Book.t) : M ref := λ h, (length h, h ++ [l]).
Definition sort_in_place (key : Book.t → Qc) (r : ref) : M unit :=
  λ h, (tt, alter (Py.sort_desc key) r h).

End Heap.

Notation "'let*' x := m 'in' k" := (Heap.bind m (λ x, k))
  (at level 10, x name, m at level 100, k at level 200, only parsing).

Module RecommendationEngine.
Section with_runtime.
Context {rt : PyRuntime}.

(** [self.recommender], chosen by [__init__]. *)
Inductive recommender := Hybrid | TFIDF | Collaborative.

Definition init (strategy : string) : recommender :=
  if decide (strategy = "hybrid") then Hybrid
  else if decide (strategy = "tfidf") then TFIDF
  else if decide (strategy = "collaborative") then Collaborative
  else Hybrid.

Definition recommender_recommend (self : recommender) (target_book : Book.t)
    (candidates : list Book.t) (user_profile : option UserProfile.t) (top_n : Z)
    : list BookRecommendation.t :=
  match self with
  | Hybrid => MLRecommender.recommend target_book candidates user_profile top_n
  | TFIDF => TFIDFRecommender.recommend target_book candidates user_profile top_n
  | Collaborative =>
      CollaborativeFilteringRecommender.recommend target_book candidates
        user_profile top_n
  end.

(** The body of the loop of [_enrich_with_sentiment] on one book. *)
Definition enrich_book (book : Book.t) : Book.t :=
  if Py.truthy_str (Book.description book)
     && negb (Py.truthy_float (Book.sentiment_score book))
  then Book.set_sentiment_score
         (Some (SentimentAnalyzer.analyze (default "" (Book.description book))))
         book
  else book.

(** The books after the call. *)
Definition _enrich_with_sentiment (books : list Book.t) : list Book.t :=
  fmap enrich_book books.

(** [rec.book.page_count and rec.book.page_count < bound]. *)
Definition pages_below (bound : Z) (rec : BookRecommendation.t) : bool :=
  match Book.page_count (BookRecommendation.book rec) with
  | Some n => bool_decide (n ≠ 0%Z) && bool_decide (n < bound)%Z
  | None => false
  end.

Definition pages_above (bound : Z) (rec : BookRecommendation.t) : bool :=
  match Book.page_count (BookRecommendation.book rec) with
  | Some n => bool_decide (n ≠ 0%Z) && bool_decide (bound < n)%Z
  | None => false
  end.

Definition night_boost (rec : BookRecommendation.t) : BookRecommendation.t :=
  if pages_below 300 rec
  then BookRecommendation.set_score (BookRecommendation.score rec * frac 11 10) rec
  else rec.

Definition _apply_context_filters (recommendations : list BookRecommendation.t)
    (context : gmap string string) : list BookRecommendation.t :=
  let filtered := recommendations in
  let filtered :=
    match context !! "time_of_day" with
    | Some time => if decide (time = "night") then fmap night_boost filtered
                   else filtered
    | None => filtered
    end in
  let filtered :=
    match context !! "reading_goal" with
    | Some goal =>
        if decide (goal = "quick_read")
        then filter (λ r, Py.truthy_int (Book.page_count (BookRecommendation.book r))
                            = false ∨ pages_below 400 r = true) filtered
        else if decide (goal = "deep_dive")
        then filter (λ r, pages_above 300 r = true) filtered
        else filtered
    | None => filtered
    end in
  BookRecommendation.sort_reverse filtered.

(** The first loop of [_ensure_diversity]; [diverse_recs] grows at its
    end, and the [break] returns it. *)
Fixpoint first_pass (top_n : Z) (recommendations : list BookRecommendation.t)
    (diverse_recs : list BookRecommendation.t)
    (seen_authors seen_subjects : gset string) : list BookRecommendation.t :=
  match recommendations with
  | [] => diverse_recs
  | rec :: rest =>
      if decide (top_n ≤ Py.len diverse_recs)%Z then diverse_recs
      else
        let book := BookRecommendation.book rec in
        let authors_new :=
          negb (existsb (λ author, bool_decide (author ∈ seen_authors))
                        (Book.authors book)) in
        let subjects3 := firstn 3 (Py.list_or_nil (Book.subjects book)) in
        let subjects_new :=
          if Py.truthy_list (Book.subjects book)
          then negb (existsb (λ subj, bool_decide (subj ∈ seen_subjects)) subjects3)
          else true in
        if authors_new || subjects_new
           || bool_decide (Py.len diverse_recs < top_n `div` 2)%Z
        then
          first_pass top_n rest (diverse_recs ++ [rec])
            (seen_authors ∪ list_to_set (Book.authors book))
            (if Py.truthy_list (Book.subjects book)
             then seen_subjects ∪ list_to_set subjects3 else seen_subjects)
        else first_pass top_n rest diverse_recs seen_authors seen_subjects
  end.

(** The second loop; [rec not in diverse_recs] is equality of all fields. *)
Fixpoint fill (top_n : Z) (recommendations : list BookRecommendation.t)
    (diverse_recs : list BookRecommendation.t) : list BookRecommendation.t :=
  match recommendations with
  | [] => diverse_recs
  | rec :: rest =>
      if decide (rec ∈ diverse_recs) then fill top_n rest diverse_recs
      else
        let diverse_recs := diverse_recs ++ [rec] in
        if decide (top_n ≤ Py.len diverse_recs)%Z then diverse_recs
        else fill top_n rest diverse_recs
  end.

Definition _ensure_diversity (recommendations : list BookRecommendation.t)
    (top_n : Z) : list BookRecommendation.t :=
  if decide (Py.len recommendations ≤ top_n)%Z then recommendations
  else
    let diverse_recs := first_pass top_n recommendations [] ∅ ∅ in
    if decide (Py.len diverse_recs < top_n)%Z
    then fill top_n recommendations diverse_recs
    else diverse_recs.

(** [recommendations] as it reaches [_ensure_diversity]: what the
    recommender returned for [top_n*2], adjusted when a non-empty context
    is given. *)
Definition ranked_recommendations (self : recommender) (target_book : Book.t)
    (candidates : list Book.t) (user_profile : option UserProfile.t)
    (context : option (gmap string string)) (top_n : Z)
    : list BookRecommendation.t :=
  let recommendations :=
    recommender_recommend self target_book candidates user_profile (top_n * 2)%Z in
  match context with
  | Some c => if decide (c = ∅) then recommendations
              else _apply_context_filters recommendations c
  | None => recommendations
  end.

(** [get_recommendations]: the candidates after the call (their
    [sentiment_score] may have been written) and the returned list.  No
    step of the [try] block raises here, so its handler is left out. *)
Definition get_recommendations_state (self : recommender) (target_book : Book.t)
    (candidates : list Book.t) (user_profile : option UserProfile.t)
    (context : option (gmap string string)) (top_n : Z)
    : list Book.t * list BookRecommendation.t :=
  let candidates := _enrich_with_sentiment candidates in
  let recommendations :=
    ranked_recommendations self target_book candidates user_profile context
      top_n in
  let recommendations := _ensure_diversity recommendations top_n in
  (candidates, Py.take top_n recommendations).

Definition get_recommendations (self : recommender) (target_book : Book.t)
    (candidates : list Book.t) (user_profile : option UserProfile.t)
    (context : option (gmap string string)) (top_n : Z)
    : list BookRecommendation.t :=
  (get_recommendations_state self target_book candidates user_profile context
     top_n).2.

(** The three comprehensions that filter by time window. *)
Definition is_recent (current_year : Z) (b : Book.t) : bool :=
  bool_decide (Book.year b ≠ 0%Z) && bool_decide (current_year - 2 ≤ Book.year b)%Z.
Definition is_this_year (current_year : Z) (b : Book.t) : bool :=
  bool_decide (Book.year b = current_year).
Definition is_classic (b : Book.t) : bool :=
  bool_decide (Book.year b ≠ 0%Z) && bool_decide (Book.year b < 2000)%Z.

Definition popularity_key (b : Book.t) : Qc :=
  Py.float_or (Book.popularity_score b) 0.

Definition trending_recommendation (book : Book.t) : BookRecommendation.t :=
  BookRecommendation.mk book
    (Py.float_or (Book.popularity_score book) (frac 5 10))
    "Trending"
    [ "Published in " +:+ Py.str_of_int (Book.year book);
      Py.str_of_int (Book.edition_count book) +:+ " editions";
      match Book.rating book with
      | Some r => if decide (r = 0) then "Popular choice"
                  else "Rating: " +:+ format_fixed1 r +:+ "/5.0"
      | None => "Popular choice"
      end ].

(** [get_trending_recommendations]; [current_year] is
    [datetime.now().year] and [candidates] the address of the caller's
    list. *)
Definition get_trending_recommendations (current_year : Z)
    (candidates : Heap.ref) (time_window : string) (top_n : Z)
    : Heap.M (list BookRecommendation.t) :=
  let* books := Heap.read candidates in
  let* filtered :=
    (if decide (time_window = "recent")
     then Heap.alloc (filter (λ b, is_recent current_year b = true) books)
     else if decide (time_window = "this_year")
     then Heap.alloc (filter (λ b, is_this_year current_year b = true) books)
     else if decide (time_window = "classic")
     then Heap.alloc (filter (λ b, is_classic b = true) books)
     else Heap.ret candidates) in
  let* _ := Heap.sort_in_place popularity_key filtered in
  let* sorted := Heap.read filtered in
  Heap.ret (fmap trending_recommendation (Py.take top_n sorted)).

Definition mood_genres : list (string * list string) :=
  [ ("happy", ["comedy"; "romance"; "humor"; "feel-good"]);
    ("sad", ["drama"; "literary fiction"; "poetry"]);
    ("adventurous", ["adventure"; "action"; "thriller"; "fantasy"]);
    ("thoughtful", ["philosophy"; "non-fiction"; "science"; "history"]);
    ("relaxed", ["mystery"; "cozy"; "light fiction"; "travel"]) ].

(** [mood_genres.get(key, [])]. *)
Definition mood_genres_get (key : string) : list string :=
  match list_find (λ kv, kv.1 = key) mood_genres with
  | Some (_, (_, genres)) => genres
  | None => []
  end.

Definition mood_score (target_genres : list string) (mood : string)
    (book : Book.t) : Qc :=
  let score :=
    if Py.truthy_list (Book.subjects book) then
      let book_genres := fmap Py.lower (Py.list_or_nil (Book.subjects book)) in
      let matches :=
        Py.len (filter (λ genre, existsb (Py.contains genre) book_genres = true)
                       target_genres) in
      match target_genres with
      | [] => 0
      | _ => Qc_of_Z matches / Qc_of_Z (Py.len target_genres)
      end
    else 0 in
  match Book.sentiment_score book with
  | Some sentiment =>
      if decide (sentiment = 0) then score
      else if decide (mood = "happy" ∧ 0 < sentiment) then score * frac 12 10
      else if decide (mood = "sad" ∧ sentiment < 0) then score * frac 12 10
      else score
  | None => score
  end.

(** [scored_books] before sorting. *)
Definition scored_books (candidates : list Book.t) (mood : string)
    : list (Book.t * Qc) :=
  let target_genres := mood_genres_get (Py.lower mood) in
  filter (λ bs, 0 < bs.2)
         (fmap (λ book, (book, mood_score target_genres mood book)) candidates).

Definition mood_recommendation (mood : string) (bs : Book.t * Qc)
    : BookRecommendation.t :=
  let '(book, score) := bs in
  BookRecommendation.mk book score "Mood-Based"
    [ "Matches '" +:+ mood +:+ "' mood";
      "Genres: " +:+
        (if Py.truthy_list (Book.subjects book)
         then Py.join ", " (firstn 3 (Py.list_or_nil (Book.subjects book)))
         else "Various");
      "Sentiment: " +:+
        SentimentAnalyzer.get_sentiment_label
          (Py.float_or (Book.sentiment_score book) 0) ].

Definition get_mood_based_recommendations (candidates : list Book.t)
    (mood : string) (top_n : Z) : list BookRecommendation.t :=
  fmap (mood_recommendation mood)
      (Py.take top_n (Py.sort_desc snd (scored_books candidates mood))).

End with_runtime.
End RecommendationEngine.


(** ** Further code of the same files *)

(** [sorted(l, key=key, reverse=True)] for an [int] key: stable, into
    non-increasing key order. *)
Module PyInt.

Fixpoint insert_desc {A} (key : A → Z) (x : A) (l : list A) : list A :=
  match l with
  | [] => [x]
  | y :: l' =>
      if decide (key x < key y)%Z then y :: insert_desc key x l' else x :: l
  end.

Definition sort_desc {A} (key : A → Z) (l : list A) : list A :=
  foldr (insert_desc key) [] l.

End PyInt.

(** The methods of [UserProfile] ([models/user.py]). *)
Module UserProfileMethods.

(** A dict of counts, in insertion order. *)
Abbreviation counts := (list (string * Z)) (only parsing).

(** [counts.get(k, 0)]. *)
Fixpoint counts_get (k : string) (c : counts) : Z :=
  match c with
  | [] => 0%Z
  | (k', n) :: rest => if decide (k' = k) then n else counts_get k rest
  end.

(** [counts[k] = counts.get(k, 0) + 1]. *)
Fixpoint increment (k : string) (c : counts) : counts :=
  match c with
  | [] => [(k, 1%Z)]
  | (k', n) :: rest =>
      if decide (k' = k) then (k', (n + 1)%Z) :: rest
      else (k', n) :: increment k rest
  end.

(** [for k in keys: counts[k] = counts.get(k, 0) + 1]. *)
Definition count_all (keys : list string) (c : counts) : counts :=
  foldl (λ c k, increment k c) c keys.

(** The body of the loop of [_update_preferences] on the pair
    [(genre_counts, author_counts)]. *)
Definition count_entry (acc : counts * counts) (entry : ReadingHistory.t)
    : counts * counts :=
  let '(genre_counts, author_counts) := acc in
  if CollaborativeFilteringRecommender.liked entry
  then (count_all (ReadingHistory.tags entry) genre_counts,
        count_all (ReadingHistory.authors entry) author_counts)
  else acc.

(** [sorted(counts.keys(), key=lambda x: counts[x], reverse=True)[:10]]. *)
Definition top_keys (c : counts) : list string :=
  take 10 (PyInt.sort_desc (λ x, counts_get x c) c.*1).

Definition set_favorites (genres authors : list string) (p : UserProfile.t)
    : UserProfile.t :=
  UserProfile.mk (UserProfile.user_id p) (UserProfile.name p)
    (UserProfile.reading_history p) genres authors
    (UserProfile.preferences p) (UserProfile.created_at p).

Definition _update_preferences (self : UserProfile.t) : UserProfile.t :=
  let '(genre_counts, author_counts) :=
    foldl count_entry ([], []) (UserProfile.reading_history self) in
  set_favorites (top_keys genre_counts) (top_keys author_counts) self.

Definition add_to_history (history_entry : ReadingHistory.t) (self : UserProfile.t)
    : UserProfile.t :=
  _update_preferences
    (UserProfile.mk (UserProfile.user_id self) (UserProfile.name self)
       (UserProfile.reading_history self ++ [history_entry])
       (UserProfile.favorite_genres self) (UserProfile.favorite_authors self)
       (UserProfile.preferences self) (UserProfile.created_at self)).

(** [[h.rating for h in self.reading_history if h.rating]]. *)
Fixpoint truthy_ratings (history : list ReadingHistory.t) : list Qc :=
  match history with
  | [] => []
  | h :: rest =>
      match ReadingHistory.rating h with
      | Some r => if decide (r = 0) then truthy_ratings rest
                  else r :: truthy_ratings rest
      | None => truthy_ratings rest
      end
  end.

Definition get_average_rating (self : UserProfile.t) : Qc :=
  let ratings := truthy_ratings (UserProfile.reading_history self) in
  match ratings with
  | [] => 0
  | _ => Py.sum ratings / Qc_of_Z (Py.len ratings)
  end.

Definition get_read_books_count (self : UserProfile.t) : Z :=
  Py.len (filter (λ h, ReadingHistory.status h = "read")
                 (UserProfile.reading_history self)).

End UserProfileMethods.

(** [utils/validators.py].  [float(s)] is Python's own parser: [None] is
    its [ValueError]; the values it returns that are no rationals ([nan],
    [inf]) fail the range test below like any other value out of range. *)
Class PyFloat := {
  float_of_string : string → option Qc
}.

Module Validators.
Section with_parser.
Context {parser : PyFloat}.

Definition validate_rating_input (rating_str : string) : option Qc :=
  if decide (rating_str = "") then None
  else
    match float_of_string rating_str with
    | Some rating =>
        if decide (0 ≤ rating ∧ rating ≤ Qc_of_Z 5) then Some rating else None
    | None => None
    end.

End with_parser.
End Validators.

(** The history entry the command-line interface builds from a book of the
    last search ([ui/cli.py], [show_profile]). *)
Module CLI.

(** [ReadingHistory(book_id=book.work_id or book.title, ...,
    tags=book.subjects[:5] if book.subjects else [])]. *)
Definition history_entry (book : Book.t) (rating : option Qc) (status : string)
    : ReadingHistory.t :=
  ReadingHistory.mk (MLRecommender.book_id book) (Book.title book)
    (Book.authors book) rating None status None
    (if Py.truthy_list (Book.subjects book)
     then firstn 5 (Py.list_or_nil (Book.subjects book)) else []).

(** The branch of [show_profile] that adds a book of the last search: the
    rating is what [validate_rating_input] makes of the answer typed. *)
Definition add_book `{parser : PyFloat} (book : Book.t) (rating_str : string)
    (status : string) (user_profile : UserProfile.t) : UserProfile.t :=
  let rating := Validators.validate_rating_input rating_str in
  UserProfileMethods.add_to_history (history_entry book rating status)
    user_profile.

End CLI.

(** * Properties *)

(** ** Vocabulary of the statements *)

(** Non-increasing in [key] from first to last element. *)
Definition descending {A} (key : A → Qc) (l : list A) : Prop :=
  StronglySorted (λ a b, key b ≤ key a) l.

Definition non_increasing (l : list BookRecommendation.t) : Prop :=
  descending BookRecommendation.score l.

(** Recommendations of equal score list their books in the order of [src]. *)
Definition ties_in_order (src : list Book.t) (out : list BookRecommendation.t)
    : Prop :=
  ∀ s, BookRecommendation.book
         <$> filter (λ r, BookRecommendation.score r = s) out
       `sublist_of` src.

(** ** The formulas of the specification, in its words *)

(** Popularity:
    [min(edition_count/100, 1.0)*0.4 + (rating or 0)/5.0*0.6]. *)
Definition popularity_formula (edition_count : Z) (rating : option Qc) : Qc :=
  let editions := Qc_of_Z edition_count / Qc_of_Z 100 in
  (if decide (editions ≤ 1) then editions else 1) * frac 4 10
  + default 0 rating / Qc_of_Z 5 * frac 6 10.

(** Preference Matcher.  Some author of the candidate is an author of the
    history entry. *)
Definition author_overlap (book : Book.t) (entry : ReadingHistory.t) : Prop :=
  Exists (λ author, author ∈ ReadingHistory.authors entry) (Book.authors book).

(** The number of subjects the two collections share. *)
Definition overlap_count (subjects tags : list string) : Z :=
  Z.of_nat (size ((list_to_set subjects : gset string) ∩ list_to_set tags)).

(** 0.5 if any author overlaps, plus 0.3 times
    [overlap_count / max(|candidate.subjects[:5]|, |entry.tags|)], capped
    at 1.0. *)
Definition similarity_formula (book : Book.t) (entry : ReadingHistory.t) : Qc :=
  let subjects5 := take 5 (default [] (Book.subjects book)) in
  let tags := ReadingHistory.tags entry in
  let largest := Z.max (Py.len subjects5) (Py.len tags) in
  let fraction :=
    if decide (largest = 0%Z) then 0
    else Qc_of_Z (overlap_count subjects5 tags) / Qc_of_Z largest in
  let similarity :=
    (if decide (author_overlap book entry) then frac 5 10 else 0)
    + frac 3 10 * fraction in
  if decide (similarity ≤ 1) then similarity else 1.

(** The similarity as the claim words it: the overlap is divided by the
    larger of the two set sizes, so that a repeated subject or tag counts
    once. *)
Definition similarity_as_claimed (book : Book.t) (entry : ReadingHistory.t) : Qc :=
  let subjects5 : gset string :=
    list_to_set (take 5 (default [] (Book.subjects book))) in
  let tags : gset string := list_to_set (ReadingHistory.tags entry) in
  let largest := Z.max (Z.of_nat (size subjects5)) (Z.of_nat (size tags)) in
  let fraction :=
    if decide (largest = 0%Z) then 0
    else Qc_of_Z (Z.of_nat (size (subjects5 ∩ tags))) / Qc_of_Z largest in
  let similarity :=
    (if decide (author_overlap book entry) then frac 5 10 else 0)
    + frac 3 10 * fraction in
  if decide (similarity ≤ 1) then similarity else 1.

(** An entry counts when it is rated at least 4.0 and is similar at all. *)
Definition qualifies (book : Book.t) (entry : ReadingHistory.t) : Prop :=
  match ReadingHistory.rating entry with
  | Some rating => Qc_of_Z 4 ≤ rating ∧ 0 < similarity_formula book entry
  | None => False
  end.

#[global] Instance qualifies_dec book entry : Decision (qualifies book entry).
Proof. unfold qualifies. destruct (ReadingHistory.rating entry); apply _. Defined.

Definition total (xs : list Qc) : Qc := foldr Qcplus 0 xs.

(** [(sum/count)/5.0] over the qualifying entries, 0 when there is none. *)
Definition cf_score_formula (book : Book.t) (history : list ReadingHistory.t) : Qc :=
  let qualifying := filter (qualifies book) history in
  let count := Py.len qualifying in
  if decide (0 < count)%Z
  then total ((λ entry, default 0 (ReadingHistory.rating entry)
                        * similarity_formula book entry) <$> qualifying)
       / Qc_of_Z count / Qc_of_Z 5
  else 0.

(** The data model's range of a rating: 0 to 5. *)
Definition ratings_in_range (history : list ReadingHistory.t) : Prop :=
  Forall (λ entry, ∀ r, ReadingHistory.rating entry = Some r → 0 ≤ r ≤ Qc_of_Z 5)
         history.

(** ** Concrete inputs used by the examples below *)

(** A runtime for the examples: no candidate shares a term with the target,
    so every similarity is 0; numbers print as a placeholder. *)
Definition runtime_unrelated_texts : PyRuntime := {|
  tfidf_cosine := λ texts, Some (replicate (length texts - 1) 0);
  format_percent2 := λ _, "?";
  format_fixed1 := λ _, "?"
|}.

(** A runtime whose vectorizer raises. *)
Definition runtime_vectorizer_raises : PyRuntime := {|
  tfidf_cosine := λ _, None;
  format_percent2 := λ _, "?";
  format_fixed1 := λ _, "?"
|}.

(** [Book(title, authors, year, edition_count)] with the optional fields at
    their defaults. *)
Definition plain_book (title : string) (authors : list string) (year : Z)
    (edition_count : Z) : Book.t :=
  Book.mk title authors year edition_count None None None None None None None
    None None None None None None.

Definition with_subjects (subjects : list string) (b : Book.t) : Book.t :=
  Book.mk (Book.title b) (Book.authors b) (Book.year b) (Book.edition_count b)
    (Book.cover_id b) (Some subjects) (Book.description b) (Book.work_id b)
    (Book.rating b) (Book.cover_url b) (Book.isbn b) (Book.publisher b)
    (Book.language b) (Book.page_count b) (Book.embedding b)
    (Book.sentiment_score b) (Book.popularity_score b).

Definition dune : Book.t :=
  with_subjects ["science fiction"; "desert"; "politics"]
    (plain_book "Dune" ["Frank Herbert"] 1965 120).

Definition reader : UserProfile.t :=
  UserProfile.mk "u1" "User"
    [ ReadingHistory.mk "OL1W" "Children of Dune" ["Frank Herbert"]
        (Some (Qc_of_Z 5)) None "read" None ["science fiction"; "classic"];
      ReadingHistory.mk "OL2W" "Emma" ["Jane Austen"]
        (Some (frac 9 2)) None "read" None ["romance"];
      ReadingHistory.mk "OL3W" "Foundation" ["Isaac Asimov"]
        (Some (Qc_of_Z 3)) None "read" None ["science fiction"] ]
    ["science fiction"] ["Frank Herbert"] ∅ "2024-01-01T00:00:00".

(** A book on one subject and a liked entry that carries that tag twice;
    a reader whose one entry is rated 12, above the range of ratings. *)
Definition mistborn : Book.t :=
  with_subjects ["fantasy"] (plain_book "Mistborn" ["Brandon Sanderson"] 2006 30).

Definition twice_tagged : ReadingHistory.t :=
  ReadingHistory.mk "OL7W" "Eragon" ["Christopher Paolini"] (Some (Qc_of_Z 5))
    None "read" None ["fantasy"; "fantasy"].

Definition overrating_reader : UserProfile.t :=
  UserProfile.mk "u2" "User"
    [ ReadingHistory.mk "OL1W" "Children of Dune" ["Frank Herbert"]
        (Some (Qc_of_Z 12)) None "read" None [] ]
    [] [] ∅ "2024-01-01T00:00:00".

Definition with_popularity (p : Qc) (b : Book.t) : Book.t :=
  Book.set_popularity_score (Some p) b.

(** A book no provider has scored yet, and three scored ones. *)
Definition emma : Book.t := plain_book "Emma" ["Jane Austen"] 1815 40.
Definition book_09 : Book.t := with_popularity (frac 9 10) dune.
Definition book_05 : Book.t :=
  with_popularity (frac 5 10) (plain_book "Persuasion" ["Jane Austen"] 1817 30).
Definition book_02 : Book.t :=
  with_popularity (frac 2 10) (plain_book "Ubik" ["Philip K. Dick"] 1969 12).

(** ** Popularity fallback of the Preference Matcher *)

(** The reading "returns all candidates": the books of the result are the
    candidates, in some order. *)
Definition returns_all (candidates : list Book.t)
    (result : list BookRecommendation.t) : Prop :=
  BookRecommendation.book <$> result ≡ₚ candidates.

(** A candidate the fallback keeps: [if book.popularity_score:]. *)
Definition has_popularity (b : Book.t) : Prop :=
  Py.truthy_float (Book.popularity_score b) = true.

(** What every recommendation of the fallback carries. *)
Definition popularity_labelled (r : BookRecommendation.t) : Prop :=
  BookRecommendation.algorithm r = "Popularity-Based"
  ∧ Book.popularity_score (BookRecommendation.book r)
    = Some (BookRecommendation.score r)
  ∧ BookRecommendation.reasons r
    = ["Popular book with "
       +:+ Py.str_of_int (Book.edition_count (BookRecommendation.book r))
       +:+ " editions"].

(** ** Trending *)

(** The rank the claims name: the book's [popularity_score], an absent one
    counting as 0. *)
Definition popularity_or_zero (b : Book.t) : Qc :=
  default 0 (Book.popularity_score b).

Definition recognized_windows : list string := ["recent"; "this_year"; "classic"].

(** The windows as the claim words them. *)
Definition window_as_claimed (current_year : Z) (time_window : string) (year : Z)
    : Prop :=
  if decide (time_window = "recent") then (current_year - 2 ≤ year)%Z
  else if decide (time_window = "this_year") then year = current_year
  else if decide (time_window = "classic") then (year < 2000)%Z
  else True.

(** The windows as the code filters: a year of 0, an unknown year, is in
    neither "recent" nor "classic". *)
Definition window_keeps (current_year : Z) (time_window : string) (year : Z)
    : Prop :=
  if decide (time_window = "recent")
  then year ≠ 0%Z ∧ (current_year - 2 ≤ year)%Z
  else if decide (time_window = "this_year") then year = current_year
  else if decide (time_window = "classic") then year ≠ 0%Z ∧ (year < 2000)%Z
  else True.

#[global] Instance window_keeps_dec current_year time_window year :
  Decision (window_keeps current_year time_window year).
Proof. unfold window_keeps. repeat case_decide; apply _. Defined.

(** A book of unknown year, a classic and a recent one. *)
Definition undated : Book.t :=
  with_popularity (frac 5 10) (plain_book "Beowulf" ["Unknown"] 0 25).
Definition book_1950 : Book.t :=
  with_popularity (frac 3 10) (plain_book "I, Robot" ["Isaac Asimov"] 1950 60).
Definition book_2023 : Book.t :=
  with_popularity (frac 7 10) (plain_book "Yellowface" ["R. F. Kuang"] 2023 15).

(** ** Inputs for the sentiment, boost and hybrid examples *)

Definition with_description (d : string) (b : Book.t) : Book.t :=
  Book.set_description (Some d) b.

Definition with_sentiment (s : Qc) (b : Book.t) : Book.t :=
  Book.set_sentiment_score (Some s) b.

Definition with_page_count (n : Z) (b : Book.t) : Book.t :=
  Book.mk (Book.title b) (Book.authors b) (Book.year b) (Book.edition_count b)
    (Book.cover_id b) (Book.subjects b) (Book.description b) (Book.work_id b)
    (Book.rating b) (Book.cover_url b) (Book.isbn b) (Book.publisher b)
    (Book.language b) (Some n) (Book.embedding b)
    (Book.sentiment_score b) (Book.popularity_score b).

(** A book whose description has no word of either lexicon. *)
Definition village_story : Book.t :=
  with_description "A story about a village."
    (plain_book "The Village" ["A. Writer"] 1999 3).

(** A book on all four "happy" genres with a positive sentiment score. *)
Definition feel_good_book : Book.t :=
  with_sentiment (frac 1 2)
    (with_subjects ["Comedy"; "Romance"; "Humor"; "Feel-good fiction"]
       (plain_book "Joy" ["Ann Author"] 2010 7)).

(** A short edition of the target itself, and a runtime for which its text
    has similarity 1 to the target's. *)
Definition dune_paperback : Book.t := with_page_count 250 dune.

Definition runtime_identical_texts : PyRuntime := {|
  tfidf_cosine := λ texts, Some (replicate (length texts - 1) 1);
  format_percent2 := λ _, "?";
  format_fixed1 := λ _, "?"
|}.

(** Two editions under one title, neither with a [work_id]. *)
Definition messiah_1969 : Book.t :=
  with_popularity (frac 9 10) (plain_book "Dune Messiah" ["Frank Herbert"] 1969 50).
Definition messiah_2019 : Book.t :=
  with_popularity (frac 5 10) (plain_book "Dune Messiah" ["Frank Herbert"] 2019 1).

(** ** Input errors *)

(** A book with no usable text: after [_preprocess_text] no word is left. *)
Definition no_usable_text (b : Book.t) : Prop :=
  Py.findall_words
    (TFIDFRecommender._preprocess_text (Book.get_text_representation b)) = [].

(** The texts handed to the vectorizer. *)
Definition vectorizer_input (target_book : Book.t) (candidates : list Book.t)
    : list string :=
  (λ b, TFIDFRecommender._preprocess_text (Book.get_text_representation b))
    <$> (target_book :: candidates).

(** What the statements that say so assume of scikit-learn: a document in
    which no word is left has no term, so whenever the vectorizer returns,
    the similarity of such a target to every candidate is 0. *)
Definition wordless_target_law (rt : PyRuntime) : Prop :=
  ∀ target_text texts similarities,
    Py.findall_words target_text = [] →
    tfidf_cosine (target_text :: texts) = Some similarities →
    Forall (λ s, s = 0) similarities.

(** A runtime for the examples that looks at the texts: the vectorizer
    raises when there is no candidate or when no text holds a word;
    otherwise a candidate has similarity 1 when its text shares a word with
    the target's, and 0 when it does not. *)
Definition shares_a_word (text1 text2 : string) : Prop :=
  Exists (λ w, w ∈ Py.findall_words text2) (Py.findall_words text1).

Definition runtime_shared_words : PyRuntime := {|
  tfidf_cosine := λ texts,
    match texts with
    | [] | [_] => None
    | target_text :: others =>
        if decide (Forall (λ t, Py.findall_words t = []) texts) then None
        else Some ((λ t, if decide (shares_a_word target_text t) then 1 else 0)
                   <$> others)
    end;
  format_percent2 := λ _, "?";
  format_fixed1 := λ _, "?"
|}.

(** [Book(title="Zzqx__", authors=[], subjects=[], description=None)], and
    a book with no text at all. *)
Definition zzqx : Book.t := with_subjects [] (plain_book "Zzqx__" [] 0 0).
Definition blank_book : Book.t := with_subjects [] (plain_book "" [] 0 0).



(** ** Hybrid combiner *)

(** The identity under which a recommendation is merged. *)
Definition identity (r : BookRecommendation.t) : string :=
  MLRecommender.book_id (BookRecommendation.book r).

(** The recommendation a strategy emitted under identity [k], if any. *)
Fixpoint emitted (k : string) (recs : list BookRecommendation.t)
    : option BookRecommendation.t :=
  match recs with
  | [] => None
  | r :: rest => if decide (identity r = k) then Some r else emitted k rest
  end.

(** The combined score in the claim's words: the weighted strategy scores
    (TF-IDF 0.6, Preference Matcher or popularity 0.4) summed and divided by
    2, times 1.2 when both strategies emitted the book, at most 1.0. *)
Definition hybrid_formula (tfidf_score cf_score : option Qc) : Qc :=
  let weighted :=
    default 0 ((λ s, s * frac 6 10) <$> tfidf_score)
    + default 0 ((λ s, s * frac 4 10) <$> cf_score) in
  let combined := weighted / Qc_of_Z 2 in
  let combined :=
    match tfidf_score, cf_score with
    | Some _, Some _ => combined * frac 12 10
    | _, _ => combined
    end in
  if decide (combined ≤ 1) then combined else 1.

(** The value of key [k] in the dict. *)
Fixpoint dict_lookup (k : string) (all : list (string * MLRecommender.entry))
    : option MLRecommender.entry :=
  match all with
  | [] => None
  | (k', e) :: rest => if decide (k' = k) then Some e else dict_lookup k rest
  end.

Definition fresh_entry (r : BookRecommendation.t) : MLRecommender.entry :=
  MLRecommender.mk_entry (BookRecommendation.book r) [] [] [].


(** ** Vocabulary of the further properties *)

(** The lexicon counts of a text. *)
Definition positive_count (text : string) : Z :=
  Py.len (filter (λ w, w ∈ SentimentAnalyzer.POSITIVE_WORDS)
                 (Py.findall_words (Py.lower text))).

Definition negative_count (text : string) : Z :=
  Py.len (filter (λ w, w ∈ SentimentAnalyzer.NEGATIVE_WORDS)
                 (Py.findall_words (Py.lower text))).

(** Every character of the string satisfies [p]. *)
Fixpoint all_chars (p : ascii → bool) (s : string) : Prop :=
  match s with
  | EmptyString => True
  | String c s' => p c = true ∧ all_chars p s'
  end.

(** A character [_preprocess_text] keeps. *)
Definition kept_char (c : ascii) : bool := Py.is_lower_alnum c || Py.is_space c.

(** The characters on which the embedding of [str.lower] and of the class
    [\s] is Python's: ASCII, without the four separators U+001C to U+001F,
    which Python counts as white space. *)
Definition plain_ascii (c : ascii) : bool :=
  let n := nat_of_ascii c in
  (n <? 28)%nat || ((32 <=? n)%nat && (n <? 128)%nat).

(** What [TFIDFRecommender.recommend] promises of one result. *)
Definition tfidf_result `{rt : PyRuntime} (candidates : list Book.t)
    (user_profile : option UserProfile.t) (r : BookRecommendation.t) : Prop :=
  frac 1 10 < BookRecommendation.score r
  ∧ (is_Some user_profile → BookRecommendation.score r ≤ 1)
  ∧ BookRecommendation.algorithm r = "TF-IDF Content-Based"
  ∧ BookRecommendation.book r ∈ candidates
  ∧ (1 ≤ length (BookRecommendation.reasons r) ≤ 4)%nat.

(** What a call of [get_recommendations] may have done to one candidate. *)
Definition sentiment_written (before after : Book.t) : Prop :=
  after = Book.set_sentiment_score (Book.sentiment_score after) before
  ∧ (Book.sentiment_score after ≠ Book.sentiment_score before →
     Py.truthy_str (Book.description before) = true
     ∧ Py.truthy_float (Book.sentiment_score before) = false
     ∧ ∃ s, Book.sentiment_score after = Some s ∧ - (1) ≤ s ≤ 1).

(** What [CollaborativeFilteringRecommender.recommend] promises of one
    result for a user with a reading history. *)
Definition cf_result (candidates : list Book.t) (user_profile : UserProfile.t)
    (r : BookRecommendation.t) : Prop :=
  let history := UserProfile.reading_history user_profile in
  0 < BookRecommendation.score r
  ∧ BookRecommendation.algorithm r = "Collaborative Filtering"
  ∧ BookRecommendation.book r ∈ candidates
  ∧ Exists (qualifies (BookRecommendation.book r)) history
  ∧ (ratings_in_range history → BookRecommendation.score r ≤ 1).

(** The invariant of the dict [all_recommendations]: a book is filed
    under its own identity, and it is one of [books]. *)
Definition merged_entry (books : list Book.t)
    (kv : string * MLRecommender.entry) : Prop :=
  kv.1 = MLRecommender.book_id (MLRecommender.e_book kv.2)
  ∧ MLRecommender.e_book kv.2 ∈ books.

(** What [MLRecommender.recommend] promises of one result. *)
Definition hybrid_result (candidates : list Book.t)
    (r : BookRecommendation.t) : Prop :=
  BookRecommendation.algorithm r = "Hybrid ML"
  ∧ BookRecommendation.score r ≤ 1
  ∧ BookRecommendation.book r ∈ candidates
  ∧ (1 ≤ length (BookRecommendation.reasons r) ≤ 5)%nat.

(** What [get_mood_based_recommendations] promises of one result. *)
Definition mood_result (candidates : list Book.t) (mood : string)
    (r : BookRecommendation.t) : Prop :=
  0 < BookRecommendation.score r ≤ frac 12 10
  ∧ (mood ≠ "happy" → mood ≠ "sad" → BookRecommendation.score r ≤ 1)
  ∧ BookRecommendation.algorithm r = "Mood-Based"
  ∧ BookRecommendation.book r ∈ candidates
  ∧ Py.truthy_list (Book.subjects (BookRecommendation.book r)) = true
  ∧ length (BookRecommendation.reasons r) = 3%nat.

(** The authors (or tags) of the liked history entries, one occurrence per
    mention, in reading order. *)
Definition liked_keys (f : ReadingHistory.t → list string)
    (history : list ReadingHistory.t) : list string :=
  concat (f <$> filter (λ e, CollaborativeFilteringRecommender.liked e = true)
                       history).

(** How often [k] is mentioned. *)
Definition mentions (k : string) (keys : list string) : Z :=
  Py.len (filter (λ x, x = k) keys).

(** [ranked] lists the ten most mentioned of [keys]: no key twice, at most
    ten, each one mentioned, most mentioned first, and a mentioned key is
    left out only when ten keys mentioned at least as often are in. *)
Definition ten_most_mentioned (keys ranked : list string) : Prop :=
  NoDup ranked
  ∧ (length ranked ≤ 10)%nat
  ∧ (∀ k, k ∈ ranked → k ∈ keys)
  ∧ StronglySorted (λ a b, (mentions b keys ≤ mentions a keys)%Z) ranked
  ∧ (∀ k, k ∈ keys → k ∉ ranked →
          length ranked = 10%nat
          ∧ ∀ b, b ∈ ranked → (mentions k keys ≤ mentions b keys)%Z).

(** A profile as [UserProfile(user_id)] builds it, with a given history. *)
Definition profile_of (history : list ReadingHistory.t) : UserProfile.t :=
  UserProfile.mk "u1" "User" history [] [] ∅ "2024-01-01T00:00:00".

(** A parser for the examples: it reads the two answers used below. *)
Definition parser_of_examples : PyFloat := {|
  float_of_string := λ s,
    if decide (s = "4.5") then Some (frac 9 2)
    else if decide (s = "7") then Some (Qc_of_Z 7)
    else None
|}.

(** ** Python built-ins *)

Section builtins.
Context {A : Type}.
Implicit Types (l : list A) (n : Z) (key : A → Qc).

Lemma py_take_sublist n l : Py.take n l `sublist_of` l.
Proof. unfold Py.take. case_decide; apply sublist_take. Qed.

Lemma py_take_all n l : (Py.len l ≤ n)%Z → Py.take n l = l.
Proof.
  unfold Py.take, Py.len. intros Hn. case_decide; [lia|].
  apply take_ge. lia.
Qed.

Lemma py_take_nil n : Py.take n (@nil A) = [].
Proof. unfold Py.take. case_decide; apply take_nil. Qed.

Lemma insert_desc_perm key x l : Py.insert_desc key x l ≡ₚ x :: l.
Proof.
  induction l as [|y l IH]; simpl; [done|].
  case_decide; [|done]. rewrite IH. apply Permutation_swap.
Qed.

Lemma sort_desc_perm key l : Py.sort_desc key l ≡ₚ l.
Proof.
  induction l as [|x l IH]; simpl; [done|].
  unfold Py.sort_desc in *. simpl. by rewrite insert_desc_perm, IH.
Qed.

Lemma insert_desc_descending key x l :
  descending key l → descending key (Py.insert_desc key x l).
Proof.
  unfold descending. induction 1 as [|y l Hl IH Hy]; simpl.
  - repeat constructor.
  - case_decide as Hlt.
    + constructor; [done|].
      rewrite insert_desc_perm. constructor; [|done].
      by apply Qclt_le_weak.
    + apply Qcnot_lt_le in Hlt. constructor; [by constructor|].
      constructor; [done|].
      eapply Forall_impl; [exact Hy|]. simpl. intros z Hz.
      by etrans.
Qed.

Lemma sort_desc_descending key l : descending key (Py.sort_desc key l).
Proof.
  induction l as [|x l IH]; [constructor|].
  by apply insert_desc_descending.
Qed.

(** Stability: the elements of any one key keep their order. *)
Lemma filter_insert_desc key s x l :
  filter (λ y, key y = s) (Py.insert_desc key x l)
  = filter (λ y, key y = s) (x :: l).
Proof.
  induction l as [|y l IH]; simpl; [done|].
  case_decide as Hlt; [|done].
  rewrite filter_cons, IH, !filter_cons.
  destruct (decide (key y = s)) as [Hy|Hy], (decide (key x = s)) as [Hx|Hx];
    try done.
  rewrite Hx, Hy in Hlt. by apply Qclt_not_eq in Hlt.
Qed.

Lemma filter_sort_desc key s l :
  filter (λ y, key y = s) (Py.sort_desc key l) = filter (λ y, key y = s) l.
Proof.
  induction l as [|x l IH]; [done|].
  unfold Py.sort_desc in *. simpl.
  by rewrite filter_insert_desc, !filter_cons, IH.
Qed.

Lemma insert_desc_head key x l :
  Forall (λ y, key y ≤ key x) l → Py.insert_desc key x l = x :: l.
Proof.
  destruct 1 as [|y l Hy _]; simpl; [done|].
  case_decide as Hlt; [|done]. by apply Qclt_not_le in Hlt.
Qed.

(** Sorting a list that is in order already changes nothing. *)
Lemma sort_desc_id key l : descending key l → Py.sort_desc key l = l.
Proof.
  unfold descending. induction 1 as [|x l Hl IH Hx]; [done|].
  unfold Py.sort_desc in *. simpl. rewrite IH. by apply insert_desc_head.
Qed.



End builtins.

(** ** Rational arithmetic *)

Lemma Qc_eq_this (x y : Qc) : x = y → (this x == this y)%Q.
Proof. by intros ->. Qed.

(** Moves a goal on [Qc] to [Q], where [lra] decides it. *)
Ltac qc_unfold :=
  unfold Py.min, frac, Qcdiv, Qcminus, Qcle, Qclt, Qc_of_Z in *;
  repeat match goal with
         | H : @eq Qc _ _ |- _ => apply Qc_eq_this in H
         end;
  try apply Qc_is_canon;
  cbn [this Q2Qc Qcplus Qcmult Qcopp Qcinv] in *;
  rewrite ?Qred_correct in *;
  unfold inject_Z in *;
  cbn [Qinv Qnum Qden] in *.

Ltac qc_lra := qc_unfold; lra.

Lemma Qc_of_Z_pos n : (0 < n)%Z → 0 < Qc_of_Z n.
Proof. intros. by apply (Z2Qc_inj_lt 0 n). Qed.

Lemma Qc_of_Z_nonneg n : (0 ≤ n)%Z → 0 ≤ Qc_of_Z n.
Proof. intros. by apply (Z2Qc_inj_le 0 n). Qed.

Lemma Qcdiv_0_l x : 0 / x = 0.
Proof. unfold Qcdiv. ring. Qed.

Lemma Qcdiv_le_1 x y : 0 < y → x ≤ y → x / y ≤ 1.
Proof.
  intros Hy Hx. apply (Qcmult_le_mono_pos_r _ _ y); [done|].
  unfold Qcdiv. rewrite <-Qcmult_assoc, Qcmult_inv_l, Qcmult_1_r, Qcmult_1_l; [done|].
  intros ->. by apply Qclt_not_eq in Hy.
Qed.

Lemma Qcdiv_nonneg x y : 0 ≤ x → 0 < y → 0 ≤ x / y.
Proof.
  intros Hx Hy. unfold Qcdiv. apply Qcmult_nonneg_nonneg; [done|].
  by apply Qclt_le_weak, Qcinv_pos.
Qed.

Lemma min_le_r x y : Py.min x y ≤ y.
Proof.
  unfold Py.min. case_decide as H; [done|]. by apply Qcnot_lt_le in H.
Qed.

Lemma min_spec x y : Py.min x y = if decide (x ≤ y) then x else y.
Proof.
  unfold Py.min. repeat case_decide; try done.
  - exfalso. by eapply Qclt_not_le.
  - exfalso. apply Qcnot_lt_le in H. done.
Qed.

Lemma float_or_0 o : Py.float_or o 0 = default 0 o.
Proof. destruct o as [x|]; simpl; [|done]. by case_decide. Qed.

(** ** Ordering of recommendation lists *)

Lemma sort_reverse_non_increasing l :
  non_increasing (BookRecommendation.sort_reverse l).
Proof. apply sort_desc_descending. Qed.

Lemma sort_reverse_perm l : BookRecommendation.sort_reverse l ≡ₚ l.
Proof. apply sort_desc_perm. Qed.




Lemma ties_in_order_sort src l :
  BookRecommendation.book <$> l `sublist_of` src →
  ties_in_order src (BookRecommendation.sort_reverse l).
Proof.
  intros Hsub s. unfold BookRecommendation.sort_reverse.
  rewrite filter_sort_desc. etrans; [|exact Hsub].
  apply fmap_sublist, sublist_filter.
Qed.





(** ** Popularity score (models/book.py) *)

(** The score is in [0, 1] for a non-negative edition count and a rating in
    the data model's range. *)
Lemma popularity_formula_range edition_count rating :
  (0 ≤ edition_count)%Z →
  (∀ r, rating = Some r → 0 ≤ r ≤ Qc_of_Z 5) →
  0 ≤ popularity_formula edition_count rating ≤ 1.
Proof.
  intros Hec Hr. unfold popularity_formula.
  assert (0 ≤ Qc_of_Z edition_count / Qc_of_Z 100) as He.
  { apply Qcdiv_nonneg; [by apply Qc_of_Z_nonneg|by apply Qc_of_Z_pos]. }
  set (e := Qc_of_Z edition_count / Qc_of_Z 100) in *. clearbody e.
  assert (0 ≤ default 0 rating ≤ Qc_of_Z 5) as [Hr0 Hr5].
  { destruct rating as [r|]; simpl; [by apply Hr|]. split; [done|].
    by apply Qc_of_Z_nonneg. }
  set (r := default 0 rating) in *. clearbody r.
  case_decide as Hle.
  - split; qc_lra.
  - split; qc_lra.
Qed.

(** The claim as stated fails: the class does not keep the field in step
    with the formula.  A [Book] built without a [popularity_score] has
    none, while the formula gives 0.16 for its 40 editions; and a book
    whose field was set to 0.9 keeps it, while the formula gives 0.4 for
    its 120 editions and absent rating. *)
Lemma popularity_field_not_formula :
  Book.popularity_score emma = None
  ∧ popularity_formula (Book.edition_count emma) (Book.rating emma) = frac 16 100
  ∧ Book.popularity_score book_09 = Some (frac 9 10)
  ∧ popularity_formula (Book.edition_count book_09) (Book.rating book_09)
    = frac 4 10.
Proof. repeat split; compute_done. Qed.

(** C9 (as amended). For every Book, [calculate_popularity_score] returns
    [min(edition_count/100, 1.0) * 0.4 + (rating or 0)/5.0 * 0.6] exactly.
    The [popularity_score] field holds that value on a book as the
    providers finish it, by their assignment
    [book.popularity_score = book.calculate_popularity_score()], which
    writes nothing else; and a book's field holds the formula's value
    exactly when that assignment would leave the book as it is. *)
Theorem popularity_score_is_formula (b : Book.t) :
  Book.calculate_popularity_score b
  = popularity_formula (Book.edition_count b) (Book.rating b)
  ∧ (let b' := Book.assign_popularity_score b in
     Book.popularity_score b'
     = Some (popularity_formula (Book.edition_count b') (Book.rating b'))
     ∧ b' = Book.set_popularity_score (Book.popularity_score b') b)
  ∧ (Book.popularity_score b
     = Some (popularity_formula (Book.edition_count b) (Book.rating b))
     ↔ Book.assign_popularity_score b = b).
Proof.
  assert (Book.calculate_popularity_score b
          = popularity_formula (Book.edition_count b) (Book.rating b)) as Heq.
  { unfold Book.calculate_popularity_score, popularity_formula.
    by rewrite min_spec, float_or_0. }
  split; [done|]. split.
  { cbn zeta. split; [simpl; by rewrite Heq|done]. }
  unfold Book.assign_popularity_score. rewrite Heq. split.
  - intros <-. by destruct b.
  - intros Hsame. rewrite <-Hsame at 1. done.
Qed.

(** ** Preference Matcher (CollaborativeFilteringRecommender) *)

Lemma set_inter_len xs ys : Py.len (Py.set_inter xs ys) = overlap_count xs ys.
Proof.
  unfold Py.len, Py.set_inter, overlap_count. f_equal.
  rewrite <-(size_list_to_set (C:=gset string)) by apply NoDup_remove_dups.
  f_equal. apply set_eq. intros x.
  rewrite elem_of_list_to_set, elem_of_remove_dups, list_elem_of_filter.
  set_solver.
Qed.

(** For a list without repetition the length is the size of the set. *)
Lemma len_is_set_size (xs : list string) :
  NoDup xs → Py.len xs = Z.of_nat (size (list_to_set xs : gset string)).
Proof. intros Hnd. unfold Py.len. by rewrite size_list_to_set. Qed.

Lemma overlap_count_nil_l ys : overlap_count [] ys = 0%Z.
Proof. by rewrite <-set_inter_len. Qed.

Lemma overlap_count_nil_r xs : overlap_count xs [] = 0%Z.
Proof.
  unfold overlap_count.
  replace ((list_to_set xs : gset string) ∩ list_to_set []) with (∅ : gset string)
    by set_solver.
  done.
Qed.

Lemma any_in_spec l1 l2 : Py.any_in l1 l2 = true ↔ Exists (λ x, x ∈ l2) l1.
Proof.
  unfold Py.any_in. rewrite existsb_exists, Exists_exists.
  split; intros (x & Hx & Hin).
  - exists x. split; [by apply list_elem_of_In|]. by apply bool_decide_eq_true in Hin.
  - exists x. split; [by apply list_elem_of_In|]. by apply bool_decide_eq_true.
Qed.

Lemma max_spec m n : Py.max m n = Z.max m n.
Proof. unfold Py.max. case_decide; lia. Qed.

Lemma fraction_zero largest :
  (if decide (largest = 0%Z) then 0 else Qc_of_Z 0 / Qc_of_Z largest) = 0.
Proof. case_decide; [done|]. by rewrite Z2Qc_inj_0, Qcdiv_0_l. Qed.

(** The similarity the code computes is the specification's formula. *)
Lemma item_similarity_is_formula book entry :
  CollaborativeFilteringRecommender._calculate_item_similarity book entry
  = similarity_formula book entry.
Proof.
  unfold CollaborativeFilteringRecommender._calculate_item_similarity,
    similarity_formula.
  rewrite min_spec.
  set (authors_part := if decide (author_overlap book entry) then frac 5 10 else 0).
  assert ((if Py.any_in (Book.authors book) (ReadingHistory.authors entry)
           then 0 + frac 5 10 else 0) = authors_part) as ->.
  { unfold authors_part, author_overlap.
    destruct (Py.any_in _ _) eqn:Hany; case_decide as Hex; try ring.
    - by apply any_in_spec in Hany.
    - apply any_in_spec in Hex. congruence. }
  set (tags := ReadingHistory.tags entry).
  assert (∀ x : Qc, x + frac 3 10 * 0 = x) as Hzero by (intros; ring).
  destruct (Book.subjects book) as [[|s subjects]|] eqn:Hsubj;
    cbn [Py.truthy_list Py.list_or_nil default from_option id andb].
  - change (take 5 []) with (@nil string).
    by rewrite overlap_count_nil_l, fraction_zero, Hzero.
  - set (subjects5 := take 5 (s :: subjects)).
    case_bool_decide as Htags.
    + rewrite <-set_inter_len, max_spec.
      assert (Z.max (Py.len subjects5) (Py.len tags) ≠ 0%Z) as Hmax.
      { unfold Py.len, subjects5. simpl. lia. }
      rewrite (decide_False _ _ Hmax).
      destruct (Py.set_inter subjects5 tags) as [|c common] eqn:Hcommon; [|done].
      change (Py.len []) with 0%Z. by rewrite Z2Qc_inj_0, Qcdiv_0_l, Hzero.
    + rewrite Htags, overlap_count_nil_r.
      by rewrite fraction_zero, Hzero.
  - change (take 5 []) with (@nil string).
    by rewrite overlap_count_nil_l, fraction_zero, Hzero.
Qed.

(** One turn of the loop adds a qualifying entry and skips any other. *)
Lemma cf_step_qualifies book score count entry :
  CollaborativeFilteringRecommender.cf_step book (score, count) entry
  = if decide (qualifies book entry)
    then (score + default 0 (ReadingHistory.rating entry)
                  * similarity_formula book entry,
          (count + 1)%Z)
    else (score, count).
Proof.
  unfold CollaborativeFilteringRecommender.cf_step.
  rewrite item_similarity_is_formula.
  destruct (decide (qualifies book entry)) as [Hq|Hq]; unfold qualifies in Hq;
    destruct (ReadingHistory.rating entry) as [r|]; simpl; try done.
  - destruct Hq as [Hr4 Hsim].
    assert (r ≠ 0) as Hr0.
    { intros ->. assert (0 < Qc_of_Z 4) as H4 by by apply Qc_of_Z_pos.
      by eapply Qclt_not_le. }
    rewrite !bool_decide_eq_true_2 by done. simpl. by rewrite decide_True.
  - case_bool_decide as Hr0; case_bool_decide as Hr4; simpl; try done.
    case_decide; [tauto|done].
Qed.

Lemma cf_loop book history score count :
  let qualifying := filter (qualifies book) history in
  foldl (CollaborativeFilteringRecommender.cf_step book) (score, count) history
  = (score + total ((λ entry, default 0 (ReadingHistory.rating entry)
                              * similarity_formula book entry) <$> qualifying),
     (count + Py.len qualifying)%Z).
Proof.
  revert score count. induction history as [|entry history IH]; intros score count.
  - simpl. f_equal; [ring|unfold Py.len; simpl; lia].
  - cbn [foldl]. rewrite cf_step_qualifies, filter_cons.
    destruct (decide (qualifies book entry)) as [Hq|Hq]; rewrite IH; [|done].
    cbn [fmap list_fmap total foldr]. f_equal.
    + fold (total ((λ entry, default 0 (ReadingHistory.rating entry)
                             * similarity_formula book entry)
                   <$> filter (qualifies book) history)). ring.
    + unfold Py.len. simpl. lia.
Qed.

Lemma similarity_formula_range book entry : 0 ≤ similarity_formula book entry ≤ 1.
Proof.
  unfold similarity_formula.
  set (largest := (Py.len _ `max` Py.len _)%Z).
  set (overlap := overlap_count _ _).
  assert (0 ≤ (if decide (largest = 0%Z) then 0
               else Qc_of_Z overlap / Qc_of_Z largest)) as Hfr.
  { case_decide as Hl; [done|]. apply Qcdiv_nonneg.
    - apply Qc_of_Z_nonneg. unfold overlap, overlap_count. lia.
    - apply Qc_of_Z_pos. unfold largest, Py.len in *. lia. }
  set (fraction := if decide (largest = 0%Z) then _ else _) in *. clearbody fraction.
  assert (0 ≤ (if decide (author_overlap book entry) then frac 5 10 else 0)) as Ha.
  { case_decide; [|done]. qc_lra. }
  set (authors_part := if decide (author_overlap book entry) then _ else _) in *.
  clearbody authors_part.
  case_decide as Hle; [|split; [qc_lra|done]].
  split; [|done]. qc_lra.
Qed.

Lemma total_range (xs : list Qc) :
  Forall (λ x, 0 ≤ x ≤ Qc_of_Z 5) xs →
  0 ≤ total xs ≤ Qc_of_Z 5 * Qc_of_Z (Py.len xs).
Proof.
  induction 1 as [|x xs [Hx0 Hx5] _ [IH0 IH5]]; simpl.
  - split; [done|]. change (Py.len []) with 0%Z. rewrite Z2Qc_inj_0. qc_lra.
  - replace (Py.len (x :: xs)) with (Py.len xs + 1)%Z by (unfold Py.len; simpl; lia).
    rewrite Z2Qc_inj_add, Z2Qc_inj_1.
    set (n := Qc_of_Z (Py.len xs)) in *. clearbody n.
    set (t := total xs) in *. clearbody t.
    split; qc_lra.
Qed.

Lemma average_range (t : Qc) (count : Z) :
  (0 < count)%Z → 0 ≤ t ≤ Qc_of_Z 5 * Qc_of_Z count →
  0 ≤ t / Qc_of_Z count / Qc_of_Z 5 ≤ 1.
Proof.
  intros Hc [Ht0 Ht5].
  assert (0 < Qc_of_Z count) as Hc' by by apply Qc_of_Z_pos.
  assert (0 < Qc_of_Z 5) as H5 by by apply Qc_of_Z_pos.
  assert (0 < Qc_of_Z 5 * Qc_of_Z count) as Hprod by by apply Qcmult_pos_pos.
  replace (t / Qc_of_Z count / Qc_of_Z 5) with (t / (Qc_of_Z 5 * Qc_of_Z count)).
  - split; [by apply Qcdiv_nonneg|by apply Qcdiv_le_1].
  - field. split; intros Heq; rewrite Heq in *; by eapply Qclt_not_eq.
Qed.

Lemma cf_score_formula_range book history :
  ratings_in_range history → 0 ≤ cf_score_formula book history ≤ 1.
Proof.
  intros Hrange. unfold cf_score_formula.
  case_decide as Hcount; [|done].
  apply average_range; [done|].
  set (weight := λ entry, default 0 (ReadingHistory.rating entry)
                          * similarity_formula book entry).
  replace (Py.len (filter (qualifies book) history))
    with (Py.len (weight <$> filter (qualifies book) history))
    by (unfold Py.len; by rewrite length_fmap).
  apply total_range. rewrite Forall_fmap, Forall_forall.
  intros entry [Hq Hin]%list_elem_of_filter.
  unfold ratings_in_range in Hrange. rewrite Forall_forall in Hrange.
  specialize (Hrange entry Hin).
  unfold qualifies in Hq. unfold weight, compose. cbn beta.
  destruct (ReadingHistory.rating entry) as [r|]; [|done].
  destruct (Hrange r eq_refl) as [Hr0 Hr5]. destruct Hq as [_ Hsim].
  destruct (similarity_formula_range book entry) as [_ Hs1]. simpl.
  set (s := similarity_formula book entry) in *. clearbody s.
  split.
  - apply Qcmult_nonneg_nonneg; [done|by apply Qclt_le_weak].
  - trans (Qc_of_Z 5 * s).
    + apply Qcmult_le_mono_nonneg_r; [by apply Qclt_le_weak|done].
    + trans (Qc_of_Z 5 * 1); [|by rewrite Qcmult_1_r].
      apply Qcmult_le_mono_nonneg_l; [|done]. by apply Qc_of_Z_nonneg.
Qed.

(** Without repeated subjects or tags the list lengths are the set sizes,
    and the similarity is the one the claim words. *)
Lemma similarity_formula_as_claimed book entry :
  NoDup (take 5 (default [] (Book.subjects book))) →
  NoDup (ReadingHistory.tags entry) →
  similarity_formula book entry = similarity_as_claimed book entry.
Proof.
  intros Hsubjects Htags. unfold similarity_formula, similarity_as_claimed.
  rewrite (len_is_set_size _ Hsubjects), (len_is_set_size _ Htags). done.
Qed.

(** The claim as stated fails twice.  A liked entry that carries the tag of
    a one-subject book twice: the code divides the overlap 1 by the list
    length 2 and finds the similarity 0.15, where the claim's set sizes
    give 0.3.  And a history entry rated 12 by the book's author: the score
    is (12 * 0.5 / 1) / 5 = 1.2, outside [0, 1]. *)
Lemma cf_score_not_as_claimed :
  CollaborativeFilteringRecommender._calculate_item_similarity mistborn
    twice_tagged = frac 15 100
  ∧ similarity_as_claimed mistborn twice_tagged = frac 3 10
  ∧ CollaborativeFilteringRecommender._calculate_cf_score mistborn
      (UserProfile.mk "u3" "User" [twice_tagged] [] [] ∅ "2024-01-01T00:00:00")
    = frac 15 100
  ∧ CollaborativeFilteringRecommender._calculate_cf_score dune overrating_reader
    = frac 12 10
  ∧ ¬ (CollaborativeFilteringRecommender._calculate_cf_score dune
         overrating_reader ≤ 1).
Proof. repeat split; compute_done. Qed.

(** C3 (as amended). For every candidate book and user profile, the
    Preference Matcher score is [(sum/count)/5.0] over the history entries
    rated at least 4.0 whose similarity is positive and 0 when there is
    none, the similarity of an entry being 0.5 for an author overlap plus
    0.3 times [overlap / max(len(subjects[:5]), len(tags))], capped at 1.0:
    the overlap is counted over sets and divided by the larger of the two
    list lengths, which are the set sizes when neither list repeats an
    element.  With ratings in the data model's range 0 to 5 the score lies
    in [0, 1]. *)
Theorem cf_score_is_formula (book : Book.t) (user_profile : UserProfile.t) :
  (∀ entry,
     CollaborativeFilteringRecommender._calculate_item_similarity book entry
     = similarity_formula book entry)
  ∧ (∀ entry,
       NoDup (take 5 (default [] (Book.subjects book))) →
       NoDup (ReadingHistory.tags entry) →
       CollaborativeFilteringRecommender._calculate_item_similarity book entry
       = similarity_as_claimed book entry)
  ∧ CollaborativeFilteringRecommender._calculate_cf_score book user_profile
    = cf_score_formula book (UserProfile.reading_history user_profile)
  ∧ (ratings_in_range (UserProfile.reading_history user_profile) →
     0 ≤ CollaborativeFilteringRecommender._calculate_cf_score book user_profile ≤ 1).
Proof.
  assert (CollaborativeFilteringRecommender._calculate_cf_score book user_profile
          = cf_score_formula book (UserProfile.reading_history user_profile)) as Heq.
  { unfold CollaborativeFilteringRecommender._calculate_cf_score, cf_score_formula.
    rewrite cf_loop. cbn zeta. rewrite Z.add_0_l, Qcplus_0_l. done. }
  split; [apply item_similarity_is_formula|]. split.
  { intros entry Hsubjects Htags. rewrite item_similarity_is_formula.
    by apply similarity_formula_as_claimed. }
  split; [done|].
  rewrite Heq. apply cf_score_formula_range.
Qed.

Lemma cf_score_is_formula_witness :
  ratings_in_range (UserProfile.reading_history reader)
  ∧ 0 ≤ CollaborativeFilteringRecommender._calculate_cf_score dune reader ≤ 1
  ∧ CollaborativeFilteringRecommender._calculate_cf_score dune reader = frac 6 10.
Proof.
  assert (ratings_in_range (UserProfile.reading_history reader)) as Hrange.
  { unfold ratings_in_range, reader. simpl.
    repeat (apply Forall_cons_2; [intros r [= <-]; split; compute_done|]).
    apply Forall_nil_2. }
  split; [done|]. split.
  - by apply (cf_score_is_formula dune reader).
  - compute_done.
Defined.

(** ** Popularity fallback *)

Lemma popularity_candidates_books candidates :
  BookRecommendation.book
    <$> CollaborativeFilteringRecommender.popularity_candidates candidates
  = filter has_popularity candidates.
Proof.
  induction candidates as [|b candidates IH]; [done|].
  simpl. rewrite filter_cons.
  destruct (decide (has_popularity b)) as [Hb|Hb];
    unfold has_popularity, Py.truthy_float in Hb;
    destruct (Book.popularity_score b) as [p|]; try done.
  - apply bool_decide_eq_true in Hb. rewrite decide_False by done.
    by rewrite fmap_cons, IH.
  - destruct (decide (p = 0)) as [->|Hp0]; [done|].
    destruct Hb. by apply bool_decide_eq_true_2.
Qed.

Lemma popularity_candidates_labelled candidates :
  Forall popularity_labelled
    (CollaborativeFilteringRecommender.popularity_candidates candidates).
Proof.
  induction candidates as [|b candidates IH]; simpl; [constructor|].
  destruct (Book.popularity_score b) as [p|] eqn:Hp; [|done].
  case_decide; [done|]. constructor; [|done]. by repeat split.
Qed.

Lemma recommend_without_history `{rt : PyRuntime} target candidates user_profile top_n :
  has_history user_profile = false →
  CollaborativeFilteringRecommender.recommend target candidates user_profile top_n
  = CollaborativeFilteringRecommender._popularity_based_recommendations
      candidates top_n.
Proof.
  unfold CollaborativeFilteringRecommender.recommend.
  destruct user_profile as [p|]; [|done]. by intros ->.
Qed.

(** The claim as stated fails: a candidate without a popularity score is
    left out, and so is every candidate beyond the first [top_n]. *)
Lemma popularity_fallback_not_all_candidates :
  ¬ returns_all [emma]
      (CollaborativeFilteringRecommender.recommend (rt := runtime_unrelated_texts)
         dune [emma] None 10)
  ∧ ¬ returns_all [book_05; book_09]
        (CollaborativeFilteringRecommender.recommend (rt := runtime_unrelated_texts)
           dune [book_05; book_09] None 1).
Proof.
  unfold returns_all. split.
  - intros H%Permutation_length. done.
  - intros H%Permutation_length. done.
Qed.

(** C4 (as amended). Without a user profile or without reading history the
    Preference Matcher returns the first [top_n] of a ranking that lists the
    candidates with a non-zero popularity score, by score descending and
    equal scores in candidate order, each labelled "Popularity-Based" with
    the popularity as score and the edition count as reason; three
    candidates of popularity 0.9, 0.5 and 0.2, in any input order and with
    [top_n] at least 3, come back in that order. *)
Theorem popularity_fallback_ranking `{rt : PyRuntime} (target : Book.t)
    (candidates : list Book.t) (user_profile : option UserProfile.t) (top_n : Z) :
  has_history user_profile = false →
  (∃ ranked,
     CollaborativeFilteringRecommender.recommend target candidates user_profile top_n
     = Py.take top_n ranked
     ∧ BookRecommendation.book <$> ranked ≡ₚ filter has_popularity candidates
     ∧ non_increasing ranked
     ∧ ties_in_order candidates ranked
     ∧ Forall popularity_labelled ranked)
  ∧ (∀ b1 b2 b3,
       Book.popularity_score b1 = Some (frac 9 10) →
       Book.popularity_score b2 = Some (frac 5 10) →
       Book.popularity_score b3 = Some (frac 2 10) →
       candidates ≡ₚ [b1; b2; b3] →
       (3 ≤ top_n)%Z →
       BookRecommendation.book
         <$> CollaborativeFilteringRecommender.recommend target candidates
               user_profile top_n
       = [b1; b2; b3]).
Proof.
  intros Hhist. rewrite (recommend_without_history _ _ _ _ Hhist).
  unfold CollaborativeFilteringRecommender._popularity_based_recommendations.
  split.
  - eexists. split; [done|].
    split; [by rewrite sort_reverse_perm, popularity_candidates_books|].
    split; [apply sort_reverse_non_increasing|].
    split.
    + apply ties_in_order_sort. rewrite popularity_candidates_books.
      apply sublist_filter.
    + rewrite sort_reverse_perm. apply popularity_candidates_labelled.
  - intros b1 b2 b3 H1 H2 H3 Hperm Hn.
    assert (frac 9 10 ≠ 0 ∧ frac 5 10 ≠ 0 ∧ frac 2 10 ≠ 0
            ∧ ¬ frac 9 10 < frac 5 10 ∧ ¬ frac 9 10 < frac 2 10
            ∧ ¬ frac 5 10 < frac 2 10 ∧ frac 5 10 < frac 9 10
            ∧ frac 2 10 < frac 9 10 ∧ frac 2 10 < frac 5 10)
      as (N9 & N5 & N2 & L95 & L92 & L52 & L59 & L29 & L25)
      by (repeat split; compute_done).
    pose proof (Permutation_length Hperm) as Hlen.
    symmetry in Hperm. apply permutations_Permutation in Hperm. simpl in Hperm.
    rewrite py_take_all.
    + repeat (apply elem_of_cons in Hperm as [->|Hperm]);
        [..|by apply elem_of_nil in Hperm];
        unfold BookRecommendation.sort_reverse, Py.sort_desc; simpl;
        rewrite ?H1, ?H2, ?H3; rewrite ?decide_False by done; simpl;
        rewrite ?decide_True by done; rewrite ?decide_False by done; done.
    + pose proof (Permutation_length (sort_reverse_perm
        (CollaborativeFilteringRecommender.popularity_candidates candidates))) as Hl.
      pose proof (f_equal length (popularity_candidates_books candidates)) as Hb.
      rewrite length_fmap in Hb.
      pose proof (length_filter has_popularity candidates).
      unfold Py.len. simpl in *. lia.
Qed.

Lemma popularity_fallback_ranking_witness :
  BookRecommendation.book
    <$> CollaborativeFilteringRecommender.recommend (rt := runtime_unrelated_texts)
          dune [book_05; book_02; book_09] None 10
  = [book_09; book_05; book_02].
Proof.
  apply (popularity_fallback_ranking (rt := runtime_unrelated_texts) dune
           [book_05; book_02; book_09] None 10 eq_refl);
    [done|done|done| |done].
  symmetry. apply permutations_Permutation. compute_done.
Defined.

(** ** Trending recommendations *)

Section trending.
Context `{rt : PyRuntime}.
Implicit Types (heap : Heap.t) (candidates : Heap.ref) (books : list Book.t).

Lemma window_filter current_year time_window books :
  (if decide (time_window = "recent")
   then filter (λ b, RecommendationEngine.is_recent current_year b = true) books
   else if decide (time_window = "this_year")
   then filter (λ b, RecommendationEngine.is_this_year current_year b = true) books
   else if decide (time_window = "classic")
   then filter (λ b, RecommendationEngine.is_classic b = true) books
   else books)
  = filter (λ b, window_keeps current_year time_window (Book.year b)) books.
Proof.
  destruct (decide (time_window = "recent")) as [->|Hr].
  { apply list_filter_iff. intros b.
    unfold window_keeps, RecommendationEngine.is_recent. rewrite decide_True by done.
    by rewrite andb_true_iff, !bool_decide_eq_true. }
  destruct (decide (time_window = "this_year")) as [->|Hy].
  { apply list_filter_iff. intros b.
    unfold window_keeps, RecommendationEngine.is_this_year.
    rewrite decide_False, decide_True by done. by rewrite bool_decide_eq_true. }
  destruct (decide (time_window = "classic")) as [->|Hc].
  { apply list_filter_iff. intros b.
    unfold window_keeps, RecommendationEngine.is_classic.
    rewrite !decide_False, decide_True by done.
    by rewrite andb_true_iff, !bool_decide_eq_true. }
  induction books as [|b books IH]; [done|].
  rewrite filter_cons_True, <-IH; [done|].
  unfold window_keeps. by rewrite !decide_False by done.
Qed.

(** The whole call, run on a heap that holds the caller's list. *)
Lemma trending_run current_year heap candidates books time_window top_n :
  heap !! candidates = Some books →
  RecommendationEngine.get_trending_recommendations current_year candidates
    time_window top_n heap
  = let kept :=
      filter (λ b, window_keeps current_year time_window (Book.year b)) books in
    let sorted := Py.sort_desc RecommendationEngine.popularity_key kept in
    (RecommendationEngine.trending_recommendation <$> Py.take top_n sorted,
     if decide (time_window ∈ recognized_windows)
     then heap ++ [sorted]
     else alter (Py.sort_desc RecommendationEngine.popularity_key) candidates heap).
Proof.
  intros Hlook. cbn zeta. rewrite <-window_filter.
  unfold RecommendationEngine.get_trending_recommendations, Heap.bind, Heap.read,
    Heap.alloc, Heap.ret, Heap.sort_in_place. rewrite Hlook. cbn [default from_option id].
  assert (∀ l : list Book.t,
            alter (Py.sort_desc RecommendationEngine.popularity_key)
                  (length heap) (heap ++ [l])
            = heap ++ [Py.sort_desc RecommendationEngine.popularity_key l]) as Halter.
  { intros l. rewrite <-(Nat.add_0_r (length heap)). by rewrite alter_app_r. }
  assert (∀ l : list Book.t, (heap ++ [l]) !! length heap = Some l) as Hmid.
  { intros l. by rewrite list_lookup_middle. }
  unfold recognized_windows.
  destruct (decide (time_window = "recent")) as [->|Hr].
  { rewrite decide_True by set_solver. by rewrite Halter, Hmid. }
  destruct (decide (time_window = "this_year")) as [->|Hy].
  { rewrite decide_True by set_solver. by rewrite Halter, Hmid. }
  destruct (decide (time_window = "classic")) as [->|Hc].
  { rewrite decide_True by set_solver. by rewrite Halter, Hmid. }
  rewrite decide_False by set_solver.
  by rewrite list_lookup_alter_eq, Hlook.
Qed.

Lemma trending_recommendation_book books :
  BookRecommendation.book
    <$> (RecommendationEngine.trending_recommendation <$> books)
  = books.
Proof. rewrite <-list_fmap_compose. by apply list_fmap_id. Qed.

End trending.

(** The key of the sort is the book's popularity score, 0 when absent. *)
Lemma popularity_key_or_zero b :
  RecommendationEngine.popularity_key b = popularity_or_zero b.
Proof. apply float_or_0. Qed.

Lemma insert_desc_ext {A} (key1 key2 : A → Qc) x (l : list A) :
  (∀ y, key1 y = key2 y) → Py.insert_desc key1 x l = Py.insert_desc key2 x l.
Proof.
  intros Hext. induction l as [|y l IH]; simpl; [done|].
  by rewrite !Hext, IH.
Qed.

Lemma sort_desc_ext {A} (key1 key2 : A → Qc) (l : list A) :
  (∀ y, key1 y = key2 y) → Py.sort_desc key1 l = Py.sort_desc key2 l.
Proof.
  intros Hext. induction l as [|x l IH]; [done|].
  unfold Py.sort_desc in *. simpl. rewrite IH. by apply insert_desc_ext.
Qed.

Lemma sort_by_popularity books :
  Py.sort_desc RecommendationEngine.popularity_key books
  = Py.sort_desc popularity_or_zero books.
Proof. apply sort_desc_ext, popularity_key_or_zero. Qed.

(** The claim as stated fails: a book of unknown year (year 0) is below
    2000, yet the "classic" window leaves it out. *)
Lemma trending_classic_drops_unknown_year :
  window_as_claimed 2026 "classic" (Book.year undated)
  ∧ undated ∉
      BookRecommendation.book
        <$> (RecommendationEngine.get_trending_recommendations
               (rt := runtime_unrelated_texts) 2026 0%nat "classic" 10
               [[undated]]).1.
Proof. split; [compute_done|]. vm_compute. apply not_elem_of_nil. Qed.

(** Nor are all the kept candidates returned: the list stops at [top_n]. *)
Lemma trending_stops_at_top_n :
  window_as_claimed 2026 "classic" (Book.year book_1950)
  ∧ BookRecommendation.book
      <$> (RecommendationEngine.get_trending_recommendations
             (rt := runtime_unrelated_texts) 2026 0%nat "classic" 1
             [[book_1950; book_05]]).1
    = [book_05].
Proof. split; compute_done. Qed.

(** C6 (as amended). [get_trending_recommendations] returns the first
    [top_n] of the candidates kept by the window, ranked by their
    [popularity_score] (an absent one counting as 0) descending with equal
    scores in candidate order, each with algorithm "Trending".  The window
    keeps: for "recent" a non-zero year of at least [current_year - 2] (for
    a current year above 2 that is any year of at least [current_year - 2]);
    for "this_year" the current year; for "classic" a non-zero year below
    2000; for any other window every candidate.  With "classic" a candidate
    of year 2023 never appears, and one of year 1950 appears when [top_n]
    covers the list. *)
Theorem trending_window_and_rank `{rt : PyRuntime} (current_year : Z)
    (heap : Heap.t) (candidates : Heap.ref) (books : list Book.t)
    (time_window : string) (top_n : Z) :
  heap !! candidates = Some books →
  let result :=
    (RecommendationEngine.get_trending_recommendations current_year candidates
       time_window top_n heap).1 in
  let kept :=
    filter (λ b, window_keeps current_year time_window (Book.year b)) books in
  (∃ ranked,
     BookRecommendation.book <$> result = Py.take top_n ranked
     ∧ ranked ≡ₚ kept
     ∧ descending popularity_or_zero ranked
     ∧ ∀ s, filter (λ b, popularity_or_zero b = s) ranked `sublist_of` books)
  ∧ Forall (λ r, BookRecommendation.algorithm r = "Trending") result
  ∧ ((2 < current_year)%Z →
     ∀ year, window_keeps current_year "recent" year ↔ (current_year - 2 ≤ year)%Z)
  ∧ (time_window = "classic" →
     ∀ b,
       (Book.year b = 2023%Z → b ∉ BookRecommendation.book <$> result)
       ∧ (Book.year b = 1950%Z → b ∈ books → (Py.len books ≤ top_n)%Z →
          b ∈ BookRecommendation.book <$> result)).
Proof.
  intros Hlook result kept. unfold result.
  rewrite (trending_run _ _ _ _ _ _ Hlook). cbn [fst]. fold kept.
  rewrite trending_recommendation_book, sort_by_popularity.
  split; [|split; [|split]].
  - eexists. split; [done|]. split; [apply sort_desc_perm|].
    split; [apply sort_desc_descending|].
    intros s. rewrite filter_sort_desc.
    etrans; [apply sublist_filter|apply sublist_filter].
  - rewrite Forall_fmap. by apply Forall_true.
  - intros Hcy year. unfold window_keeps. rewrite decide_True by done. lia.
  - intros -> b. split.
    + intros Hyear Hin.
      apply (sublist_subseteq _ _ (py_take_sublist _ _)) in Hin.
      rewrite sort_desc_perm in Hin.
      apply list_elem_of_filter in Hin as [Hkeep _].
      unfold window_keeps in Hkeep. rewrite !decide_False, decide_True in Hkeep by done.
      lia.
    + intros Hyear Hin Hlen. rewrite py_take_all.
      * rewrite sort_desc_perm. apply list_elem_of_filter. split; [|done].
        unfold window_keeps. rewrite !decide_False, decide_True by done. lia.
      * pose proof (Permutation_length (sort_desc_perm popularity_or_zero kept))
          as Hl.
        pose proof (length_filter
                      (λ b, window_keeps current_year "classic" (Book.year b)) books)
          as Hf.
        unfold Py.len in *. fold kept in Hf. lia.
Qed.

(** Three candidates, the classics among them listed by rising popularity:
    the window drops the book of 2023 and the call returns the two classics
    by falling popularity, 0.5 before 0.3. *)
Lemma trending_window_and_rank_witness :
  [[book_1950; book_2023; book_05]] !! 0%nat
  = Some [book_1950; book_2023; book_05]
  ∧ popularity_or_zero <$> [book_1950; book_2023; book_05]
    = [frac 3 10; frac 7 10; frac 5 10]
  ∧ BookRecommendation.book
      <$> (RecommendationEngine.get_trending_recommendations
             (rt := runtime_unrelated_texts) 2026 0%nat "classic" 10
             [[book_1950; book_2023; book_05]]).1
    = [book_05; book_1950]
  ∧ (book_2023 ∉
       BookRecommendation.book
         <$> (RecommendationEngine.get_trending_recommendations
                (rt := runtime_unrelated_texts) 2026 0%nat "classic" 10
                [[book_1950; book_2023; book_05]]).1)
  ∧ (book_1950 ∈
       BookRecommendation.book
         <$> (RecommendationEngine.get_trending_recommendations
                (rt := runtime_unrelated_texts) 2026 0%nat "classic" 10
                [[book_1950; book_2023; book_05]]).1).
Proof.
  assert ([[book_1950; book_2023; book_05]] !! 0%nat
          = Some [book_1950; book_2023; book_05]) as Hlook by done.
  pose proof (trending_window_and_rank (rt := runtime_unrelated_texts) 2026
                [[book_1950; book_2023; book_05]] 0%nat
                [book_1950; book_2023; book_05] "classic" 10 Hlook)
    as (_ & _ & _ & Hclassic).
  split; [done|]. split; [compute_done|]. split; [compute_done|]. split.
  - by apply (Hclassic eq_refl book_2023).
  - apply (Hclassic eq_refl book_1950); [done|set_solver|done].
Defined.

(** C10. For a window other than "recent", "this_year" and "classic" the
    call sorts the caller's list in place by [popularity_score] (an absent
    one counting as 0) descending, equal scores keeping their order; for
    the three recognized windows the caller's list is unchanged, a fresh
    list being sorted; no other list is touched. *)
Theorem trending_sorts_callers_list `{rt : PyRuntime} (current_year : Z)
    (heap : Heap.t) (candidates : Heap.ref) (books : list Book.t)
    (time_window : string) (top_n : Z) :
  heap !! candidates = Some books →
  let heap' :=
    (RecommendationEngine.get_trending_recommendations current_year candidates
       time_window top_n heap).2 in
  (time_window ∉ recognized_windows →
   ∃ sorted,
     heap' !! candidates = Some sorted
     ∧ sorted = Py.sort_desc popularity_or_zero books
     ∧ sorted ≡ₚ books
     ∧ descending popularity_or_zero sorted
     ∧ ∀ s, filter (λ b, popularity_or_zero b = s) sorted
            = filter (λ b, popularity_or_zero b = s) books)
  ∧ (time_window ∈ recognized_windows → heap' !! candidates = Some books)
  ∧ (∀ other, other ≠ candidates → (other < length heap)%nat →
       heap' !! other = heap !! other).
Proof.
  intros Hlook heap'. unfold heap'.
  rewrite (trending_run _ _ _ _ _ _ Hlook). cbn [snd].
  split; [|split].
  - intros Hw. rewrite decide_False by done. eexists.
    rewrite list_lookup_alter_eq, Hlook. cbn [fmap option_fmap option_map].
    rewrite sort_by_popularity. split; [done|]. split; [done|].
    split; [apply sort_desc_perm|]. split; [apply sort_desc_descending|].
    intros s. apply filter_sort_desc.
  - intros Hw. rewrite decide_True by done.
    by apply lookup_app_l_Some.
  - intros other Hne Hlt. case_decide.
    + by apply lookup_app_l.
    + by apply list_lookup_alter_ne.
Qed.

(** The caller holds the books of popularity 0.2, 0.9, 0.5 in that order:
    after a call with the window "all_time" the caller's list reads 0.9,
    0.5, 0.2; after a call with "classic" it reads as before. *)
Lemma trending_sorts_callers_list_witness :
  [[book_02; book_09; book_05]] !! 0%nat = Some [book_02; book_09; book_05]
  ∧ Book.popularity_score <$> [book_02; book_09; book_05]
    = [Some (frac 2 10); Some (frac 9 10); Some (frac 5 10)]
  ∧ snd (RecommendationEngine.get_trending_recommendations
           (rt := runtime_unrelated_texts) 2026 0%nat "all_time" 10
           [[book_02; book_09; book_05]]) !! 0%nat
    = Some [book_09; book_05; book_02]
  ∧ snd (RecommendationEngine.get_trending_recommendations
           (rt := runtime_unrelated_texts) 2026 0%nat "classic" 10
           [[book_02; book_09; book_05]]) !! 0%nat
    = Some [book_02; book_09; book_05].
Proof.
  assert ([[book_02; book_09; book_05]] !! 0%nat
          = Some [book_02; book_09; book_05]) as Hlook by done.
  split; [done|]. split; [done|]. split.
  - destruct (trending_sorts_callers_list (rt := runtime_unrelated_texts) 2026
                [[book_02; book_09; book_05]] 0%nat [book_02; book_09; book_05]
                "all_time" 10 Hlook) as [Hsort _].
    destruct Hsort as (sorted & Hl & -> & _); [compute_done|].
    rewrite Hl. by f_equal.
  - destruct (trending_sorts_callers_list (rt := runtime_unrelated_texts) 2026
                [[book_02; book_09; book_05]] 0%nat [book_02; book_09; book_05]
                "classic" 10 Hlook) as (_ & Hsame & _).
    apply Hsame. compute_done.
Defined.

(** ** Sentiment enrichment *)

(** A non-zero score is kept, whatever the description has become. *)
Lemma enrich_keeps_nonzero_score b s d :
  Book.sentiment_score b = Some s → s ≠ 0 →
  RecommendationEngine.enrich_book (Book.set_description d b)
  = Book.set_description d b.
Proof.
  intros Hs Hs0. unfold RecommendationEngine.enrich_book. simpl. rewrite Hs. simpl.
  rewrite bool_decide_eq_true_2 by done. by rewrite andb_false_r.
Qed.

(** With the description untouched, enriching again changes nothing. *)
Lemma enrich_book_idempotent b :
  RecommendationEngine.enrich_book (RecommendationEngine.enrich_book b)
  = RecommendationEngine.enrich_book b.
Proof.
  unfold RecommendationEngine.enrich_book at 2.
  destruct (Py.truthy_str (Book.description b)
            && negb (Py.truthy_float (Book.sentiment_score b))) eqn:Hcond.
  - apply andb_true_iff in Hcond as [Hd Hs].
    unfold RecommendationEngine.enrich_book. simpl. rewrite Hd, Hs. simpl.
    by destruct (bool_decide _).
  - unfold RecommendationEngine.enrich_book. by rewrite Hcond.
Qed.

(** C5. The failing input: the first call scores a description without
    lexicon words as 0.0; after the description is rewritten the second call
    on the same book computes the score again and stores 1.0. *)
Theorem sentiment_score_recomputed_after_zero :
  let first :=
    (RecommendationEngine.get_recommendations_state (rt := runtime_unrelated_texts)
       RecommendationEngine.Hybrid dune [village_story] None None 10).1 in
  let rewritten := with_description "An excellent story about a village." <$> first in
  let second :=
    (RecommendationEngine.get_recommendations_state (rt := runtime_unrelated_texts)
       RecommendationEngine.Hybrid dune rewritten None None 10).1 in
  Book.sentiment_score <$> first = [Some 0]
  ∧ Book.sentiment_score <$> second = [Some 1].
Proof. split; compute_done. Qed.

(** ** Scores above 1.0 *)

(** The boosts of [ml_recommender.py] are clamped. *)
Lemma user_boost_clamped score book user_profile :
  TFIDFRecommender._apply_user_boost score book user_profile ≤ 1.
Proof. apply min_le_r. Qed.

Lemma hybrid_score_clamped data :
  BookRecommendation.score (MLRecommender.combine data) ≤ 1.
Proof. apply min_le_r. Qed.

(** C2. The failing inputs: the mood boost takes a full genre match of 1.0
    to 1.2, and the night-time boost takes a TF-IDF score of 1.0 to 1.1;
    neither is clamped. *)
Theorem boosts_exceed_one :
  BookRecommendation.score
    <$> RecommendationEngine.get_mood_based_recommendations [feel_good_book] "happy" 10
  = [frac 12 10]
  ∧ BookRecommendation.score
      <$> RecommendationEngine.get_recommendations (rt := runtime_identical_texts)
            RecommendationEngine.TFIDF dune [dune_paperback] None
            (Some {["time_of_day" := "night"]}) 10
    = [frac 11 10]
  ∧ 1 < frac 11 10 < frac 12 10.
Proof. repeat split; compute_done. Qed.

(** ** Hybrid combiner *)

(** The dict of the merge loop, as a map from identities. *)
Lemma dict_lookup_add_rec k weight rec all :
  dict_lookup k (MLRecommender.add_rec weight rec all)
  = if decide (identity rec = k)
    then Some (MLRecommender.record_rec weight rec
                 (default (fresh_entry rec) (dict_lookup k all)))
    else dict_lookup k all.
Proof.
  unfold identity. induction all as [|[k' e] all IH]; simpl.
  - by case_decide.
  - destruct (decide (k' = MLRecommender.book_id (BookRecommendation.book rec)))
      as [->|Hne]; simpl.
    + by case_decide.
    + destruct (decide (k' = k)) as [->|Hk].
      * rewrite decide_False; [done|]. congruence.
      * by rewrite IH.
Qed.

Lemma add_rec_keys weight rec all :
  (MLRecommender.add_rec weight rec all).*1
  = if decide (identity rec ∈ all.*1) then all.*1 else all.*1 ++ [identity rec].
Proof.
  unfold identity. induction all as [|[k' e] all IH]; cbn [MLRecommender.add_rec].
  - rewrite decide_False; [done|]. apply not_elem_of_nil.
  - destruct (decide (k' = MLRecommender.book_id (BookRecommendation.book rec)))
      as [->|Hne]; rewrite !fmap_cons; cbn [fst].
    + rewrite decide_True; [done|]. apply list_elem_of_here.
    + rewrite IH. case_decide as Hin.
      * rewrite decide_True; [done|]. by apply list_elem_of_further.
      * rewrite decide_False; [done|].
        intros [?|?]%elem_of_cons; [by subst|done].
Qed.

Lemma add_rec_keys_NoDup weight rec all :
  NoDup all.*1 → NoDup (MLRecommender.add_rec weight rec all).*1.
Proof.
  intros Hnd. rewrite add_rec_keys. case_decide as Hin; [done|].
  apply NoDup_app. split; [done|]. split; [|apply NoDup_singleton].
  intros x Hx [->|[]%elem_of_nil]%elem_of_cons. done.
Qed.

Lemma add_recs_keys_NoDup weight recs all :
  NoDup all.*1 → NoDup (MLRecommender.add_recs weight recs all).*1.
Proof.
  revert all. induction recs as [|rec recs IH]; intros all Hnd; [done|].
  unfold MLRecommender.add_recs in *. simpl. by apply IH, add_rec_keys_NoDup.
Qed.

Lemma emitted_None k recs : k ∉ identity <$> recs → emitted k recs = None.
Proof.
  induction recs as [|r recs IH]; [done|]. rewrite fmap_cons, not_elem_of_cons.
  intros [Hne Hnin]. simpl. rewrite decide_False by done. auto.
Qed.

Lemma emitted_identity k recs r : emitted k recs = Some r → identity r = k.
Proof.
  induction recs as [|r' recs IH]; [done|]. simpl.
  case_decide; [by intros [= <-]|done].
Qed.

(** After one strategy's results, each emitted once per identity. *)
Lemma dict_lookup_add_recs k weight recs all :
  NoDup (identity <$> recs) →
  dict_lookup k (MLRecommender.add_recs weight recs all)
  = match emitted k recs with
    | Some r => Some (MLRecommender.record_rec weight r
                        (default (fresh_entry r) (dict_lookup k all)))
    | None => dict_lookup k all
    end.
Proof.
  revert all. induction recs as [|rec recs IH]; intros all Hnd; [done|].
  rewrite fmap_cons in Hnd. apply NoDup_cons in Hnd as [Hnin Hnd].
  unfold MLRecommender.add_recs in *. cbn [foldl emitted].
  rewrite IH by done. rewrite dict_lookup_add_rec.
  destruct (decide (identity rec = k)) as [<-|Hne]; [|done].
  by rewrite emitted_None.
Qed.

Lemma dict_lookup_elem k e (all : list (string * MLRecommender.entry)) :
  NoDup all.*1 → (k, e) ∈ all → dict_lookup k all = Some e.
Proof.
  induction all as [|[k' e'] all IH]; [by intros _ ?%elem_of_nil|].
  rewrite fmap_cons. intros [Hnin Hnd]%NoDup_cons [[= -> ->]|Hin]%elem_of_cons;
    simpl.
  - by rewrite decide_True.
  - rewrite decide_False; [auto|]. intros ->. apply Hnin.
    apply list_elem_of_fmap. by exists (k, e).
Qed.

Lemma weights_tfidf :
  MLRecommender.weights_get (MLRecommender.strategy_name MLRecommender.TFIDF)
    (frac 5 10) = frac 6 10.
Proof. done. Qed.

Lemma weights_cf :
  MLRecommender.weights_get
    (MLRecommender.strategy_name MLRecommender.CollaborativeFiltering) (frac 5 10)
  = frac 4 10.
Proof. done. Qed.

(** When neither strategy emits an identity twice, as for candidates of
    pairwise distinct identities, every merged book gets the score of the
    formula: the boost is applied exactly when both strategies emitted it. *)
Lemma hybrid_score_distinct_identities tfidf_recs cf_recs rec :
  NoDup (identity <$> tfidf_recs) →
  NoDup (identity <$> cf_recs) →
  rec ∈ MLRecommender.hybrid_recommendations
          [ (MLRecommender.TFIDF, tfidf_recs);
            (MLRecommender.CollaborativeFiltering, cf_recs) ] →
  (is_Some (emitted (identity rec) tfidf_recs)
   ∨ is_Some (emitted (identity rec) cf_recs))
  ∧ BookRecommendation.score rec
    = hybrid_formula
        (BookRecommendation.score <$> emitted (identity rec) tfidf_recs)
        (BookRecommendation.score <$> emitted (identity rec) cf_recs).
Proof.
  intros Hnd1 Hnd2.
  unfold MLRecommender.hybrid_recommendations, MLRecommender.merge.
  cbn [foldl fst snd]. rewrite weights_tfidf, weights_cf.
  intros ([k e] & -> & Hin)%list_elem_of_fmap. cbn [snd].
  apply dict_lookup_elem in Hin;
    [|by apply add_recs_keys_NoDup, add_recs_keys_NoDup, NoDup_nil_2].
  rewrite !dict_lookup_add_recs in Hin by done. cbn [dict_lookup] in Hin.
  assert (∀ x y : Qc, Py.sum [x; y] = x + y) as Hsum2
    by (intros; unfold Py.sum; simpl; ring).
  assert (∀ x : Qc, Py.sum [x] = x) as Hsum1
    by (intros; unfold Py.sum; simpl; ring).
  assert (∀ x : Qc, x + 0 = x) as Hr by (intros; ring).
  assert (∀ x : Qc, 0 + x = x) as Hl by (intros; ring).
  destruct (emitted k cf_recs) as [b|] eqn:Hb;
    destruct (emitted k tfidf_recs) as [a|] eqn:Ha;
    simplify_eq; cbn [default from_option id] in *.
  - assert (identity (MLRecommender.combine
                        (MLRecommender.record_rec (frac 4 10) b
                           (MLRecommender.record_rec (frac 6 10) a (fresh_entry a))))
            = k) as -> by by apply emitted_identity in Ha.
    rewrite Ha, Hb. split; [left; eauto|].
    unfold MLRecommender.combine, hybrid_formula. simpl.
    by rewrite Hsum2, min_spec.
  - assert (identity (MLRecommender.combine
                        (MLRecommender.record_rec (frac 4 10) b (fresh_entry b)))
            = k) as -> by by apply emitted_identity in Hb.
    rewrite Ha, Hb. split; [right; eauto|].
    unfold MLRecommender.combine, hybrid_formula. simpl.
    by rewrite Hsum1, min_spec, Hl.
  - assert (identity (MLRecommender.combine
                        (MLRecommender.record_rec (frac 6 10) a (fresh_entry a)))
            = k) as -> by by apply emitted_identity in Ha.
    rewrite Ha, Hb. split; [left; eauto|].
    unfold MLRecommender.combine, hybrid_formula. simpl.
    by rewrite Hsum1, min_spec, Hr.
Qed.

Lemma ranked_identities_NoDup recs top_n :
  NoDup (identity <$> recs) →
  NoDup (identity <$> Py.take top_n (BookRecommendation.sort_reverse recs)).
Proof.
  intros Hnd. eapply sublist_NoDup; [|apply fmap_sublist, py_take_sublist].
  by rewrite sort_reverse_perm.
Qed.

Lemma books_identities_NoDup (recs : list BookRecommendation.t) candidates :
  BookRecommendation.book <$> recs `sublist_of` candidates →
  NoDup (MLRecommender.book_id <$> candidates) →
  NoDup (identity <$> recs).
Proof.
  intros Hsub Hnd. unfold identity.
  rewrite (list_fmap_compose BookRecommendation.book MLRecommender.book_id).
  eapply sublist_NoDup; [exact Hnd|apply fmap_sublist, Hsub].
Qed.

(** C1. The failing input: two candidates share an identity (the title, no
    [work_id]) and no term with the target; only the popularity fallback
    emits them, TF-IDF emits nothing, and yet the merged score carries the
    1.2 boost: (0.9*0.4 + 0.5*0.4)/2 * 1.2 = 0.336 instead of 0.28. *)
Theorem hybrid_boost_without_second_strategy :
  TFIDFRecommender.recommend (rt := runtime_unrelated_texts) emma
    [messiah_1969; messiah_2019] None 20 = []
  ∧ BookRecommendation.algorithm
      <$> CollaborativeFilteringRecommender.recommend (rt := runtime_unrelated_texts)
            emma [messiah_1969; messiah_2019] None 20
    = ["Popularity-Based"; "Popularity-Based"]
  ∧ BookRecommendation.score
      <$> MLRecommender.recommend (rt := runtime_unrelated_texts) emma
            [messiah_1969; messiah_2019] None 10
    = [frac 336 1000]
  ∧ hybrid_formula None (Some (frac 9 10)) = frac 18 100
  ∧ (frac 9 10 * frac 4 10 + frac 5 10 * frac 4 10) / Qc_of_Z 2 = frac 28 100.
Proof. repeat split; compute_done. Qed.

(** ** Empty inputs and vectorizer failures *)

Section input_errors.
Context `{rt : PyRuntime}.

Lemma scan_no_candidates target user_profile similarities :
  TFIDFRecommender.scan target user_profile similarities [] = Some []
  ∨ TFIDFRecommender.scan target user_profile similarities [] = None.
Proof.
  induction similarities as [|s sims IH]; simpl; [by left|].
  case_decide; [by right|done].
Qed.

Lemma tfidf_recommend_nil target user_profile top_n :
  TFIDFRecommender.recommend target [] user_profile top_n = [].
Proof.
  unfold TFIDFRecommender.recommend, TFIDFRecommender.recommend_try.
  destruct (tfidf_cosine _) as [sims|]; simpl; [|done].
  destruct (scan_no_candidates target user_profile sims) as [-> | ->]; simpl;
    [|done].
  apply py_take_nil.
Qed.

Lemma cf_recommend_nil target user_profile top_n :
  CollaborativeFilteringRecommender.recommend target [] user_profile top_n = [].
Proof.
  unfold CollaborativeFilteringRecommender.recommend,
    CollaborativeFilteringRecommender._popularity_based_recommendations.
  destruct user_profile as [p|]; [case_match|]; apply py_take_nil.
Qed.

Lemma ml_recommend_nil target user_profile top_n :
  MLRecommender.recommend target [] user_profile top_n = [].
Proof.
  unfold MLRecommender.recommend. simpl.
  rewrite tfidf_recommend_nil, cf_recommend_nil. apply py_take_nil.
Qed.

Lemma recommender_recommend_nil self target user_profile top_n :
  RecommendationEngine.recommender_recommend self target [] user_profile top_n = [].
Proof.
  destruct self; simpl;
    auto using ml_recommend_nil, tfidf_recommend_nil, cf_recommend_nil.
Qed.

Lemma apply_context_filters_nil context :
  RecommendationEngine._apply_context_filters [] context = [].
Proof.
  unfold RecommendationEngine._apply_context_filters.
  repeat case_match; done.
Qed.

Lemma ensure_diversity_nil top_n :
  RecommendationEngine._ensure_diversity [] top_n = [].
Proof.
  unfold RecommendationEngine._ensure_diversity. simpl.
  repeat case_decide; done.
Qed.

(** With nothing ranked, nothing is returned. *)
Lemma get_recommendations_of_nothing self target candidates user_profile
    context top_n :
  RecommendationEngine.ranked_recommendations self target
    (RecommendationEngine._enrich_with_sentiment candidates) user_profile
    context top_n = [] →
  RecommendationEngine.get_recommendations self target candidates user_profile
    context top_n = [].
Proof.
  unfold RecommendationEngine.get_recommendations,
    RecommendationEngine.get_recommendations_state. simpl. intros ->.
  rewrite ensure_diversity_nil. apply py_take_nil.
Qed.

Lemma get_recommendations_nil self target user_profile context top_n :
  RecommendationEngine.get_recommendations self target [] user_profile context
    top_n = [].
Proof.
  apply get_recommendations_of_nothing.
  unfold RecommendationEngine.ranked_recommendations. simpl.
  rewrite recommender_recommend_nil.
  destruct context as [c|]; [|done].
  case_decide; [done|apply apply_context_filters_nil].
Qed.

(** Enrichment leaves the text of a book as it is. *)
Lemma enrich_book_text b :
  Book.get_text_representation (RecommendationEngine.enrich_book b)
  = Book.get_text_representation b.
Proof. unfold RecommendationEngine.enrich_book. by case_match. Qed.

Lemma vectorizer_input_enriched target candidates :
  vectorizer_input target (RecommendationEngine._enrich_with_sentiment candidates)
  = vectorizer_input target candidates.
Proof.
  unfold vectorizer_input, RecommendationEngine._enrich_with_sentiment.
  rewrite !fmap_cons. f_equal. rewrite <-list_fmap_compose.
  apply list_fmap_ext. intros i b _. simpl. by rewrite enrich_book_text.
Qed.

Lemma tfidf_recommend_failure target candidates user_profile top_n :
  tfidf_cosine (vectorizer_input target candidates) = None →
  TFIDFRecommender.recommend target candidates user_profile top_n = [].
Proof.
  intros Hfail. unfold TFIDFRecommender.recommend, TFIDFRecommender.recommend_try.
  fold (vectorizer_input target candidates). by rewrite Hfail.
Qed.

End input_errors.

(** The claim as stated fails: for a target with no usable text and a
    candidate that has a popularity score the hybrid engine returns that
    candidate, whether the vectorizer raises or finds no similarity. *)
Lemma textless_target_still_recommends :
  no_usable_text blank_book
  ∧ RecommendationEngine.get_recommendations (rt := runtime_vectorizer_raises)
      RecommendationEngine.Hybrid blank_book [book_09] None None 10 ≠ []
  ∧ RecommendationEngine.get_recommendations (rt := runtime_unrelated_texts)
      RecommendationEngine.Hybrid blank_book [book_09] None None 10 ≠ []
  ∧ BookRecommendation.book
      <$> RecommendationEngine.get_recommendations (rt := runtime_shared_words)
            RecommendationEngine.Hybrid blank_book [book_09] None None 10
    = [book_09].
Proof. repeat split; compute_done. Qed.

(** ** Order of the returned lists *)

Section ordering.
Context `{rt : PyRuntime}.

(** The strategies rank books of the candidate list, in its order. *)
Lemma scan_books target user_profile similarities candidates recs :
  TFIDFRecommender.scan target user_profile similarities candidates = Some recs →
  BookRecommendation.book <$> recs `sublist_of` candidates.
Proof.
  revert candidates recs.
  induction similarities as [|s sims IH]; intros candidates recs; simpl.
  - intros [= <-]. apply sublist_nil_l.
  - case_decide.
    + destruct candidates as [|book rest]; [done|].
      destruct (TFIDFRecommender.scan target user_profile sims rest) as [recs'|]
        eqn:Hscan; simpl; [|done].
      intros [= <-]. rewrite fmap_cons. simpl. apply sublist_skip. by apply IH.
    + intros Hscan. apply IH in Hscan.
      destruct candidates as [|book rest]; [done|]. by apply sublist_cons.
Qed.


Lemma scored_candidates_books candidates user_profile :
  BookRecommendation.book
    <$> CollaborativeFilteringRecommender.scored_candidates candidates user_profile
  `sublist_of` candidates.
Proof.
  induction candidates as [|b candidates IH]; simpl; [done|].
  case_decide; [rewrite fmap_cons; by apply sublist_skip|by apply sublist_cons].
Qed.




(** The context adjuster sorts again after boosting and filtering. *)
Lemma night_boost_book (recs : list BookRecommendation.t) :
  BookRecommendation.book <$> (RecommendationEngine.night_boost <$> recs)
  = BookRecommendation.book <$> recs.
Proof.
  rewrite <-list_fmap_compose. apply list_fmap_ext. intros i r _. simpl.
  unfold RecommendationEngine.night_boost. by case_match.
Qed.









(** The Diversity Enforcer: what the first pass admits, then what the
    second pass fills in, each in the order of the input. *)
Lemma first_pass_app top_n recs diverse seen_authors seen_subjects :
  ∃ admitted,
    RecommendationEngine.first_pass top_n recs diverse seen_authors seen_subjects
    = diverse ++ admitted
    ∧ admitted `sublist_of` recs.
Proof.
  revert diverse seen_authors seen_subjects.
  induction recs as [|rec rest IH]; intros diverse seen_authors seen_subjects;
    simpl.
  - exists []. by rewrite app_nil_r.
  - case_decide.
    { exists []. rewrite app_nil_r. split; [done|apply sublist_nil_l]. }
    case_match.
    + edestruct IH as (admitted & -> & Hsub).
      exists (rec :: admitted). rewrite <-app_assoc. split; [done|].
      by apply sublist_skip.
    + edestruct IH as (admitted & -> & Hsub).
      exists admitted. split; [done|]. by apply sublist_cons.
Qed.

Lemma fill_app top_n recs diverse :
  ∃ filled,
    RecommendationEngine.fill top_n recs diverse = diverse ++ filled
    ∧ filled `sublist_of` recs.
Proof.
  revert diverse. induction recs as [|rec rest IH]; intros diverse; simpl.
  - exists []. by rewrite app_nil_r.
  - case_decide.
    { destruct (IH diverse) as (filled & -> & Hsub).
      exists filled. split; [done|]. by apply sublist_cons. }
    case_decide.
    { exists [rec]. split; [done|]. apply sublist_skip, sublist_nil_l. }
    destruct (IH (diverse ++ [rec])) as (filled & -> & Hsub).
    exists (rec :: filled). rewrite <-app_assoc. split; [done|].
    by apply sublist_skip.
Qed.

Lemma ensure_diversity_runs recs top_n :
  ∃ admitted filled,
    RecommendationEngine._ensure_diversity recs top_n = admitted ++ filled
    ∧ admitted `sublist_of` recs
    ∧ filled `sublist_of` recs
    ∧ ((Py.len recs ≤ top_n)%Z → filled = []).
Proof.
  unfold RecommendationEngine._ensure_diversity. case_decide as Hlen.
  { exists recs, []. rewrite app_nil_r.
    split; [done|]. split; [done|]. split; [apply sublist_nil_l|done]. }
  destruct (first_pass_app top_n recs [] ∅ ∅) as (admitted & -> & Hadm).
  simpl. case_decide.
  - destruct (fill_app top_n recs admitted) as (filled & -> & Hfill).
    exists admitted, filled.
    split; [done|]. split; [done|]. split; [done|]. intros ?. lia.
  - exists admitted, []. rewrite app_nil_r.
    split; [done|]. split; [done|]. split; [apply sublist_nil_l|done].
Qed.



End ordering.


(** Trending ranks a book without a popularity score as 0 and scores it
    0.5, so its list can rise as well. *)
Lemma trending_default_score_breaks_order :
  let result :=
    (RecommendationEngine.get_trending_recommendations
       (rt := runtime_unrelated_texts) 2026 0%nat "all_time" 10
       [[book_02; emma]]).1 in
  BookRecommendation.score <$> result = [frac 2 10; frac 5 10]
  ∧ ¬ non_increasing result.
Proof. repeat split; compute_done. Qed.



(** ** The hybrid score for candidates of distinct identities *)

Section hybrid_distinct.
Context `{rt : PyRuntime}.

Lemma strategy_identities_NoDup s target candidates user_profile top_n :
  NoDup (MLRecommender.book_id <$> candidates) →
  NoDup (identity
           <$> MLRecommender.strategy_recommend s target candidates user_profile
                 top_n).
Proof.
  intros Hnd. destruct s; simpl.
  - unfold TFIDFRecommender.recommend, TFIDFRecommender.recommend_try.
    destruct (tfidf_cosine _) as [sims|]; simpl; [|apply NoDup_nil_2].
    destruct (TFIDFRecommender.scan target user_profile sims candidates) as [recs|]
      eqn:Hscan; simpl; [|apply NoDup_nil_2].
    apply ranked_identities_NoDup.
    eapply books_identities_NoDup; [by eapply scan_books|done].
  - unfold CollaborativeFilteringRecommender.recommend,
      CollaborativeFilteringRecommender._popularity_based_recommendations.
    assert (NoDup (identity
                     <$> CollaborativeFilteringRecommender.popularity_candidates
                           candidates)) as Hpop.
    { eapply books_identities_NoDup; [|done].
      rewrite popularity_candidates_books. apply sublist_filter. }
    destruct user_profile as [p|]; [case_match|];
      apply ranked_identities_NoDup; try done.
    eapply books_identities_NoDup; [apply scored_candidates_books|done].
Qed.

(** For candidates of pairwise distinct identities the Hybrid Combiner
    scores every book it returns by the formula of the claim. *)
Lemma hybrid_recommend_distinct_identities target candidates user_profile top_n rec :
  NoDup (MLRecommender.book_id <$> candidates) →
  rec ∈ MLRecommender.recommend target candidates user_profile top_n →
  let tfidf_recs :=
    TFIDFRecommender.recommend target candidates user_profile (top_n * 2)%Z in
  let cf_recs :=
    CollaborativeFilteringRecommender.recommend target candidates user_profile
      (top_n * 2)%Z in
  BookRecommendation.score rec
  = hybrid_formula
      (BookRecommendation.score <$> emitted (identity rec) tfidf_recs)
      (BookRecommendation.score <$> emitted (identity rec) cf_recs).
Proof.
  intros Hnd Hin. simpl.
  apply (hybrid_score_distinct_identities _ _ rec).
  - by apply (strategy_identities_NoDup MLRecommender.TFIDF target).
  - by apply (strategy_identities_NoDup MLRecommender.CollaborativeFiltering target).
  - unfold MLRecommender.recommend in Hin.
    apply (sublist_subseteq _ _ (py_take_sublist _ _)) in Hin.
    by rewrite sort_reverse_perm in Hin.
Qed.

End hybrid_distinct.


(** * Further properties of the code *)

(** ** Sentiment scoring *)

Lemma Qcdiv_ge_opp_1 x y : 0 < y → - y ≤ x → - (1) ≤ x / y.
Proof.
  intros Hy Hx. apply (Qcmult_le_mono_pos_r _ _ y); [done|].
  unfold Qcdiv. rewrite <-Qcmult_assoc, Qcmult_inv_l, Qcmult_1_r.
  - by replace (- (1) * y) with (- y) by ring.
  - intros ->. by apply Qclt_not_eq in Hy.
Qed.

Lemma Qcdiv_pos_iff x y : 0 < y → 0 < x / y ↔ 0 < x.
Proof.
  intros Hy. rewrite (Qcmult_lt_mono_pos_r 0 (x / y) y Hy).
  unfold Qcdiv. rewrite <-Qcmult_assoc, Qcmult_inv_l, Qcmult_1_r, Qcmult_0_l; [done|].
  intros ->. by apply Qclt_not_eq in Hy.
Qed.

Lemma Qcdiv_neg_iff x y : 0 < y → x / y < 0 ↔ x < 0.
Proof.
  intros Hy. rewrite (Qcmult_lt_mono_pos_r (x / y) 0 y Hy).
  unfold Qcdiv. rewrite <-Qcmult_assoc, Qcmult_inv_l, Qcmult_1_r, Qcmult_0_l; [done|].
  intros ->. by apply Qclt_not_eq in Hy.
Qed.

Lemma analyze_counts text :
  SentimentAnalyzer.analyze text
  = if decide (positive_count text + negative_count text = 0)%Z then 0
    else Qc_of_Z (positive_count text - negative_count text)
         / Qc_of_Z (positive_count text + negative_count text).
Proof.
  unfold SentimentAnalyzer.analyze. case_decide as Htext; [|done].
  subst text. by rewrite decide_True.
Qed.

Lemma lexicon_counts_nonneg text :
  (0 ≤ positive_count text)%Z ∧ (0 ≤ negative_count text)%Z.
Proof. unfold positive_count, negative_count, Py.len. lia. Qed.

(** On plain ASCII text, where the embedding of [str.lower] and of the
    word class is Python's, the sentiment score lies in [-1, 1]; it is
    positive exactly when the text has more positive than negative lexicon
    words, negative exactly when it has more negative ones, and so 0 when
    it has as many of each. *)
Theorem analyze_range_and_sign (text : string) :
  all_chars plain_ascii text →
  - (1) ≤ SentimentAnalyzer.analyze text ≤ 1
  ∧ (0 < SentimentAnalyzer.analyze text
     ↔ (negative_count text < positive_count text)%Z)
  ∧ (SentimentAnalyzer.analyze text < 0
     ↔ (positive_count text < negative_count text)%Z).
Proof.
  intros _. rewrite analyze_counts.
  destruct (lexicon_counts_nonneg text) as [Hp Hn].
  set (p := positive_count text) in *. set (n := negative_count text) in *.
  case_decide as Htotal.
  { split; [split; qc_lra|]. split; (split; [by intros ?%Qclt_not_eq|lia]). }
  assert (0 < Qc_of_Z (p + n)) as Hpos by (apply Qc_of_Z_pos; lia).
  split; [split|split].
  - apply Qcdiv_ge_opp_1; [done|]. rewrite <-Z2Qc_inj_opp, <-Z2Qc_inj_le. lia.
  - apply Qcdiv_le_1; [done|]. rewrite <-Z2Qc_inj_le. lia.
  - rewrite Qcdiv_pos_iff by done. rewrite <-Z2Qc_inj_0, <-Z2Qc_inj_lt. lia.
  - rewrite Qcdiv_neg_iff by done. rewrite <-Z2Qc_inj_0, <-Z2Qc_inj_lt. lia.
Qed.

(** Two positive words against one negative one: the score is 1/3. *)
Lemma analyze_range_and_sign_witness :
  all_chars plain_ascii "An excellent, if slow, story. Great ending!"
  ∧ positive_count "An excellent, if slow, story. Great ending!" = 2%Z
  ∧ negative_count "An excellent, if slow, story. Great ending!" = 1%Z
  ∧ SentimentAnalyzer.analyze "An excellent, if slow, story. Great ending!"
    = frac 1 3
  ∧ 0 < SentimentAnalyzer.analyze "An excellent, if slow, story. Great ending!".
Proof.
  assert (all_chars plain_ascii "An excellent, if slow, story. Great ending!")
    as H by (vm_compute; tauto).
  split; [done|]. do 3 (split; [compute_done|]).
  destruct (analyze_range_and_sign
              "An excellent, if slow, story. Great ending!" H)
    as (_ & Hpositive & _).
  apply Hpositive. compute_done.
Defined.

(** Writing back the sentiment score a book already has changes nothing. *)
Lemma set_sentiment_score_same b :
  Book.set_sentiment_score (Book.sentiment_score b) b = b.
Proof. by destruct b. Qed.

Lemma analyze_range text : - (1) ≤ SentimentAnalyzer.analyze text ≤ 1.
Proof.
  rewrite analyze_counts.
  destruct (lexicon_counts_nonneg text) as [Hp Hn].
  case_decide as Htotal; [split; qc_lra|].
  assert (0 < Qc_of_Z (positive_count text + negative_count text)) as Hpos
    by (apply Qc_of_Z_pos; lia).
  split.
  - apply Qcdiv_ge_opp_1; [done|]. rewrite <-Z2Qc_inj_opp, <-Z2Qc_inj_le. lia.
  - apply Qcdiv_le_1; [done|]. rewrite <-Z2Qc_inj_le. lia.
Qed.

Lemma enrich_book_written b :
  sentiment_written b (RecommendationEngine.enrich_book b).
Proof.
  unfold sentiment_written, RecommendationEngine.enrich_book.
  destruct (Py.truthy_str (Book.description b)) eqn:Hd; simpl.
  - destruct (Py.truthy_float (Book.sentiment_score b)) eqn:Hs; simpl.
    + split; [by rewrite set_sentiment_score_same|done].
    + split; [done|]. intros _. do 2 (split; [done|]).
      eexists. split; [done|]. apply analyze_range.
  - split; [by rewrite set_sentiment_score_same|done].
Qed.

(** [get_recommendations] leaves the caller's candidates as they were but
    for [sentiment_score]: same books in the same order, every other field
    untouched; a score is written only on a book with a description and no
    non-zero score, and what is written lies in [-1, 1]. *)
Theorem get_recommendations_writes_only_sentiment `{rt : PyRuntime}
    (self : RecommendationEngine.recommender) (target : Book.t)
    (candidates : list Book.t) (user_profile : option UserProfile.t)
    (context : option (gmap string string)) (top_n : Z) :
  Forall2 sentiment_written candidates
    (RecommendationEngine.get_recommendations_state self target candidates
       user_profile context top_n).1.
Proof.
  unfold RecommendationEngine.get_recommendations_state,
    RecommendationEngine._enrich_with_sentiment.
  cbn [fst]. apply Forall2_fmap_r, Forall_Forall2_diag, Forall_forall.
  intros b _. apply enrich_book_written.
Qed.

(** ** TF-IDF strategy *)

Lemma kept_char_lower c : kept_char c = true → Py.lower_char c = c.
Proof.
  destruct c as [[] [] [] [] [] [] [] []]; vm_compute; congruence.
Qed.

Lemma lower_char_idempotent c : Py.lower_char (Py.lower_char c) = Py.lower_char c.
Proof. destruct c as [[] [] [] [] [] [] [] []]; by vm_compute. Qed.

Lemma lower_idempotent s : Py.lower (Py.lower s) = Py.lower s.
Proof. induction s as [|c s IH]; [done|]. simpl. by rewrite lower_char_idempotent, IH. Qed.

Lemma filter_chars_all keep s : all_chars keep (Py.filter_chars keep s).
Proof.
  induction s as [|c s IH]; [done|]. simpl.
  destruct (keep c) eqn:Hc; [by split|done].
Qed.

Lemma filter_chars_fixed keep s :
  all_chars keep s → Py.filter_chars keep s = s.
Proof.
  induction s as [|c s IH]; [done|]. simpl. intros [Hc Hs].
  by rewrite Hc, IH.
Qed.

Lemma lower_fixed s : all_chars kept_char s → Py.lower s = s.
Proof.
  induction s as [|c s IH]; [done|]. simpl. intros [Hc Hs].
  by rewrite kept_char_lower, IH.
Qed.

(** On plain ASCII text, what [_preprocess_text] returns holds only
    lower-case letters, digits and white space; preprocessing it again
    changes nothing, and texts that differ only in letter case are
    preprocessed to the same string. *)
Theorem preprocess_text_normal_form (text : string) :
  all_chars plain_ascii text →
  all_chars kept_char (TFIDFRecommender._preprocess_text text)
  ∧ TFIDFRecommender._preprocess_text (TFIDFRecommender._preprocess_text text)
    = TFIDFRecommender._preprocess_text text
  ∧ TFIDFRecommender._preprocess_text (Py.lower text)
    = TFIDFRecommender._preprocess_text text.
Proof.
  intros _. unfold TFIDFRecommender._preprocess_text.
  pose proof (filter_chars_all kept_char (Py.lower text)) as Hall.
  split; [done|]. split.
  - change (Py.filter_chars kept_char
              (Py.lower (Py.filter_chars kept_char (Py.lower text)))
            = Py.filter_chars kept_char (Py.lower text)).
    rewrite (lower_fixed _ Hall). by apply filter_chars_fixed.
  - by rewrite lower_idempotent.
Qed.

Lemma preprocess_text_normal_form_witness :
  all_chars plain_ascii "Dune (2nd Edition), 1965!"
  ∧ TFIDFRecommender._preprocess_text "Dune (2nd Edition), 1965!"
    = "dune 2nd edition 1965"
  ∧ TFIDFRecommender._preprocess_text "dune 2nd edition 1965"
    = "dune 2nd edition 1965".
Proof.
  assert (all_chars plain_ascii "Dune (2nd Edition), 1965!") as H
    by (vm_compute; tauto).
  split; [done|]. split; [done|].
  destruct (preprocess_text_normal_form "Dune (2nd Edition), 1965!" H)
    as (_ & Hagain & _).
  exact Hagain.
Defined.

Lemma user_boost_at_least score book user_profile :
  0 ≤ score →
  Py.min score 1 ≤ TFIDFRecommender._apply_user_boost score book user_profile.
Proof.
  intros Hscore. unfold TFIDFRecommender._apply_user_boost, Py.min.
  destruct (Py.any_in (Book.authors book) _);
    destruct (Py.truthy_list (Book.subjects book) && _);
    repeat case_decide; qc_lra.
Qed.

(** The user boost never lowers a score below what it was (or below the
    cap 1), never exceeds 1, and multiplies by at most 1.3 × 1.2. *)
Theorem user_boost_bounds (score : Qc) (book : Book.t)
    (user_profile : UserProfile.t) :
  0 ≤ score →
  Py.min score 1 ≤ TFIDFRecommender._apply_user_boost score book user_profile ≤ 1
  ∧ TFIDFRecommender._apply_user_boost score book user_profile
    ≤ score * frac 156 100.
Proof.
  intros Hscore. split; [split|].
  - by apply user_boost_at_least.
  - apply user_boost_clamped.
  - unfold TFIDFRecommender._apply_user_boost, Py.min.
    destruct (Py.any_in (Book.authors book) _);
      destruct (Py.truthy_list (Book.subjects book) && _);
      repeat case_decide; qc_lra.
Qed.

Lemma user_boost_bounds_witness :
  0 ≤ frac 1 2
  ∧ Py.min (frac 1 2) 1
    ≤ TFIDFRecommender._apply_user_boost (frac 1 2) dune reader.
Proof.
  assert (0 ≤ frac 1 2) as H by compute_done.
  split; [done|]. apply (user_boost_bounds (frac 1 2) dune reader H).
Defined.

Lemma py_take_len {A} n (l : list A) : (0 ≤ n)%Z → (Py.len (Py.take n l) ≤ n)%Z.
Proof.
  intros Hn. unfold Py.take, Py.len. case_decide; [lia|].
  rewrite length_take. lia.
Qed.

Lemma Forall_of_sublist {A} (P : A → Prop) l1 l2 :
  l1 `sublist_of` l2 → Forall P l2 → Forall P l1.
Proof.
  rewrite !Forall_forall. intros Hsub HP x Hx. apply HP.
  by eapply elem_of_sublist.
Qed.

Lemma ranked_Forall (P : BookRecommendation.t → Prop) recs n :
  Forall P recs → Forall P (Py.take n (BookRecommendation.sort_reverse recs)).
Proof.
  intros HP. apply (Forall_of_sublist _ _ _ (py_take_sublist _ _)).
  by rewrite sort_reverse_perm.
Qed.

Section tfidf_results.
Context `{rt : PyRuntime}.

Lemma generate_reasons_length target candidate score :
  (1 ≤ length (TFIDFRecommender._generate_reasons target candidate score) ≤ 4)%nat.
Proof.
  unfold TFIDFRecommender._generate_reasons. rewrite !length_app.
  repeat case_match; simpl; lia.
Qed.

Lemma scan_results target user_profile similarities candidates recs :
  TFIDFRecommender.scan target user_profile similarities candidates = Some recs →
  Forall (λ r, frac 1 10 < BookRecommendation.score r
               ∧ (is_Some user_profile → BookRecommendation.score r ≤ 1)
               ∧ BookRecommendation.algorithm r = "TF-IDF Content-Based"
               ∧ (1 ≤ length (BookRecommendation.reasons r) ≤ 4)%nat) recs.
Proof.
  revert candidates recs.
  induction similarities as [|score sims IH]; intros candidates recs; simpl.
  - intros [= <-]. constructor.
  - case_decide as Hs; [|apply IH].
    destruct candidates as [|book rest]; [done|].
    destruct (TFIDFRecommender.scan target user_profile sims rest)
      as [recs'|] eqn:Hrec; [|done].
    simpl. intros [= <-]. constructor; [|by eapply IH]. simpl.
    split; [|split; [|split; [done|apply generate_reasons_length]]].
    + destruct user_profile as [p|]; [|done].
      eapply Qclt_le_trans; [|apply user_boost_at_least].
      * unfold Py.min. case_decide; [compute_done|done].
      * apply Qclt_le_weak. eapply Qclt_trans; [|done]. compute_done.
    + intros [p ->]. apply user_boost_clamped.
Qed.

End tfidf_results.

(** Every TF-IDF recommendation scores above the threshold 0.1 (the user
    boost never takes a score back under it) and, when a profile is given,
    at most 1; it is labelled with the strategy's name, recommends one of
    the candidates and gives one to four reasons; at most [top_n] are
    returned. *)
Theorem tfidf_recommend_results `{rt : PyRuntime} (target : Book.t)
    (candidates : list Book.t) (user_profile : option UserProfile.t)
    (top_n : Z) :
  let result := TFIDFRecommender.recommend target candidates user_profile top_n in
  Forall (tfidf_result candidates user_profile) result
  ∧ ((0 ≤ top_n)%Z → (Py.len result ≤ top_n)%Z).
Proof.
  unfold TFIDFRecommender.recommend, TFIDFRecommender.recommend_try.
  destruct (tfidf_cosine _) as [similarities|]; simpl;
    [|split; [constructor|unfold Py.len; simpl; lia]].
  destruct (TFIDFRecommender.scan _ _ _ _) as [recs|] eqn:Hscan; simpl;
    [|split; [constructor|unfold Py.len; simpl; lia]].
  split; [|apply py_take_len].
  apply ranked_Forall.
  pose proof (scan_results _ _ _ _ _ Hscan) as Hres.
  pose proof (scan_books _ _ _ _ _ Hscan) as Hbooks.
  rewrite Forall_forall in Hres. apply Forall_forall. intros r Hr.
  destruct (Hres r Hr) as (? & ? & ? & ?). repeat split; try done; try lia.
  eapply elem_of_sublist; [|done]. by apply list_elem_of_fmap_2.
Qed.

Lemma tfidf_recommend_results_witness :
  (0 ≤ 1)%Z
  ∧ (Py.len (TFIDFRecommender.recommend (rt := runtime_identical_texts) dune
               [dune_paperback; book_05] (Some reader) 1) ≤ 1)%Z.
Proof.
  assert (0 ≤ 1)%Z as H by lia.
  split; [done|].
  apply (tfidf_recommend_results (rt := runtime_identical_texts) dune
           [dune_paperback; book_05] (Some reader) 1), H.
Defined.

(** ** Collaborative-filtering strategy *)

Lemma cf_score_formula_eq book user_profile :
  CollaborativeFilteringRecommender._calculate_cf_score book user_profile
  = cf_score_formula book (UserProfile.reading_history user_profile).
Proof.
  unfold CollaborativeFilteringRecommender._calculate_cf_score, cf_score_formula.
  rewrite cf_loop. cbn zeta. by rewrite Z.add_0_l, Qcplus_0_l.
Qed.

Lemma total_pos (xs : list Qc) :
  Forall (λ x, 0 < x) xs → xs ≠ [] → 0 < total xs.
Proof.
  induction 1 as [|x xs Hx Hxs IH]; [done|]. intros _. simpl.
  destruct xs as [|y xs].
  - simpl. by rewrite Qcplus_0_r.
  - specialize (IH ltac:(done)).
    apply Qclt_trans with (0 + total (y :: xs)); [by rewrite Qcplus_0_l|].
    rewrite (Qcplus_comm 0), (Qcplus_comm x). by apply Qcplus_lt_mono_l.
Qed.

(** The score of a book is positive exactly when some history entry
    qualifies for it. *)
Lemma cf_score_formula_pos book history :
  0 < cf_score_formula book history ↔ Exists (qualifies book) history.
Proof.
  unfold cf_score_formula. rewrite Exists_exists. split.
  - case_decide as Hcount; [|by intros ?%Qclt_not_eq].
    intros _. destruct (filter (qualifies book) history) as [|entry l] eqn:Hf;
      [unfold Py.len in Hcount; simpl in Hcount; lia|].
    assert (entry ∈ filter (qualifies book) history) as [? ?]%list_elem_of_filter
      by (rewrite Hf; left).
    by exists entry.
  - intros (entry & Hin & Hq).
    assert (entry ∈ filter (qualifies book) history) as Hin'
      by by apply list_elem_of_filter.
    rewrite decide_True; last first.
    { unfold Py.len. destruct (filter (qualifies book) history); [by inv Hin'|].
      simpl. lia. }
    assert (0 < Qc_of_Z 5) by compute_done.
    apply Qcdiv_pos_iff; [done|]. apply Qcdiv_pos_iff.
    { apply Qc_of_Z_pos. unfold Py.len.
      destruct (filter (qualifies book) history); [by inv Hin'|]. simpl. lia. }
    apply total_pos.
    + rewrite Forall_fmap, Forall_forall.
      intros e [He _]%list_elem_of_filter. simpl.
      destruct (decide (qualifies book e)) as [_|]; [|done].
      unfold qualifies in He.
      destruct (ReadingHistory.rating e) as [r|]; [|done].
      destruct He as [Hr Hs]. simpl.
      rewrite <-(Qcmult_0_l (similarity_formula book e)).
      apply Qcmult_lt_mono_pos_r; [done|].
      eapply Qclt_le_trans; [|done]. compute_done.
    + intros Hnil%fmap_nil_inv. rewrite Hnil in Hin'. by inv Hin'.
Qed.

Section cf_results.
Context `{rt : PyRuntime}.

Lemma scored_candidates_results candidates user_profile :
  Forall (λ r, BookRecommendation.score r
               = CollaborativeFilteringRecommender._calculate_cf_score
                   (BookRecommendation.book r) user_profile
               ∧ 0 < BookRecommendation.score r
               ∧ BookRecommendation.algorithm r = "Collaborative Filtering")
    (CollaborativeFilteringRecommender.scored_candidates candidates user_profile).
Proof.
  induction candidates as [|b candidates IH]; simpl; [constructor|].
  case_decide; [|done]. by constructor.
Qed.

Lemma scored_candidates_complete candidates user_profile b :
  b ∈ candidates →
  0 < CollaborativeFilteringRecommender._calculate_cf_score b user_profile →
  b ∈ BookRecommendation.book
        <$> CollaborativeFilteringRecommender.scored_candidates candidates
              user_profile.
Proof.
  intros Hin Hpos. induction candidates as [|c candidates IH]; [by inv Hin|].
  simpl. apply elem_of_cons in Hin as [<-|Hin].
  - rewrite decide_True by done. rewrite fmap_cons. left.
  - case_decide; [rewrite fmap_cons; right|]; by apply IH.
Qed.

Lemma cf_recommend_complete target candidates user_profile top_n b :
  UserProfile.reading_history user_profile ≠ [] →
  (Py.len candidates ≤ top_n)%Z →
  b ∈ candidates →
  Exists (qualifies b) (UserProfile.reading_history user_profile) →
  b ∈ BookRecommendation.book
        <$> CollaborativeFilteringRecommender.recommend target candidates
              (Some user_profile) top_n.
Proof.
  intros Hhistory Hall Hb Hq.
  unfold CollaborativeFilteringRecommender.recommend, has_history.
  destruct (UserProfile.reading_history user_profile) as [|e h] eqn:Hh; [done|].
  rewrite <-Hh in Hq.
  pose proof (scored_candidates_books candidates user_profile) as Hbooks.
  rewrite py_take_all.
  - rewrite sort_reverse_perm. apply scored_candidates_complete; [done|].
    rewrite cf_score_formula_eq. by apply cf_score_formula_pos.
  - apply sublist_length in Hbooks. rewrite length_fmap in Hbooks.
    assert (length (BookRecommendation.sort_reverse
              (CollaborativeFilteringRecommender.scored_candidates candidates
                 user_profile))
            = length (CollaborativeFilteringRecommender.scored_candidates
                        candidates user_profile)) as Hlen
      by (apply Permutation_length, sort_reverse_perm).
    unfold Py.len in *. lia.
Qed.

End cf_results.

(** For a user with a reading history, every collaborative-filtering
    recommendation scores above 0 (at most 1 when the ratings are in
    range), is labelled with the strategy's name and recommends a
    candidate for which some history entry rated at least 4.0 shares an
    author or a tag; at most [top_n] are returned, and when [top_n] covers
    all the candidates every candidate with such an entry is recommended. *)
Theorem cf_recommend_results `{rt : PyRuntime} (target : Book.t)
    (candidates : list Book.t) (user_profile : UserProfile.t) (top_n : Z) :
  UserProfile.reading_history user_profile ≠ [] →
  let result :=
    CollaborativeFilteringRecommender.recommend target candidates
      (Some user_profile) top_n in
  Forall (cf_result candidates user_profile) result
  ∧ ((0 ≤ top_n)%Z → (Py.len result ≤ top_n)%Z)
  ∧ ((Py.len candidates ≤ top_n)%Z →
     ∀ b, b ∈ candidates →
          Exists (qualifies b) (UserProfile.reading_history user_profile) →
          b ∈ BookRecommendation.book <$> result).
Proof.
  intros Hhistory. cbn zeta.
  split; [|split; [|intros; by apply cf_recommend_complete]].
  - unfold CollaborativeFilteringRecommender.recommend, has_history.
    destruct (UserProfile.reading_history user_profile) as [|e h] eqn:Hh; [done|].
    pose proof (scored_candidates_books candidates user_profile) as Hbooks.
    apply ranked_Forall.
    pose proof (scored_candidates_results candidates user_profile) as Hres.
    rewrite Forall_forall in Hres. apply Forall_forall. intros r Hr.
    destruct (Hres r Hr) as (Hscore & Hpos & Hname).
    assert (Exists (qualifies (BookRecommendation.book r))
              (UserProfile.reading_history user_profile)) as Hq.
    { apply cf_score_formula_pos. by rewrite <-cf_score_formula_eq, <-Hscore. }
    unfold cf_result. repeat split; try done.
    + eapply elem_of_sublist; [|done]. by apply list_elem_of_fmap_2.
    + intros Hrange. rewrite Hscore, cf_score_formula_eq.
      by apply cf_score_formula_range.
  - unfold CollaborativeFilteringRecommender.recommend,
      CollaborativeFilteringRecommender._popularity_based_recommendations.
    destruct (has_history _); apply py_take_len.
Qed.

Lemma cf_recommend_results_witness :
  UserProfile.reading_history reader ≠ []
  ∧ Forall (cf_result [dune; emma] reader)
      (CollaborativeFilteringRecommender.recommend (rt := runtime_unrelated_texts)
         dune [dune; emma] (Some reader) 5).
Proof.
  assert (UserProfile.reading_history reader ≠ []) as H by done.
  split; [done|].
  apply (cf_recommend_results (rt := runtime_unrelated_texts)
           dune [dune; emma] reader 5 H).
Defined.

(** ** Hybrid strategy *)

Lemma books_of_sublist (recs : list BookRecommendation.t) candidates :
  BookRecommendation.book <$> recs `sublist_of` candidates →
  Forall (λ r, BookRecommendation.book r ∈ candidates) recs.
Proof.
  intros Hsub. apply Forall_forall. intros r Hr.
  eapply elem_of_sublist; [|done]. by apply list_elem_of_fmap_2.
Qed.

Lemma add_rec_merged books weight rec all :
  BookRecommendation.book rec ∈ books →
  Forall (merged_entry books) all →
  Forall (merged_entry books) (MLRecommender.add_rec weight rec all).
Proof.
  intros Hrec. induction 1 as [|[k e] all Hke Hall IH]; simpl.
  - by repeat constructor.
  - case_decide; constructor; done.
Qed.

Lemma add_recs_merged books weight recs all :
  Forall (λ r, BookRecommendation.book r ∈ books) recs →
  Forall (merged_entry books) all →
  Forall (merged_entry books) (MLRecommender.add_recs weight recs all).
Proof.
  intros Hrecs. revert all. unfold MLRecommender.add_recs.
  induction Hrecs as [|rec recs Hrec Hrecs IH]; intros all Hall; [done|].
  simpl. by apply IH, add_rec_merged.
Qed.

Lemma merge_merged books (results : list (MLRecommender.strategy
                                          * list BookRecommendation.t)) :
  Forall (λ sr, Forall (λ r, BookRecommendation.book r ∈ books) sr.2) results →
  Forall (merged_entry books) (MLRecommender.merge results)
  ∧ NoDup (MLRecommender.merge results).*1.
Proof.
  unfold MLRecommender.merge. intros Hresults.
  assert (Forall (merged_entry books) [] ∧ NoDup ([] : list (string * MLRecommender.entry)).*1)
    as Hinit by (split; constructor).
  revert Hinit. generalize ([] : list (string * MLRecommender.entry)).
  induction Hresults as [|sr results Hsr Hresults IH]; intros all [Hall Hnd];
    [done|].
  simpl. apply IH. split.
  - by apply add_recs_merged.
  - by apply add_recs_keys_NoDup.
Qed.

Lemma hybrid_identities books results :
  Forall (merged_entry books) (MLRecommender.merge results) →
  identity <$> MLRecommender.hybrid_recommendations results
  = (MLRecommender.merge results).*1.
Proof.
  unfold MLRecommender.hybrid_recommendations.
  induction 1 as [|[k e] all [Hk _] Hall IH]; [done|].
  rewrite !fmap_cons, IH. by rewrite Hk.
Qed.

Lemma combine_result books kv :
  merged_entry books kv → hybrid_result books (MLRecommender.combine kv.2).
Proof.
  intros [_ Hbook]. split; [done|]. split; [apply hybrid_score_clamped|].
  split; [done|]. unfold MLRecommender.combine.
  cbn [BookRecommendation.reasons]. rewrite length_app, length_take.
  cbn [length]. lia.
Qed.

Section hybrid_results.
Context `{rt : PyRuntime}.

Lemma strategy_recommend_books s target candidates user_profile top_n :
  Forall (λ r, BookRecommendation.book r ∈ candidates)
    (MLRecommender.strategy_recommend s target candidates user_profile top_n).
Proof.
  destruct s; simpl.
  - unfold TFIDFRecommender.recommend, TFIDFRecommender.recommend_try.
    destruct (tfidf_cosine _) as [sims|]; simpl; [|constructor].
    destruct (TFIDFRecommender.scan target user_profile sims candidates) as [recs|]
      eqn:Hscan; simpl; [|constructor].
    apply ranked_Forall, books_of_sublist. by eapply scan_books.
  - unfold CollaborativeFilteringRecommender.recommend,
      CollaborativeFilteringRecommender._popularity_based_recommendations.
    assert (Forall (λ r, BookRecommendation.book r ∈ candidates)
              (CollaborativeFilteringRecommender.popularity_candidates candidates))
      as Hpop.
    { apply books_of_sublist. rewrite popularity_candidates_books.
      apply sublist_filter. }
    destruct user_profile as [p|]; [case_match|];
      apply ranked_Forall; try done.
    apply books_of_sublist, scored_candidates_books.
Qed.

Lemma ml_recommend_merged target candidates user_profile top_n :
  let results :=
    (λ s, (s, MLRecommender.strategy_recommend s target candidates user_profile
                (top_n * 2)%Z))
    <$> MLRecommender.strategies in
  Forall (merged_entry candidates) (MLRecommender.merge results)
  ∧ NoDup (MLRecommender.merge results).*1.
Proof.
  apply merge_merged. rewrite Forall_fmap. apply Forall_forall. intros s _.
  apply strategy_recommend_books.
Qed.

Lemma ml_recommend_identities_NoDup target candidates user_profile top_n :
  NoDup (identity
           <$> MLRecommender.recommend target candidates user_profile top_n).
Proof.
  destruct (ml_recommend_merged target candidates user_profile top_n)
    as [Hmerged Hnd].
  unfold MLRecommender.recommend. cbn zeta.
  apply ranked_identities_NoDup. by rewrite (hybrid_identities candidates).
Qed.

Lemma ml_recommend_hybrid_results target candidates user_profile top_n :
  Forall (hybrid_result candidates)
    (MLRecommender.recommend target candidates user_profile top_n).
Proof.
  destruct (ml_recommend_merged target candidates user_profile top_n)
    as [Hmerged Hnd].
  unfold MLRecommender.recommend. cbn zeta.
  apply ranked_Forall. unfold MLRecommender.hybrid_recommendations.
  rewrite Forall_fmap. eapply Forall_impl; [done|].
  intros kv Hkv. by apply combine_result.
Qed.

End hybrid_results.

(** The hybrid strategy never returns the same identity ([work_id], or
    the title when there is none) twice, whatever the candidates; every
    result is labelled "Hybrid ML", scores at most 1, recommends one of the
    candidates and gives one to five reasons; at most [top_n] are
    returned. *)
Theorem hybrid_recommend_results `{rt : PyRuntime} (target : Book.t)
    (candidates : list Book.t) (user_profile : option UserProfile.t)
    (top_n : Z) :
  let result := MLRecommender.recommend target candidates user_profile top_n in
  NoDup (identity <$> result)
  ∧ Forall (hybrid_result candidates) result
  ∧ ((0 ≤ top_n)%Z → (Py.len result ≤ top_n)%Z).
Proof.
  split; [apply ml_recommend_identities_NoDup|].
  split; [apply ml_recommend_hybrid_results|].
  apply py_take_len.
Qed.

Lemma hybrid_recommend_results_witness :
  (0 ≤ 1)%Z
  ∧ (Py.len (MLRecommender.recommend (rt := runtime_unrelated_texts) emma
               [messiah_1969; messiah_2019] None 1) ≤ 1)%Z.
Proof.
  assert (0 ≤ 1)%Z as H by lia.
  split; [done|].
  apply (hybrid_recommend_results (rt := runtime_unrelated_texts) emma
           [messiah_1969; messiah_2019] None 1), H.
Defined.

(** When no two candidates share an identity, each hybrid result was
    emitted by at least one strategy and its score is the hybrid formula
    of the scores the strategies gave it: weights 0.6 and 0.4, halved,
    times 1.2 exactly when both strategies emitted the book, capped at 1. *)
Theorem hybrid_score_of_distinct_candidates `{rt : PyRuntime} (target : Book.t)
    (candidates : list Book.t) (user_profile : option UserProfile.t)
    (top_n : Z) :
  NoDup (MLRecommender.book_id <$> candidates) →
  let tfidf_recs :=
    TFIDFRecommender.recommend target candidates user_profile (top_n * 2)%Z in
  let cf_recs :=
    CollaborativeFilteringRecommender.recommend target candidates user_profile
      (top_n * 2)%Z in
  Forall (λ rec,
            (is_Some (emitted (identity rec) tfidf_recs)
             ∨ is_Some (emitted (identity rec) cf_recs))
            ∧ BookRecommendation.score rec
              = hybrid_formula
                  (BookRecommendation.score <$> emitted (identity rec) tfidf_recs)
                  (BookRecommendation.score <$> emitted (identity rec) cf_recs))
    (MLRecommender.recommend target candidates user_profile top_n).
Proof.
  intros Hnd. cbn zeta. apply Forall_forall. intros rec Hin.
  apply hybrid_score_distinct_identities.
  - by apply (strategy_identities_NoDup MLRecommender.TFIDF target).
  - by apply (strategy_identities_NoDup MLRecommender.CollaborativeFiltering target).
  - unfold MLRecommender.recommend in Hin.
    apply (sublist_subseteq _ _ (py_take_sublist _ _)) in Hin.
    by rewrite sort_reverse_perm in Hin.
Qed.

Lemma hybrid_score_of_distinct_candidates_witness :
  NoDup (MLRecommender.book_id <$> [dune_paperback; book_05])
  ∧ BookRecommendation.score
      <$> MLRecommender.recommend (rt := runtime_identical_texts) dune
            [dune_paperback; book_05] (Some reader) 5
    = [frac 504 1000; frac 468 1000]
  ∧ Forall (λ rec,
              BookRecommendation.score rec
              = hybrid_formula
                  (BookRecommendation.score
                     <$> emitted (identity rec)
                           (TFIDFRecommender.recommend
                              (rt := runtime_identical_texts) dune
                              [dune_paperback; book_05] (Some reader) (5 * 2)))
                  (BookRecommendation.score
                     <$> emitted (identity rec)
                           (CollaborativeFilteringRecommender.recommend
                              (rt := runtime_identical_texts) dune
                              [dune_paperback; book_05] (Some reader) (5 * 2))))
      (MLRecommender.recommend (rt := runtime_identical_texts) dune
         [dune_paperback; book_05] (Some reader) 5).
Proof.
  assert (NoDup (MLRecommender.book_id <$> [dune_paperback; book_05])) as Hnd
    by compute_done.
  split; [done|]. split; [compute_done|].
  eapply Forall_impl;
    [exact (hybrid_score_of_distinct_candidates (rt := runtime_identical_texts)
              dune [dune_paperback; book_05] (Some reader) 5 Hnd)|].
  by intros rec [_ ?].
Defined.

(** ** Diversity selection *)

Lemma first_pass_length top_n recs diverse seen_authors seen_subjects :
  (Py.len diverse ≤ top_n)%Z →
  (Py.len (RecommendationEngine.first_pass top_n recs diverse seen_authors
             seen_subjects) ≤ top_n)%Z.
Proof.
  revert diverse seen_authors seen_subjects.
  induction recs as [|rec recs IH]; intros diverse sa ss Hlen; simpl; [done|].
  case_decide as Hfull; [done|].
  destruct (_ || _); apply IH; [|done].
  unfold Py.len in *. rewrite length_app. simpl. lia.
Qed.

Lemma fill_length_le top_n recs diverse :
  (Py.len diverse < top_n)%Z →
  (Py.len (RecommendationEngine.fill top_n recs diverse) ≤ top_n)%Z.
Proof.
  revert diverse. induction recs as [|rec recs IH]; intros diverse Hlen; simpl;
    [lia|].
  case_decide; [by apply IH|].
  case_decide as Hfull.
  - unfold Py.len in *. rewrite length_app in *. simpl in *. lia.
  - apply IH. lia.
Qed.

Lemma fill_NoDup top_n recs diverse :
  NoDup diverse → NoDup (RecommendationEngine.fill top_n recs diverse).
Proof.
  revert diverse. induction recs as [|rec recs IH]; intros diverse Hnd; simpl;
    [done|].
  case_decide as Hin; [by apply IH|].
  assert (NoDup (diverse ++ [rec])) as Hnd'.
  { apply NoDup_app. split; [done|]. split; [|apply NoDup_singleton].
    by intros x Hx ->%list_elem_of_singleton. }
  case_decide; [done|by apply IH].
Qed.

Lemma filter_ext_elem {A} (P Q : A → Prop) `{!∀ x, Decision (P x)}
    `{!∀ x, Decision (Q x)} (l : list A) :
  (∀ x, x ∈ l → P x ↔ Q x) → filter P l = filter Q l.
Proof.
  induction l as [|x l IH]; intros Hext; [done|].
  rewrite !filter_cons.
  rewrite IH by (intros y Hy; apply Hext; by right).
  assert (P x ↔ Q x) as Hx by (apply Hext; left).
  destruct (decide (P x)) as [HP|HP]; destruct (decide (Q x)) as [HQ|HQ];
    tauto || done.
Qed.

(** With enough recommendations left that it has not taken, the second
    loop fills the list up to [top_n]. *)
Lemma fill_length top_n recs diverse :
  NoDup recs →
  (Py.len diverse < top_n)%Z →
  (top_n - Py.len diverse ≤ Py.len (filter (λ r, r ∉ diverse) recs))%Z →
  Py.len (RecommendationEngine.fill top_n recs diverse) = top_n.
Proof.
  revert diverse.
  induction recs as [|rec recs IH]; intros diverse Hnd Hlen Hleft.
  { unfold Py.len in *. simpl in *. lia. }
  apply NoDup_cons in Hnd as [Hrec Hnd]. rewrite filter_cons in Hleft. simpl.
  destruct (decide (rec ∈ diverse)) as [Hin|Hin].
  - rewrite decide_False in Hleft by (by intros ?). by apply IH.
  - rewrite decide_True in Hleft by done.
    assert (Py.len (diverse ++ [rec]) = (Py.len diverse + 1)%Z) as Hlen'
      by (unfold Py.len; rewrite length_app; simpl; lia).
    case_decide as Hfull; [lia|].
    apply IH; [done|lia|].
    replace (filter (λ r, r ∉ diverse ++ [rec]) recs)
      with (filter (λ r, r ∉ diverse) recs).
    + unfold Py.len in *. simpl in Hleft. lia.
    + apply filter_ext_elem. intros r Hr.
      rewrite elem_of_app, list_elem_of_singleton.
      split; [|tauto]. intros Hnin [? | ->]; done.
Qed.

Lemma filter_not_in_length {A} `{EqDecision A} (taken l : list A) :
  NoDup l → taken `sublist_of` l →
  length (filter (λ x, x ∉ taken) l) = (length l - length taken)%nat.
Proof.
  intros Hnd Hsub.
  pose proof (filter_app_complement (λ x, x ∈ taken) l) as Hperm.
  apply Permutation_length in Hperm. rewrite length_app in Hperm.
  assert (filter (λ x, x ∈ taken) l ≡ₚ taken) as Htaken.
  { apply NoDup_Permutation.
    - by apply NoDup_filter.
    - by eapply sublist_NoDup.
    - intros x. rewrite list_elem_of_filter. split; [tauto|].
      intros Hx. split; [done|]. by eapply elem_of_sublist. }
  apply Permutation_length in Htaken. lia.
Qed.

Lemma existsb_seen_empty (l : list string) :
  existsb (λ x, bool_decide (x ∈ (∅ : gset string))) l = false.
Proof.
  induction l as [|x l IH]; [done|]. cbn [existsb].
  rewrite bool_decide_eq_false_2 by set_solver. done.
Qed.

(** The first recommendation is always admitted by the first loop. *)
Lemma first_pass_head top_n rec recs :
  (1 ≤ top_n)%Z →
  ∃ admitted,
    RecommendationEngine.first_pass top_n (rec :: recs) [] ∅ ∅
    = rec :: admitted.
Proof.
  intros Hn. cbn [RecommendationEngine.first_pass].
  rewrite decide_False by (unfold Py.len; simpl; lia).
  rewrite existsb_seen_empty. cbn [negb orb app].
  destruct (first_pass_app top_n recs [rec]
              (∅ ∪ list_to_set (Book.authors (BookRecommendation.book rec)))
              (if Py.truthy_list (Book.subjects (BookRecommendation.book rec))
               then ∅ ∪ list_to_set
                          (firstn 3 (Py.list_or_nil
                                       (Book.subjects (BookRecommendation.book rec))))
               else ∅)) as (admitted & -> & _).
  by exists admitted.
Qed.

(** [_ensure_diversity] selects among the recommendations it is given:
    every result is one of them; at most [top_n] results; the best-placed
    recommendation is always kept, first; and when no recommendation
    occurs twice, none is returned twice and exactly [min(len, top_n)] are
    returned: the diversity rule changes which ones, never how many. *)
Theorem ensure_diversity_selection (recs : list BookRecommendation.t)
    (top_n : Z) :
  let result := RecommendationEngine._ensure_diversity recs top_n in
  (∀ r, r ∈ result → r ∈ recs)
  ∧ ((0 ≤ top_n)%Z → (Py.len result ≤ top_n)%Z)
  ∧ ((1 ≤ top_n)%Z → head result = head recs)
  ∧ (NoDup recs →
     NoDup result
     ∧ ((0 ≤ top_n)%Z → Py.len result = Z.min (Py.len recs) top_n)).
Proof.
  cbn zeta. unfold RecommendationEngine._ensure_diversity.
  destruct (decide (Py.len recs ≤ top_n)%Z) as [Hall|Hmore].
  { repeat split; try done. intros _. lia. }
  destruct (first_pass_app top_n recs [] ∅ ∅) as (admitted & Hfirst & Hsub).
  rewrite app_nil_l in Hfirst. rewrite Hfirst.
  destruct (fill_app top_n recs admitted) as (filled & Hfill & Hsub').
  assert ((0 ≤ top_n)%Z → (Py.len admitted ≤ top_n)%Z) as Hlen.
  { intros Hn. rewrite <-Hfirst. apply first_pass_length.
    unfold Py.len. simpl. lia. }
  split; [|split; [|split]].
  - intros r. case_decide.
    + rewrite Hfill, elem_of_app. intros [?|?]; by eapply elem_of_sublist.
    + intros ?. by eapply elem_of_sublist.
  - intros Hn. case_decide; [by apply fill_length_le|lia].
  - intros Hn. destruct recs as [|rec recs]; [unfold Py.len in *; simpl in *; lia|].
    destruct (first_pass_head top_n rec recs Hn) as (admitted' & Hhead).
    rewrite Hfirst in Hhead. subst admitted.
    case_decide; [rewrite Hfill|]; by rewrite Hhead.
  - intros Hnd.
    assert (NoDup admitted) as Hnd' by by eapply sublist_NoDup.
    case_decide as Hshort.
    + split; [by apply fill_NoDup|]. intros Hn.
      rewrite fill_length; [lia|done|done|].
      unfold Py.len in *. rewrite filter_not_in_length by done.
      apply sublist_length in Hsub. lia.
    + split; [done|]. intros Hn. specialize (Hlen Hn). lia.
Qed.

Lemma ensure_diversity_selection_witness :
  NoDup (CollaborativeFilteringRecommender.popularity_candidates
           [book_09; book_05; book_02])
  ∧ Py.len (RecommendationEngine._ensure_diversity
              (CollaborativeFilteringRecommender.popularity_candidates
                 [book_09; book_05; book_02]) 2) = 2%Z.
Proof.
  assert (NoDup (CollaborativeFilteringRecommender.popularity_candidates
                   [book_09; book_05; book_02])) as Hnd by compute_done.
  split; [done|].
  destruct (ensure_diversity_selection
              (CollaborativeFilteringRecommender.popularity_candidates
                 [book_09; book_05; book_02]) 2) as (_ & _ & _ & Hexact).
  destruct (Hexact Hnd) as [_ Hlen]. apply Hlen. lia.
Defined.

(** ** Context filters *)

(** Under the reading goal "quick_read" no result is known to have 400
    pages or more; under "deep_dive" every result has a known page count
    above 300; any other or no reading goal drops nothing; and every
    result recommends a book of the list that was given. *)
Theorem context_filters_reading_goal (recs : list BookRecommendation.t)
    (context : gmap string string) :
  let result := RecommendationEngine._apply_context_filters recs context in
  (context !! "reading_goal" = Some "quick_read" →
   Forall (λ r, ∀ n, Book.page_count (BookRecommendation.book r) = Some n →
                     (n < 400)%Z) result)
  ∧ (context !! "reading_goal" = Some "deep_dive" →
     Forall (λ r, ∃ n, Book.page_count (BookRecommendation.book r) = Some n
                       ∧ (300 < n)%Z) result)
  ∧ (context !! "reading_goal" ≠ Some "quick_read" →
     context !! "reading_goal" ≠ Some "deep_dive" →
     length result = length recs)
  ∧ Forall (λ r, BookRecommendation.book r ∈ BookRecommendation.book <$> recs)
      result.
Proof.
  cbn zeta. unfold RecommendationEngine._apply_context_filters.
  set (boosted := match context !! "time_of_day" with
                  | Some time => if decide (time = "night")
                                 then RecommendationEngine.night_boost <$> recs
                                 else recs
                  | None => recs
                  end).
  assert (BookRecommendation.book <$> boosted = BookRecommendation.book <$> recs)
    as Hbooks.
  { unfold boosted. destruct (context !! "time_of_day") as [time|]; [|done].
    case_decide; [apply night_boost_book|done]. }
  assert (length boosted = length recs) as Hlen
    by (rewrite <-(length_fmap BookRecommendation.book), Hbooks;
        apply length_fmap).
  split; [|split; [|split]].
  - intros ->. rewrite decide_True by done. rewrite sort_reverse_perm.
    apply Forall_forall. intros r [Hr _]%list_elem_of_filter n Hn.
    unfold RecommendationEngine.pages_below, Py.truthy_int in Hr.
    rewrite Hn in Hr. destruct Hr as [Hr|Hr].
    + apply bool_decide_eq_false in Hr. lia.
    + apply andb_true_iff in Hr as [_ Hr]. by apply bool_decide_eq_true in Hr.
  - intros ->. rewrite decide_False, decide_True by done.
    rewrite sort_reverse_perm.
    apply Forall_forall. intros r [Hr _]%list_elem_of_filter.
    unfold RecommendationEngine.pages_above in Hr.
    destruct (Book.page_count (BookRecommendation.book r)) as [n|]; [|done].
    apply andb_true_iff in Hr as [_ Hr]. apply bool_decide_eq_true in Hr.
    by exists n.
  - intros Hq Hd.
    rewrite (Permutation_length (sort_reverse_perm _)).
    destruct (context !! "reading_goal") as [goal|]; [|done].
    rewrite !decide_False by congruence. done.
  - rewrite sort_reverse_perm, <-Hbooks.
    apply Forall_forall. intros r Hr. apply list_elem_of_fmap_2.
    destruct (context !! "reading_goal") as [goal|]; [|done].
    repeat case_decide; try done; by apply list_elem_of_filter in Hr as [_ ?].
Qed.

Lemma context_filters_reading_goal_witness :
  ({[ "reading_goal" := "quick_read" ]} : gmap string string) !! "reading_goal"
  = Some "quick_read"
  ∧ Forall (λ r, ∀ n, Book.page_count (BookRecommendation.book r) = Some n →
                      (n < 400)%Z)
      (RecommendationEngine._apply_context_filters
         (CollaborativeFilteringRecommender.popularity_candidates
            [with_page_count 650 book_09; with_page_count 120 book_05; book_02])
         {[ "reading_goal" := "quick_read" ]}).
Proof.
  assert (({[ "reading_goal" := "quick_read" ]} : gmap string string)
            !! "reading_goal" = Some "quick_read") as H by done.
  split; [done|].
  apply (context_filters_reading_goal
           (CollaborativeFilteringRecommender.popularity_candidates
              [with_page_count 650 book_09; with_page_count 120 book_05; book_02])
           {[ "reading_goal" := "quick_read" ]}), H.
Defined.

(** ** Mood-based recommendations *)

Lemma mood_genres_get_unknown key :
  key ∉ RecommendationEngine.mood_genres.*1 →
  RecommendationEngine.mood_genres_get key = [].
Proof.
  unfold RecommendationEngine.mood_genres_get, RecommendationEngine.mood_genres.
  rewrite !fmap_cons, !not_elem_of_cons. cbn [fst].
  intros (? & ? & ? & ? & ? & _).
  cbn [list_find fst]. rewrite !decide_False by done. done.
Qed.

Lemma mood_score_bounds target_genres mood book :
  let score := RecommendationEngine.mood_score target_genres mood book in
  0 ≤ score ≤ frac 12 10
  ∧ (mood ≠ "happy" → mood ≠ "sad" → score ≤ 1)
  ∧ (0 < score → Py.truthy_list (Book.subjects book) = true ∧ target_genres ≠ []).
Proof.
  cbn zeta. unfold RecommendationEngine.mood_score.
  set (base := if Py.truthy_list (Book.subjects book) then _ else _).
  assert (0 ≤ base ≤ 1
          ∧ (0 < base → Py.truthy_list (Book.subjects book) = true
                        ∧ target_genres ≠ [])) as [[H0 H1] Hpos].
  { unfold base. destruct (Py.truthy_list (Book.subjects book));
      [|split; [split; qc_lra|by intros ?%Qclt_not_eq]].
    destruct target_genres as [|g gs] eqn:Hg;
      [split; [split; qc_lra|by intros ?%Qclt_not_eq]|].
    rewrite <-Hg. split; [|by subst].
    set (matches := filter _ target_genres).
    assert (length matches ≤ length target_genres)%nat
      by apply length_filter.
    assert (0 < Qc_of_Z (Py.len target_genres))
      by (apply Qc_of_Z_pos; subst; unfold Py.len; simpl; lia).
    split.
    - apply Qcdiv_nonneg; [|done]. apply Qc_of_Z_nonneg. unfold Py.len. lia.
    - apply Qcdiv_le_1; [done|]. rewrite <-Z2Qc_inj_le. unfold Py.len. lia. }
  clearbody base.
  assert (0 < base * frac 12 10 → 0 < base) as Hboost by (intros; qc_lra).
  destruct (Book.sentiment_score book) as [sentiment|];
    repeat case_decide; repeat split; auto; try qc_lra;
    intros; try (by intuition); qc_lra.
Qed.

(** Every mood-based recommendation scores above 0 and at most 1.2, at
    most 1 unless the mood is given exactly as "happy" or "sad" (the
    sentiment boost compares the mood as typed, the genre table its
    lower-case form); it is labelled "Mood-Based", recommends a candidate
    that has subjects and gives three reasons; at most [top_n] are
    returned, and a mood that is none of the five known ones yields
    nothing. *)
Theorem mood_recommendations_results (candidates : list Book.t)
    (mood : string) (top_n : Z) :
  let result :=
    RecommendationEngine.get_mood_based_recommendations candidates mood top_n in
  Forall (mood_result candidates mood) result
  ∧ ((0 ≤ top_n)%Z → (Py.len result ≤ top_n)%Z)
  ∧ (Py.lower mood ∉ ["happy"; "sad"; "adventurous"; "thoughtful"; "relaxed"] →
     result = []).
Proof.
  cbn zeta. unfold RecommendationEngine.get_mood_based_recommendations.
  assert (∀ bs, bs ∈ RecommendationEngine.scored_books candidates mood →
                bs.1 ∈ candidates
                ∧ bs.2 = RecommendationEngine.mood_score
                           (RecommendationEngine.mood_genres_get (Py.lower mood))
                           mood bs.1
                ∧ 0 < bs.2) as Hscored.
  { intros bs. unfold RecommendationEngine.scored_books.
    rewrite list_elem_of_filter, list_elem_of_fmap.
    intros (Hpos & book & -> & Hin). done. }
  split; [|split].
  - rewrite Forall_fmap. apply Forall_forall. intros [book score] Hin.
    assert ((book, score)
            ∈ Py.sort_desc snd (RecommendationEngine.scored_books candidates mood))
      as Hin' by (eapply elem_of_sublist; [exact Hin|apply py_take_sublist]).
    clear Hin. rewrite sort_desc_perm in Hin'.
    destruct (Hscored _ Hin') as (Hbook & Hscore & Hpos). simpl in *.
    destruct (mood_score_bounds
                (RecommendationEngine.mood_genres_get (Py.lower mood)) mood book)
      as ([_ Hmax] & Hplain & Hsubjects).
    rewrite <-Hscore in *.
    unfold mood_result. simpl. repeat split; try done. by apply Hsubjects.
  - intros Hn. unfold Py.len. rewrite length_fmap. by apply py_take_len.
  - intros Hunknown.
    destruct (RecommendationEngine.scored_books candidates mood)
      as [|bs l] eqn:Hl;
      [unfold Py.sort_desc; cbn [foldr]; by rewrite py_take_nil|].
    destruct (Hscored bs) as (_ & Hscore & Hpos); [left|].
    rewrite Hscore, mood_genres_get_unknown in Hpos by done.
    destruct (mood_score_bounds [] mood bs.1) as (_ & _ & Hsubjects).
    by destruct (Hsubjects Hpos).
Qed.

Lemma mood_recommendations_results_witness :
  "Happy" ≠ "happy" ∧ "Happy" ≠ "sad"
  ∧ Forall (λ r, BookRecommendation.score r ≤ 1)
      (RecommendationEngine.get_mood_based_recommendations [feel_good_book]
         "Happy" 5).
Proof.
  assert ("Happy" ≠ "happy") as H1 by done.
  assert ("Happy" ≠ "sad") as H2 by done.
  do 2 (split; [done|]).
  destruct (mood_recommendations_results [feel_good_book] "Happy" 5)
    as (Hres & _).
  eapply Forall_impl; [exact Hres|].
  intros r (_ & Hplain & _). by apply Hplain.
Defined.

(** ** The engine's entry point *)

Lemma NoDup_fmap_inj_on {A B} (f : A → B) (l : list A) :
  NoDup (f <$> l) → ∀ x y, x ∈ l → y ∈ l → f x = f y → x = y.
Proof.
  induction l as [|a l IH]; [by intros _ x y ?%elem_of_nil|].
  rewrite fmap_cons. intros [Ha Hnd]%NoDup_cons x y.
  intros [->|Hx]%elem_of_cons [->|Hy]%elem_of_cons Hf; [done|..].
  - destruct Ha. rewrite Hf. by apply list_elem_of_fmap_2.
  - destruct Ha. rewrite <-Hf. by apply list_elem_of_fmap_2.
  - by apply IH.
Qed.

Lemma NoDup_fmap_subset {A B} (f : A → B) (l k : list A) :
  NoDup (f <$> l) → NoDup k → (∀ x, x ∈ k → x ∈ l) → NoDup (f <$> k).
Proof.
  intros Hl Hk Hsub. apply NoDup_fmap_2_strong; [|done].
  intros x y Hx Hy. apply (NoDup_fmap_inj_on f l); auto.
Qed.

Lemma ensure_diversity_subset recs top_n r :
  r ∈ RecommendationEngine._ensure_diversity recs top_n → r ∈ recs.
Proof.
  destruct (ensure_diversity_runs recs top_n)
    as (admitted & filled & -> & Hadmitted & Hfilled & _).
  rewrite elem_of_app. intros [?|?]; by eapply elem_of_sublist.
Qed.

Lemma ensure_diversity_NoDup recs top_n :
  NoDup recs → NoDup (RecommendationEngine._ensure_diversity recs top_n).
Proof.
  intros Hnd. unfold RecommendationEngine._ensure_diversity.
  case_decide; [done|].
  destruct (first_pass_app top_n recs [] ∅ ∅) as (admitted & Hfirst & Hsub).
  rewrite app_nil_l in Hfirst. rewrite Hfirst.
  assert (NoDup admitted) by by eapply sublist_NoDup.
  case_decide; [by apply fill_NoDup|done].
Qed.

Lemma apply_context_filters_kept recs context :
  ∃ kept,
    RecommendationEngine._apply_context_filters recs context ≡ₚ kept
    ∧ BookRecommendation.book <$> kept
      `sublist_of` BookRecommendation.book <$> recs.
Proof.
  unfold RecommendationEngine._apply_context_filters.
  set (boosted := match context !! "time_of_day" with
                  | Some time => if decide (time = "night")
                                 then RecommendationEngine.night_boost <$> recs
                                 else recs
                  | None => recs
                  end).
  assert (BookRecommendation.book <$> boosted = BookRecommendation.book <$> recs)
    as <-.
  { unfold boosted. destruct (context !! "time_of_day") as [time|]; [|done].
    case_decide; [apply night_boost_book|done]. }
  eexists. split; [apply sort_reverse_perm|].
  destruct (context !! "reading_goal") as [goal|]; [|done].
  repeat case_decide; try done; apply fmap_sublist, sublist_filter.
Qed.

Lemma enrich_book_id b :
  MLRecommender.book_id (RecommendationEngine.enrich_book b)
  = MLRecommender.book_id b.
Proof. unfold RecommendationEngine.enrich_book. by case_match. Qed.

Section engine_results.
Context `{rt : PyRuntime}.

Lemma recommender_recommend_books self target candidates user_profile top_n :
  Forall (λ r, BookRecommendation.book r ∈ candidates)
    (RecommendationEngine.recommender_recommend self target candidates
       user_profile top_n).
Proof.
  destruct self; simpl.
  - eapply Forall_impl; [apply ml_recommend_hybrid_results|].
    by intros r (_ & _ & ? & _).
  - apply (strategy_recommend_books MLRecommender.TFIDF target).
  - apply (strategy_recommend_books MLRecommender.CollaborativeFiltering target).
Qed.

Lemma recommender_recommend_NoDup self target candidates user_profile top_n :
  self = RecommendationEngine.Hybrid
  ∨ NoDup (MLRecommender.book_id <$> candidates) →
  NoDup (identity
           <$> RecommendationEngine.recommender_recommend self target candidates
                 user_profile top_n).
Proof.
  intros Hcase. destruct self; simpl.
  - apply ml_recommend_identities_NoDup.
  - destruct Hcase as [|Hnd]; [done|].
    by apply (strategy_identities_NoDup MLRecommender.TFIDF target).
  - destruct Hcase as [|Hnd]; [done|].
    by apply (strategy_identities_NoDup MLRecommender.CollaborativeFiltering
                target).
Qed.

Lemma ranked_recommendations_results self target candidates user_profile context
    top_n :
  let ranked :=
    RecommendationEngine.ranked_recommendations self target candidates
      user_profile context top_n in
  Forall (λ r, BookRecommendation.book r ∈ candidates) ranked
  ∧ (self = RecommendationEngine.Hybrid
     ∨ NoDup (MLRecommender.book_id <$> candidates) →
     NoDup (identity <$> ranked)).
Proof.
  cbn zeta. unfold RecommendationEngine.ranked_recommendations.
  pose proof (recommender_recommend_books self target candidates user_profile
                (top_n * 2)) as Hbooks.
  pose proof (recommender_recommend_NoDup self target candidates user_profile
                (top_n * 2)) as Hnd.
  set (recs := RecommendationEngine.recommender_recommend _ _ _ _ _) in *.
  assert (∀ c,
    Forall (λ r, BookRecommendation.book r ∈ candidates)
      (RecommendationEngine._apply_context_filters recs c)
    ∧ (self = RecommendationEngine.Hybrid
       ∨ NoDup (MLRecommender.book_id <$> candidates) →
       NoDup (identity <$> RecommendationEngine._apply_context_filters recs c)))
    as Hfiltered.
  { intros c. destruct (apply_context_filters_kept recs c)
      as (kept & Hperm & Hsub).
    rewrite Hperm. split.
    - apply Forall_forall. intros r Hr.
      apply (list_elem_of_fmap_2 BookRecommendation.book) in Hr.
      apply (elem_of_sublist _ _ _ Hr) in Hsub.
      apply list_elem_of_fmap in Hsub as (r' & -> & Hr').
      rewrite Forall_forall in Hbooks. by apply Hbooks.
    - intros Hcase. specialize (Hnd Hcase). unfold identity in *.
      rewrite (list_fmap_compose BookRecommendation.book MLRecommender.book_id)
        in *.
      eapply sublist_NoDup; [exact Hnd|by apply fmap_sublist]. }
  destruct context as [c|]; [case_decide|]; auto.
Qed.

End engine_results.

(** [get_recommendations] returns at most [top_n] recommendations, each
    of one of the candidates (as enriched by the call); with the hybrid
    engine, or with candidates of pairwise distinct identities, no book
    identity is recommended twice, whatever the context. *)
Theorem get_recommendations_results `{rt : PyRuntime}
    (self : RecommendationEngine.recommender) (target : Book.t)
    (candidates : list Book.t) (user_profile : option UserProfile.t)
    (context : option (gmap string string)) (top_n : Z) :
  let result :=
    RecommendationEngine.get_recommendations self target candidates
      user_profile context top_n in
  Forall (λ r, BookRecommendation.book r
               ∈ RecommendationEngine._enrich_with_sentiment candidates) result
  ∧ ((0 ≤ top_n)%Z → (Py.len result ≤ top_n)%Z)
  ∧ (self = RecommendationEngine.Hybrid
     ∨ NoDup (MLRecommender.book_id <$> candidates) →
     NoDup (identity <$> result)).
Proof.
  cbn zeta. unfold RecommendationEngine.get_recommendations,
    RecommendationEngine.get_recommendations_state. cbn [snd].
  set (enriched := RecommendationEngine._enrich_with_sentiment candidates).
  destruct (ranked_recommendations_results self target enriched user_profile
              context top_n) as [Hbooks Hnd].
  set (ranked := RecommendationEngine.ranked_recommendations _ _ _ _ _ _) in *.
  split; [|split; [apply py_take_len|]].
  - apply (Forall_of_sublist _ _ _ (py_take_sublist _ _)).
    apply Forall_forall. intros r Hr%ensure_diversity_subset.
    rewrite Forall_forall in Hbooks. by apply Hbooks.
  - intros Hcase.
    assert (NoDup (identity <$> ranked)) as Hranked.
    { apply Hnd. destruct Hcase as [?|Hcase]; [by left|right].
      unfold enriched, RecommendationEngine._enrich_with_sentiment.
      rewrite <-list_fmap_compose.
      by rewrite (list_fmap_ext _ MLRecommender.book_id candidates)
        by (intros; apply enrich_book_id). }
    eapply sublist_NoDup; [|apply fmap_sublist, py_take_sublist].
    apply (NoDup_fmap_subset _ ranked); [done| |].
    + apply ensure_diversity_NoDup. by apply NoDup_fmap_1 in Hranked.
    + intros r. apply ensure_diversity_subset.
Qed.

Lemma get_recommendations_results_witness :
  (RecommendationEngine.Hybrid = RecommendationEngine.Hybrid
   ∨ NoDup (MLRecommender.book_id <$> [messiah_1969; messiah_2019]))
  ∧ NoDup (identity
             <$> RecommendationEngine.get_recommendations
                   (rt := runtime_unrelated_texts) RecommendationEngine.Hybrid
                   emma [messiah_1969; messiah_2019] None None 5).
Proof.
  assert (RecommendationEngine.Hybrid = RecommendationEngine.Hybrid
          ∨ NoDup (MLRecommender.book_id <$> [messiah_1969; messiah_2019]))
    as H by (by left).
  split; [done|].
  apply (get_recommendations_results (rt := runtime_unrelated_texts)
           RecommendationEngine.Hybrid emma [messiah_1969; messiah_2019]
           None None 5), H.
Defined.

(** ** Popularity score *)

(** The popularity score lies in [0, 1] for a non-negative edition count
    and a rating in range; it does not decrease with the edition count,
    and from 100 editions on it no longer depends on it. *)
Theorem popularity_score_range_and_saturation (b : Book.t) :
  ((0 ≤ Book.edition_count b)%Z →
   (∀ r, Book.rating b = Some r → 0 ≤ r ≤ Qc_of_Z 5) →
   0 ≤ Book.calculate_popularity_score b ≤ 1)
  ∧ (∀ b', Book.rating b' = Book.rating b →
           (Book.edition_count b ≤ Book.edition_count b')%Z →
           Book.calculate_popularity_score b ≤ Book.calculate_popularity_score b')
  ∧ (∀ b', Book.rating b' = Book.rating b →
           (100 ≤ Book.edition_count b)%Z →
           (100 ≤ Book.edition_count b')%Z →
           Book.calculate_popularity_score b' = Book.calculate_popularity_score b).
Proof.
  split; [|split].
  - intros Hec Hr.
    replace (Book.calculate_popularity_score b)
      with (popularity_formula (Book.edition_count b) (Book.rating b))
      by (unfold Book.calculate_popularity_score, popularity_formula;
          by rewrite min_spec, float_or_0).
    by apply popularity_formula_range.
  - intros b' Hrating Hec. unfold Book.calculate_popularity_score.
    rewrite Hrating. apply Z2Qc_inj_le in Hec.
    set (e := Qc_of_Z (Book.edition_count b)) in *.
    set (e' := Qc_of_Z (Book.edition_count b')) in *.
    set (r := Py.float_or (Book.rating b) 0). clearbody e e' r.
    unfold Py.min. repeat case_decide; qc_lra.
  - intros b' Hrating Hec Hec'. unfold Book.calculate_popularity_score.
    rewrite Hrating. apply (Z2Qc_inj_le 100) in Hec, Hec'.
    set (e := Qc_of_Z (Book.edition_count b)) in *.
    set (e' := Qc_of_Z (Book.edition_count b')) in *.
    set (r := Py.float_or (Book.rating b) 0). clearbody e e' r.
    unfold Py.min. repeat case_decide; qc_lra.
Qed.

Lemma popularity_score_range_and_saturation_witness :
  (0 ≤ Book.edition_count dune)%Z
  ∧ (∀ r, Book.rating dune = Some r → 0 ≤ r ≤ Qc_of_Z 5)
  ∧ 0 ≤ Book.calculate_popularity_score dune ≤ 1.
Proof.
  assert (0 ≤ Book.edition_count dune)%Z as H1 by (simpl; lia).
  assert (∀ r, Book.rating dune = Some r → 0 ≤ r ≤ Qc_of_Z 5) as H2 by done.
  do 2 (split; [done|]).
  apply (popularity_score_range_and_saturation dune); done.
Defined.

(** ** User profile (models/user.py) *)

Section int_sort.
Context {A : Type}.
Implicit Types (l : list A) (key : A → Z).

Lemma int_insert_desc_perm key x l : PyInt.insert_desc key x l ≡ₚ x :: l.
Proof.
  induction l as [|y l IH]; simpl; [done|].
  case_decide; [|done]. rewrite IH. apply Permutation_swap.
Qed.

Lemma int_sort_desc_perm key l : PyInt.sort_desc key l ≡ₚ l.
Proof.
  induction l as [|x l IH]; simpl; [done|].
  unfold PyInt.sort_desc in *. simpl. by rewrite int_insert_desc_perm, IH.
Qed.

Lemma int_insert_desc_sorted key x l :
  StronglySorted (λ a b, (key b ≤ key a)%Z) l →
  StronglySorted (λ a b, (key b ≤ key a)%Z) (PyInt.insert_desc key x l).
Proof.
  induction 1 as [|y l Hl IH Hy]; simpl.
  - repeat constructor.
  - case_decide as Hlt.
    + constructor; [done|].
      rewrite int_insert_desc_perm. constructor; [lia|done].
    + constructor; [by constructor|].
      constructor; [lia|].
      eapply Forall_impl; [exact Hy|]. simpl. intros z Hz. lia.
Qed.

Lemma int_sort_desc_sorted key l :
  StronglySorted (λ a b, (key b ≤ key a)%Z) (PyInt.sort_desc key l).
Proof.
  induction l as [|x l IH]; [constructor|].
  by apply int_insert_desc_sorted.
Qed.

End int_sort.

Lemma StronglySorted_weaken {A} (R1 R2 : relation A) (l : list A) :
  (∀ a b, R1 a b → R2 a b) → StronglySorted R1 l → StronglySorted R2 l.
Proof.
  intros HR. induction 1 as [|x l Hl IH Hx]; constructor; [done|].
  eapply Forall_impl; [exact Hx|]. auto.
Qed.

Section counting.
Import UserProfileMethods.

Lemma increment_keys k (c : list (string * Z)) :
  (increment k c).*1 = if decide (k ∈ c.*1) then c.*1 else c.*1 ++ [k].
Proof.
  induction c as [|[k' n] c IH]; cbn [increment].
  - rewrite decide_False; [done|]. apply not_elem_of_nil.
  - destruct (decide (k' = k)) as [->|Hne]; rewrite !fmap_cons; cbn [fst].
    + rewrite decide_True; [done|]. apply list_elem_of_here.
    + rewrite IH. case_decide as Hin.
      * rewrite decide_True; [done|]. by apply list_elem_of_further.
      * rewrite decide_False; [done|].
        intros [?|?]%elem_of_cons; [by subst|done].
Qed.

Lemma counts_get_increment x k (c : list (string * Z)) :
  counts_get x (increment k c)
  = (counts_get x c + if decide (k = x) then 1 else 0)%Z.
Proof.
  induction c as [|[k' n] c IH]; cbn [increment counts_get].
  - repeat case_decide; congruence || lia.
  - destruct (decide (k' = k)) as [->|Hne]; cbn [counts_get].
    + repeat case_decide; congruence || lia.
    + rewrite IH. repeat case_decide; congruence || lia.
Qed.

Lemma count_all_keys_NoDup keys (c : list (string * Z)) :
  NoDup c.*1 → NoDup (count_all keys c).*1.
Proof.
  revert c. unfold count_all.
  induction keys as [|k keys IH]; intros c Hnd; [done|].
  simpl. apply IH. rewrite increment_keys. case_decide as Hin; [done|].
  apply NoDup_app. split; [done|]. split; [|apply NoDup_singleton].
  by intros x Hx ->%list_elem_of_singleton.
Qed.

Lemma count_all_keys_elem x keys (c : list (string * Z)) :
  x ∈ (count_all keys c).*1 ↔ x ∈ c.*1 ∨ x ∈ keys.
Proof.
  revert c. unfold count_all.
  induction keys as [|k keys IH]; intros c; simpl.
  - rewrite elem_of_nil. tauto.
  - rewrite IH, increment_keys, elem_of_cons.
    case_decide as Hin; rewrite ?elem_of_app, ?list_elem_of_singleton;
      split; intros; destruct_or?; subst; auto.
Qed.

Lemma counts_get_count_all x keys (c : list (string * Z)) :
  counts_get x (count_all keys c) = (counts_get x c + mentions x keys)%Z.
Proof.
  revert c. unfold count_all, mentions, Py.len.
  induction keys as [|k keys IH]; intros c; simpl; [lia|].
  rewrite IH, counts_get_increment, filter_cons.
  repeat case_decide; simpl; congruence || lia.
Qed.

Lemma count_all_app keys1 keys2 (c : list (string * Z)) :
  count_all (keys1 ++ keys2) c = count_all keys2 (count_all keys1 c).
Proof. unfold count_all. apply foldl_app. Qed.

(** The two dicts after the loop of [_update_preferences]. *)
Lemma count_entries (acc : list (string * Z) * list (string * Z)) history :
  foldl count_entry acc history
  = (count_all (liked_keys ReadingHistory.tags history) acc.1,
     count_all (liked_keys ReadingHistory.authors history) acc.2).
Proof.
  revert acc. induction history as [|e history IH]; intros [g a]; [done|].
  cbn [foldl]. rewrite IH. unfold liked_keys. rewrite filter_cons.
  unfold count_entry.
  destruct (CollaborativeFilteringRecommender.liked e) eqn:Hliked.
  - rewrite decide_True by done. rewrite !fmap_cons. cbn [concat fst snd].
    by rewrite !count_all_app.
  - rewrite decide_False by done. done.
Qed.

(** [top_keys] of a dict of counts: its ten most counted keys. *)
Lemma top_keys_of_counts keys :
  ten_most_mentioned keys (top_keys (count_all keys [])).
Proof.
  unfold top_keys.
  set (c := count_all keys []).
  assert (NoDup c.*1) as Hnd by (apply count_all_keys_NoDup; constructor).
  assert (∀ k, k ∈ c.*1 ↔ k ∈ keys) as Hkeys.
  { intros k. unfold c. rewrite count_all_keys_elem, fmap_nil, elem_of_nil.
    tauto. }
  assert (∀ k, counts_get k c = mentions k keys) as Hcount.
  { intros k. unfold c. rewrite counts_get_count_all. simpl. lia. }
  pose proof (int_sort_desc_perm (λ x, counts_get x c) c.*1) as Hperm.
  pose proof (int_sort_desc_sorted (λ x, counts_get x c) c.*1) as Hsorted.
  set (sorted := PyInt.sort_desc (λ x, counts_get x c) c.*1) in *.
  rewrite <-(take_drop 10 sorted) in Hsorted.
  apply StronglySorted_app in Hsorted as (Hcross & Htake & _).
  split; [|split; [|split; [|split]]].
  - eapply sublist_NoDup; [|apply sublist_take]. by rewrite Hperm.
  - rewrite length_take. lia.
  - intros k Hk. apply Hkeys. rewrite <-Hperm.
    eapply elem_of_sublist; [done|apply sublist_take].
  - eapply StronglySorted_weaken; [|exact Htake].
    intros a b. cbn beta. by rewrite !Hcount.
  - intros k Hk Hout.
    assert (k ∈ drop 10 sorted) as Hdrop.
    { apply Hkeys in Hk. rewrite <-Hperm, <-(take_drop 10 sorted) in Hk.
      by apply elem_of_app in Hk as [?|?]. }
    split.
    + rewrite length_take.
      destruct (decide (10 ≤ length sorted)%nat) as [|Hshort]; [lia|].
      rewrite drop_ge in Hdrop by lia. by apply elem_of_nil in Hdrop.
    + intros b Hb. rewrite <-!Hcount. by apply (Hcross b k).
Qed.

End counting.

(** After [_update_preferences] the favourite authors are the ten most
    mentioned authors of the liked history entries (rated 4.0 or more),
    most mentioned first, and the favourite genres the ten most mentioned
    tags of those entries; nothing else of the profile changes. *)
Theorem update_preferences_favorites (self : UserProfile.t) :
  let updated := UserProfileMethods._update_preferences self in
  let history := UserProfile.reading_history self in
  ten_most_mentioned (liked_keys ReadingHistory.authors history)
    (UserProfile.favorite_authors updated)
  ∧ ten_most_mentioned (liked_keys ReadingHistory.tags history)
      (UserProfile.favorite_genres updated)
  ∧ updated
    = UserProfileMethods.set_favorites (UserProfile.favorite_genres updated)
        (UserProfile.favorite_authors updated) self.
Proof.
  cbn zeta. unfold UserProfileMethods._update_preferences.
  rewrite count_entries. cbn [fst snd UserProfileMethods.set_favorites
    UserProfile.favorite_authors UserProfile.favorite_genres].
  split; [apply top_keys_of_counts|]. split; [apply top_keys_of_counts|done].
Qed.

Lemma liked_keys_snoc_unliked f history entry :
  CollaborativeFilteringRecommender.liked entry = false →
  liked_keys f (history ++ [entry]) = liked_keys f history.
Proof.
  intros Hliked. unfold liked_keys.
  rewrite filter_app, filter_cons, decide_False by congruence.
  by rewrite filter_nil, app_nil_r.
Qed.

Lemma truthy_ratings_app history1 history2 :
  UserProfileMethods.truthy_ratings (history1 ++ history2)
  = UserProfileMethods.truthy_ratings history1
    ++ UserProfileMethods.truthy_ratings history2.
Proof.
  induction history1 as [|h history1 IH]; [done|]. simpl.
  destruct (ReadingHistory.rating h) as [r|]; [|done].
  case_decide; [done|]. by rewrite IH.
Qed.

Lemma add_to_history_history history_entry self :
  UserProfile.reading_history
    (UserProfileMethods.add_to_history history_entry self)
  = UserProfile.reading_history self ++ [history_entry].
Proof.
  unfold UserProfileMethods.add_to_history, UserProfileMethods._update_preferences.
  by rewrite count_entries.
Qed.

(** [add_to_history] appends the entry; an entry that is not liked (no
    rating, or one under 4.0) leaves the favourites as the history before
    it gives them; the count of read books grows by one exactly for
    status "read"; an entry without a rating, or rated 0, does not change
    the average rating. *)
Theorem add_to_history_bookkeeping (history_entry : ReadingHistory.t)
    (self : UserProfile.t) :
  let added := UserProfileMethods.add_to_history history_entry self in
  UserProfile.reading_history added
  = UserProfile.reading_history self ++ [history_entry]
  ∧ (CollaborativeFilteringRecommender.liked history_entry = false →
     UserProfile.favorite_authors added
     = UserProfile.favorite_authors (UserProfileMethods._update_preferences self)
     ∧ UserProfile.favorite_genres added
       = UserProfile.favorite_genres (UserProfileMethods._update_preferences self))
  ∧ UserProfileMethods.get_read_books_count added
    = (UserProfileMethods.get_read_books_count self
       + if decide (ReadingHistory.status history_entry = "read") then 1 else 0)%Z
  ∧ (Py.truthy_float (ReadingHistory.rating history_entry) = false →
     UserProfileMethods.get_average_rating added
     = UserProfileMethods.get_average_rating self).
Proof.
  cbn zeta.
  unfold UserProfileMethods.add_to_history, UserProfileMethods._update_preferences.
  rewrite !count_entries. cbn [fst snd UserProfile.reading_history].
  unfold UserProfileMethods.get_read_books_count,
    UserProfileMethods.get_average_rating.
  cbn [UserProfileMethods.set_favorites UserProfile.reading_history
       UserProfile.favorite_authors UserProfile.favorite_genres].
  split; [done|]. split; [|split].
  - intros Hliked. by rewrite !liked_keys_snoc_unliked.
  - rewrite filter_app, filter_cons, filter_nil. unfold Py.len.
    rewrite length_app. case_decide; simpl; lia.
  - intros Hrating. rewrite truthy_ratings_app. simpl.
    unfold Py.truthy_float in Hrating.
    destruct (ReadingHistory.rating history_entry) as [r|].
    + apply bool_decide_eq_false in Hrating.
      rewrite decide_True by by destruct (decide (r = 0)).
      by rewrite app_nil_r.
    + by rewrite app_nil_r.
Qed.

Lemma add_to_history_bookkeeping_witness :
  Py.truthy_float
    (ReadingHistory.rating (CLI.history_entry emma None "want_to_read")) = false
  ∧ UserProfileMethods.get_average_rating
      (UserProfileMethods.add_to_history
         (CLI.history_entry emma None "want_to_read") reader)
    = UserProfileMethods.get_average_rating reader.
Proof.
  assert (Py.truthy_float
            (ReadingHistory.rating (CLI.history_entry emma None "want_to_read"))
          = false) as H by done.
  split; [done|].
  apply (add_to_history_bookkeeping
           (CLI.history_entry emma None "want_to_read") reader), H.
Defined.

Lemma sum_from acc (l : list Qc) : foldl Qcplus acc l = acc + total l.
Proof.
  revert acc. induction l as [|x l IH]; intros acc; simpl; [ring|].
  rewrite IH. ring.
Qed.

Lemma Qcdiv_le_bound x y b : 0 < y → x ≤ b * y → x / y ≤ b.
Proof.
  intros Hy Hx. apply (Qcmult_le_mono_pos_r _ _ y); [done|].
  unfold Qcdiv. rewrite <-Qcmult_assoc, Qcmult_inv_l, Qcmult_1_r; [done|].
  intros ->. by apply Qclt_not_eq in Hy.
Qed.

Lemma truthy_ratings_range history :
  ratings_in_range history →
  Forall (λ x, 0 ≤ x ≤ Qc_of_Z 5) (UserProfileMethods.truthy_ratings history).
Proof.
  induction 1 as [|h history Hh _ IH]; simpl; [constructor|].
  destruct (ReadingHistory.rating h) as [r|]; [|done].
  case_decide; [done|]. constructor; [by apply Hh|done].
Qed.

(** With ratings in the data model's range the average rating lies in
    [0, 5]; it is 0 exactly as long as no entry carries a non-zero
    rating. *)
Theorem average_rating_range (self : UserProfile.t) :
  ratings_in_range (UserProfile.reading_history self) →
  0 ≤ UserProfileMethods.get_average_rating self ≤ Qc_of_Z 5
  ∧ (UserProfileMethods.get_average_rating self = 0
     ↔ Forall (λ h, Py.truthy_float (ReadingHistory.rating h) = false)
         (UserProfile.reading_history self)).
Proof.
  intros Hrange. unfold UserProfileMethods.get_average_rating.
  pose proof (truthy_ratings_range _ Hrange) as Hratings.
  assert (UserProfileMethods.truthy_ratings (UserProfile.reading_history self) = []
          ↔ Forall (λ h, Py.truthy_float (ReadingHistory.rating h) = false)
              (UserProfile.reading_history self)) as Hnone.
  { clear. induction (UserProfile.reading_history self) as [|h history IH];
      simpl; [by split; [constructor|]|].
    rewrite Forall_cons, <-IH. unfold Py.truthy_float.
    destruct (ReadingHistory.rating h) as [r|]; [|tauto].
    case_decide as Hr.
    - rewrite bool_decide_eq_false. tauto.
    - rewrite bool_decide_eq_false. split; [done|]. intros [? _]. tauto. }
  destruct (UserProfileMethods.truthy_ratings (UserProfile.reading_history self))
    as [|r ratings] eqn:Heq.
  { split; [split; [done|by apply Qc_of_Z_nonneg]|]. by rewrite <-Hnone. }
  rewrite <-Hnone.
  assert (0 < r) as Hr.
  { apply Forall_cons in Hratings as [[Hr0 _] _].
    assert (r ≠ 0) as Hne.
    { assert (r ∈ UserProfileMethods.truthy_ratings
                     (UserProfile.reading_history self)) as Hin
        by (rewrite Heq; left).
      clear -Hin. induction (UserProfile.reading_history self) as [|h history IH];
        simpl in Hin; [by apply elem_of_nil in Hin|].
      destruct (ReadingHistory.rating h) as [r'|]; [|auto].
      case_decide; [auto|].
      apply elem_of_cons in Hin as [->|?]; auto. }
    apply Qcle_lt_or_eq in Hr0 as [?|?]; [done|congruence]. }
  destruct (total_range _ Hratings) as [Ht0 Ht5].
  assert (0 < Qc_of_Z (Py.len (r :: ratings))) as Hlen
    by (apply Qc_of_Z_pos; unfold Py.len; simpl; lia).
  unfold Py.sum. rewrite sum_from, Qcplus_0_l.
  assert (0 < total (r :: ratings)) as Hpos.
  { simpl. apply Forall_cons in Hratings as [_ Hrest].
    destruct (total_range _ Hrest) as [Hrest0 _].
    apply Qclt_le_trans with (r + 0); [by rewrite Qcplus_0_r|].
    by apply Qcplus_le_mono_l. }
  split; [split|].
  - apply Qcdiv_nonneg; done.
  - by apply Qcdiv_le_bound.
  - split; [|done]. intros Hzero. exfalso.
    apply (Qcdiv_pos_iff _ _ Hlen) in Hpos. rewrite Hzero in Hpos.
    by apply Qclt_not_eq in Hpos.
Qed.

Lemma average_rating_range_witness :
  ratings_in_range (UserProfile.reading_history reader)
  ∧ 0 ≤ UserProfileMethods.get_average_rating reader ≤ Qc_of_Z 5.
Proof.
  assert (ratings_in_range (UserProfile.reading_history reader)) as H.
  { unfold ratings_in_range, reader. simpl.
    repeat (apply Forall_cons_2; [intros r [= <-]; split; compute_done|]).
    apply Forall_nil_2. }
  split; [done|]. apply (average_rating_range reader H).
Defined.

(** ** From the command-line interface to the recommender *)

Lemma similarity_formula_author_floor book entry :
  author_overlap book entry → frac 5 10 ≤ similarity_formula book entry.
Proof.
  intros Hauthor. unfold similarity_formula.
  destruct (decide (author_overlap book entry)) as [_|]; [|done].
  set (subjects5 := take 5 (default [] (Book.subjects book))).
  set (largest := Z.max (Py.len subjects5) (Py.len (ReadingHistory.tags entry))).
  set (fraction := if decide (largest = 0%Z) then 0 else _).
  assert (0 ≤ fraction) as Hfraction.
  { unfold fraction. case_decide as Hlargest; [done|].
    apply Qcdiv_nonneg.
    - apply Qc_of_Z_nonneg. unfold overlap_count. lia.
    - apply Qc_of_Z_pos. unfold largest, Py.len in *. lia. }
  clearbody fraction. case_decide; [qc_lra|compute_done].
Qed.

Lemma similarity_formula_own_entry book rating status :
  Book.authors book ≠ [] →
  Py.truthy_list (Book.subjects book) = true →
  NoDup (firstn 5 (Py.list_or_nil (Book.subjects book))) →
  similarity_formula book (CLI.history_entry book rating status) = frac 8 10.
Proof.
  intros Hauthors Hsubjects Hnd. unfold similarity_formula.
  destruct (decide (author_overlap book (CLI.history_entry book rating status)))
    as [_|Hno]; last first.
  { destruct Hno. unfold author_overlap. simpl.
    destruct (Book.authors book) as [|a authors]; [done|].
    apply Exists_cons_hd. left. }
  unfold CLI.history_entry. cbn [ReadingHistory.tags]. rewrite Hsubjects.
  destruct (Book.subjects book) as [[|s subjects]|]; try done.
  cbn [default from_option id Py.list_or_nil] in *.
  set (subjects5 := take 5 (s :: subjects)) in *.
  assert (overlap_count subjects5 subjects5 = Py.len subjects5) as ->.
  { rewrite (len_is_set_size _ Hnd). unfold overlap_count. do 2 f_equal.
    set_solver. }
  rewrite Z.max_id.
  assert (0 < Py.len subjects5)%Z as Hlen by (unfold Py.len; simpl; lia).
  destruct (decide (Py.len subjects5 = 0%Z)) as [|_]; [lia|].
  assert (Qc_of_Z (Py.len subjects5) / Qc_of_Z (Py.len subjects5) = 1) as ->.
  { apply Qcmult_inv_r. intros Hzero. apply Qc_of_Z_pos in Hlen.
    rewrite Hzero in Hlen. by apply Qclt_not_eq in Hlen. }
  compute_done.
Qed.

(** A book the user adds to the history from the command line is similar
    to its own entry by at least 0.5 when it has an author, and by 0.8
    when it also has subjects whose first five are distinct; rated 4.0 or
    more it is therefore recommended back to the user by collaborative
    filtering whenever it is among the candidates and [top_n] covers
    them: what has been read is not kept out. *)
Theorem rated_book_is_recommended_back `{rt : PyRuntime} (book target : Book.t)
    (candidates : list Book.t) (self : UserProfile.t) (rating : Qc)
    (status : string) (top_n : Z) :
  Book.authors book ≠ [] →
  Qc_of_Z 4 ≤ rating →
  let history_entry := CLI.history_entry book (Some rating) status in
  let updated := UserProfileMethods.add_to_history history_entry self in
  frac 5 10
  ≤ CollaborativeFilteringRecommender._calculate_item_similarity book history_entry
  ∧ (Py.truthy_list (Book.subjects book) = true →
     NoDup (firstn 5 (Py.list_or_nil (Book.subjects book))) →
     CollaborativeFilteringRecommender._calculate_item_similarity book
       history_entry = frac 8 10)
  ∧ (book ∈ candidates → (Py.len candidates ≤ top_n)%Z →
     book ∈ BookRecommendation.book
              <$> CollaborativeFilteringRecommender.recommend target candidates
                    (Some updated) top_n).
Proof.
  intros Hauthors Hrating. cbn zeta.
  assert (author_overlap book (CLI.history_entry book (Some rating) status))
    as Hoverlap.
  { unfold author_overlap. simpl.
    destruct (Book.authors book) as [|a authors]; [done|].
    apply Exists_cons_hd. left. }
  pose proof (similarity_formula_author_floor _ _ Hoverlap) as Hfloor.
  rewrite !item_similarity_is_formula.
  split; [done|]. split; [by apply similarity_formula_own_entry|].
  intros Hin Hall. apply cf_recommend_complete; [|done|done|].
  - rewrite add_to_history_history. by intros ?%app_nil_r_inv%symmetry.
  - rewrite add_to_history_history. apply Exists_app. right.
    apply Exists_cons_hd. unfold qualifies. simpl. split; [done|].
    eapply Qclt_le_trans; [|exact Hfloor]. compute_done.
Qed.

Lemma rated_book_is_recommended_back_witness :
  Book.authors dune ≠ []
  ∧ Qc_of_Z 4 ≤ Qc_of_Z 5
  ∧ CollaborativeFilteringRecommender._calculate_item_similarity dune
      (CLI.history_entry dune (Some (Qc_of_Z 5)) "read") = frac 8 10
  ∧ dune ∈ BookRecommendation.book
             <$> CollaborativeFilteringRecommender.recommend
                   (rt := runtime_unrelated_texts) emma [emma; dune]
                   (Some (UserProfileMethods.add_to_history
                            (CLI.history_entry dune (Some (Qc_of_Z 5)) "read")
                            (profile_of []))) 10.
Proof.
  assert (Book.authors dune ≠ []) as H1 by done.
  assert (Qc_of_Z 4 ≤ Qc_of_Z 5) as H2 by compute_done.
  do 2 (split; [done|]).
  destruct (rated_book_is_recommended_back (rt := runtime_unrelated_texts)
              dune emma [emma; dune] (profile_of []) (Qc_of_Z 5) "read" 10 H1 H2)
    as (_ & Hsim & Hback).
  split.
  - apply Hsim; [done|compute_done].
  - apply Hback; [compute_done|unfold Py.len; simpl; lia].
Defined.

(** ** From the reading history to the TF-IDF boost *)

Lemma most_mentioned_complete keys ranked k :
  ten_most_mentioned keys ranked →
  (length (remove_dups keys) ≤ 10)%nat →
  k ∈ keys → k ∈ ranked.
Proof.
  intros (Hnd & _ & Hsub & _ & Hout) Hfew Hk.
  destruct (decide (k ∈ ranked)) as [|Hnot]; [done|].
  destruct (Hout k Hk Hnot) as [Hten _].
  assert (k :: ranked ⊆+ remove_dups keys) as Hincl.
  { apply NoDup_submseteq; [by constructor|].
    intros x [->|Hx]%elem_of_cons; apply elem_of_remove_dups; auto. }
  apply submseteq_length in Hincl. simpl in Hincl. lia.
Qed.

Lemma add_to_history_favorite_authors history_entry self :
  ten_most_mentioned
    (liked_keys ReadingHistory.authors
       (UserProfile.reading_history self ++ [history_entry]))
    (UserProfile.favorite_authors
       (UserProfileMethods.add_to_history history_entry self)).
Proof.
  unfold UserProfileMethods.add_to_history, UserProfileMethods._update_preferences.
  rewrite count_entries. apply top_keys_of_counts.
Qed.

(** Once the user has added a liked entry (rated 4.0 or more), and as long
    as the liked entries name at most ten distinct authors, every author
    of that entry is a favourite author, and the TF-IDF score of any book
    by one of them is raised by the factor 1.3 at least (capped at 1). *)
Theorem liked_author_is_boosted (history_entry : ReadingHistory.t)
    (self : UserProfile.t) (book : Book.t) (score : Qc) :
  let updated := UserProfileMethods.add_to_history history_entry self in
  CollaborativeFilteringRecommender.liked history_entry = true →
  (length (remove_dups (liked_keys ReadingHistory.authors
                          (UserProfile.reading_history updated))) ≤ 10)%nat →
  (∀ author, author ∈ ReadingHistory.authors history_entry →
             author ∈ UserProfile.favorite_authors updated)
  ∧ (Exists (λ author, author ∈ ReadingHistory.authors history_entry)
       (Book.authors book) →
     0 ≤ score →
     Py.min (score * frac 13 10) 1
     ≤ TFIDFRecommender._apply_user_boost score book updated).
Proof.
  cbn zeta. rewrite add_to_history_history. intros Hliked Hfew.
  assert (∀ author, author ∈ ReadingHistory.authors history_entry →
            author ∈ UserProfile.favorite_authors
                       (UserProfileMethods.add_to_history history_entry self))
    as Hfavorite.
  { intros author Hauthor.
    eapply most_mentioned_complete;
      [apply add_to_history_favorite_authors|done|].
    unfold liked_keys. rewrite filter_app, filter_cons, decide_True by done.
    rewrite fmap_app, concat_app, fmap_cons. simpl.
    apply elem_of_app. right. apply elem_of_app. by left. }
  split; [done|]. intros Hbook Hscore.
  unfold TFIDFRecommender._apply_user_boost.
  assert (Py.any_in (Book.authors book)
            (UserProfile.favorite_authors
               (UserProfileMethods.add_to_history history_entry self)) = true)
    as ->.
  { apply any_in_spec. eapply Exists_impl; [exact Hbook|]. auto. }
  unfold Py.min. destruct (Py.truthy_list (Book.subjects book) && _);
    repeat case_decide; qc_lra.
Qed.

Lemma liked_author_is_boosted_witness :
  CollaborativeFilteringRecommender.liked
    (CLI.history_entry dune (Some (Qc_of_Z 5)) "read") = true
  ∧ "Frank Herbert"
    ∈ UserProfile.favorite_authors
        (UserProfileMethods.add_to_history
           (CLI.history_entry dune (Some (Qc_of_Z 5)) "read") (profile_of [])).
Proof.
  assert (CollaborativeFilteringRecommender.liked
            (CLI.history_entry dune (Some (Qc_of_Z 5)) "read") = true) as H1
    by compute_done.
  assert (length (remove_dups
                    (liked_keys ReadingHistory.authors
                       (UserProfile.reading_history
                          (UserProfileMethods.add_to_history
                             (CLI.history_entry dune (Some (Qc_of_Z 5)) "read")
                             (profile_of []))))) ≤ 10)%nat as H2
    by (vm_compute; lia).
  split; [done|].
  destruct (liked_author_is_boosted
              (CLI.history_entry dune (Some (Qc_of_Z 5)) "read")
              (profile_of []) dune 1 H1 H2) as [Hfav _].
  apply Hfav. simpl. left.
Defined.

(** ** Calling again *)

(** A second call of [get_recommendations] on the candidates as the first
    call left them writes nothing more and returns the same list. *)
Theorem get_recommendations_repeatable `{rt : PyRuntime}
    (self : RecommendationEngine.recommender) (target : Book.t)
    (candidates : list Book.t) (user_profile : option UserProfile.t)
    (context : option (gmap string string)) (top_n : Z) :
  let first :=
    RecommendationEngine.get_recommendations_state self target candidates
      user_profile context top_n in
  RecommendationEngine.get_recommendations_state self target first.1
    user_profile context top_n
  = first.
Proof.
  cbn zeta. unfold RecommendationEngine.get_recommendations_state. cbn [fst].
  assert (RecommendationEngine._enrich_with_sentiment
            (RecommendationEngine._enrich_with_sentiment candidates)
          = RecommendationEngine._enrich_with_sentiment candidates) as ->; [|done].
  unfold RecommendationEngine._enrich_with_sentiment.
  rewrite <-list_fmap_compose. apply list_fmap_ext.
  intros i b _. apply enrich_book_idempotent.
Qed.

Lemma window_keeps_all current_year time_window (books : list Book.t) :
  time_window ∉ recognized_windows →
  filter (λ b, window_keeps current_year time_window (Book.year b)) books = books.
Proof.
  unfold recognized_windows. rewrite !not_elem_of_cons. intros (? & ? & ? & _).
  induction books as [|b books IH]; [done|].
  rewrite filter_cons_True, IH; [done|].
  unfold window_keeps. by rewrite !decide_False by done.
Qed.

Lemma sort_desc_twice {A} (key : A → Qc) (l : list A) :
  Py.sort_desc key (Py.sort_desc key l) = Py.sort_desc key l.
Proof. apply sort_desc_id, sort_desc_descending. Qed.

(** A second call of [get_trending_recommendations] on the heap as the
    first call left it returns the same recommendations.  For an
    unrecognized window, where the first call has sorted the caller's
    list, the second call changes nothing; for a recognized window each
    call builds one more list and the caller's list stays as it was. *)
Theorem trending_repeatable `{rt : PyRuntime} (current_year : Z)
    (heap : Heap.t) (candidates : Heap.ref) (books : list Book.t)
    (time_window : string) (top_n : Z) :
  heap !! candidates = Some books →
  let first :=
    RecommendationEngine.get_trending_recommendations current_year candidates
      time_window top_n heap in
  let second :=
    RecommendationEngine.get_trending_recommendations current_year candidates
      time_window top_n first.2 in
  second.1 = first.1
  ∧ (time_window ∉ recognized_windows → second.2 = first.2)
  ∧ (time_window ∈ recognized_windows →
     second.2 !! candidates = Some books
     ∧ length second.2 = S (S (length heap))).
Proof.
  intros Hlook. cbn zeta.
  rewrite (trending_run _ _ _ _ _ _ Hlook). cbn [fst snd].
  destruct (decide (time_window ∈ recognized_windows)) as [Hw|Hw].
  - assert ((heap ++ [Py.sort_desc RecommendationEngine.popularity_key
                        (filter (λ b, window_keeps current_year time_window
                                        (Book.year b)) books)])
              !! candidates = Some books) as Hlook'
      by by apply lookup_app_l_Some.
    rewrite (trending_run _ _ _ _ _ _ Hlook'). cbn [fst snd].
    rewrite decide_True by done.
    split; [done|]. split; [done|]. intros _. split.
    + by apply lookup_app_l_Some.
    + rewrite !length_app. simpl. lia.
  - assert (alter (Py.sort_desc RecommendationEngine.popularity_key) candidates
              heap !! candidates
            = Some (Py.sort_desc RecommendationEngine.popularity_key books))
      as Hlook' by by rewrite list_lookup_alter_eq, Hlook.
    rewrite (trending_run _ _ _ _ _ _ Hlook'). cbn [fst snd].
    rewrite decide_False by done. rewrite !window_keeps_all by done.
    rewrite sort_desc_twice.
    split; [done|]. split; [|done]. intros _.
    etrans; [|by apply (list_alter_id id)].
    apply list_alter_ext; [|done]. intros x Hx.
    rewrite Hlook' in Hx. injection Hx as <-. apply sort_desc_twice.
Qed.

Lemma trending_repeatable_witness :
  [[book_02; book_09; book_05]] !! 0%nat = Some [book_02; book_09; book_05]
  ∧ (RecommendationEngine.get_trending_recommendations
       (rt := runtime_unrelated_texts) 2024 0 "all_time" 10
       (RecommendationEngine.get_trending_recommendations
          (rt := runtime_unrelated_texts) 2024 0 "all_time" 10
          [[book_02; book_09; book_05]]).2).1
    = (RecommendationEngine.get_trending_recommendations
         (rt := runtime_unrelated_texts) 2024 0 "all_time" 10
         [[book_02; book_09; book_05]]).1.
Proof.
  assert ([[book_02; book_09; book_05]] !! 0%nat
          = Some [book_02; book_09; book_05]) as H by done.
  split; [done|].
  apply (trending_repeatable (rt := runtime_unrelated_texts) 2024
           [[book_02; book_09; book_05]] 0 [book_02; book_09; book_05]
           "all_time" 10 H).
Defined.

(** ** Ratings typed at the command line *)

(** Whatever is typed as a rating and whatever Python's [float] makes of
    it, the entry the command line adds to the history has no rating or
    one within 0..5; so a history whose ratings are within 0..5 stays so,
    and with it the bound 1 on collaborative-filtering scores. *)
Theorem typed_ratings_stay_in_range `{parser : PyFloat} (book : Book.t)
    (rating_str status : string) (self : UserProfile.t) :
  ratings_in_range (UserProfile.reading_history self) →
  let updated := CLI.add_book book rating_str status self in
  ratings_in_range (UserProfile.reading_history updated)
  ∧ ∀ candidate,
      0 ≤ CollaborativeFilteringRecommender._calculate_cf_score candidate updated
        ≤ 1.
Proof.
  intros Hrange. cbn zeta.
  assert (ratings_in_range
            (UserProfile.reading_history
               (CLI.add_book book rating_str status self))) as Hupdated.
  { unfold CLI.add_book. rewrite add_to_history_history.
    unfold ratings_in_range in *. apply Forall_app. split; [done|].
    apply Forall_cons_2; [|apply Forall_nil_2].
    intros r. unfold CLI.history_entry, Validators.validate_rating_input.
    cbn [ReadingHistory.rating].
    case_decide; [done|].
    destruct (float_of_string rating_str) as [rating|]; [|done].
    case_decide as Hin; [|done]. by intros [= <-]. }
  split; [done|]. intros candidate.
  rewrite cf_score_formula_eq. by apply cf_score_formula_range.
Qed.

Lemma typed_ratings_stay_in_range_witness :
  ratings_in_range (UserProfile.reading_history (profile_of []))
  ∧ ReadingHistory.rating
      <$> UserProfile.reading_history
            (CLI.add_book (parser := parser_of_examples) emma "7" "read"
               (CLI.add_book (parser := parser_of_examples) dune "4.5" "read"
                  (profile_of [])))
    = [Some (frac 9 2); None]
  ∧ ratings_in_range
      (UserProfile.reading_history
         (CLI.add_book (parser := parser_of_examples) dune "4.5" "read"
            (profile_of []))).
Proof.
  assert (ratings_in_range (UserProfile.reading_history (profile_of []))) as H
    by apply Forall_nil_2.
  split; [done|]. split; [compute_done|].
  apply (typed_ratings_stay_in_range (parser := parser_of_examples) dune "4.5"
           "read" (profile_of []) H).
Defined.

(** * Empty inputs, vectorizer failures and targets without text *)

Section textless.
Context `{rt : PyRuntime}.

(** Similarities at or under the threshold give no recommendation. *)
Lemma scan_under_threshold target user_profile similarities candidates :
  Forall (λ s, s ≤ frac 1 10) similarities →
  TFIDFRecommender.scan target user_profile similarities candidates = Some [].
Proof.
  intros Hlow. revert candidates.
  induction Hlow as [|s sims Hs _ IH]; intros candidates; simpl; [done|].
  rewrite decide_False; [apply IH|]. by apply Qcle_not_lt.
Qed.

(** The TF-IDF strategy returns nothing when the vectorizer raises, and
    nothing for a target in whose text no word is left. *)
Lemma tfidf_recommend_nothing target candidates user_profile top_n :
  tfidf_cosine (vectorizer_input target candidates) = None
  ∨ (wordless_target_law rt ∧ no_usable_text target) →
  TFIDFRecommender.recommend target candidates user_profile top_n = [].
Proof.
  intros [Hfail|[Hlaw Htext]]; [by apply tfidf_recommend_failure|].
  unfold TFIDFRecommender.recommend, TFIDFRecommender.recommend_try.
  rewrite fmap_cons.
  destruct (tfidf_cosine _) as [sims|] eqn:Hcos; simpl; [|done].
  apply Hlaw in Hcos; [|done].
  rewrite scan_under_threshold; [simpl; apply py_take_nil|].
  eapply Forall_impl; [exact Hcos|]. intros s ->. compute_done.
Qed.

(** The hybrid strategy on the results of the Preference Matcher alone
    recommends only books of those results. *)
Lemma hybrid_of_one_strategy_books cf_recs top_n :
  Forall (λ r, BookRecommendation.book r ∈ BookRecommendation.book <$> cf_recs)
    (Py.take top_n
       (BookRecommendation.sort_reverse
          (MLRecommender.hybrid_recommendations
             [ (MLRecommender.TFIDF, []);
               (MLRecommender.CollaborativeFiltering, cf_recs) ]))).
Proof.
  apply ranked_Forall. unfold MLRecommender.hybrid_recommendations.
  destruct (merge_merged (BookRecommendation.book <$> cf_recs)
              [ (MLRecommender.TFIDF, []);
                (MLRecommender.CollaborativeFiltering, cf_recs) ])
    as [Hmerged _].
  { repeat constructor. apply Forall_forall. intros r Hr.
    by apply list_elem_of_fmap_2. }
  rewrite Forall_fmap. eapply Forall_impl; [exact Hmerged|].
  intros kv Hkv. by destruct (combine_result _ _ Hkv) as (_ & _ & ? & _).
Qed.

Lemma ml_recommend_without_tfidf target candidates user_profile top_n :
  TFIDFRecommender.recommend target candidates user_profile (top_n * 2)%Z = [] →
  MLRecommender.recommend target candidates user_profile top_n
  = Py.take top_n
      (BookRecommendation.sort_reverse
         (MLRecommender.hybrid_recommendations
            [ (MLRecommender.TFIDF, []);
              (MLRecommender.CollaborativeFiltering,
               CollaborativeFilteringRecommender.recommend target candidates
                 user_profile (top_n * 2)%Z) ])).
Proof. intros Hnone. unfold MLRecommender.recommend. simpl. by rewrite Hnone. Qed.

(** What [get_recommendations] returns recommends books that the
    recommender ranked. *)
Lemma get_recommendations_books self target candidates user_profile context
    top_n (books : list Book.t) :
  Forall (λ r, BookRecommendation.book r ∈ books)
    (RecommendationEngine.recommender_recommend self target
       (RecommendationEngine._enrich_with_sentiment candidates) user_profile
       (top_n * 2)%Z) →
  Forall (λ r, BookRecommendation.book r ∈ books)
    (RecommendationEngine.get_recommendations self target candidates
       user_profile context top_n).
Proof.
  intros Hrecs.
  unfold RecommendationEngine.get_recommendations,
    RecommendationEngine.get_recommendations_state. cbn [snd].
  apply (Forall_of_sublist _ _ _ (py_take_sublist _ _)).
  apply Forall_forall. intros r Hr%ensure_diversity_subset. revert r Hr.
  apply Forall_forall. unfold RecommendationEngine.ranked_recommendations.
  set (recs := RecommendationEngine.recommender_recommend _ _ _ _ _) in *.
  assert (∀ c, Forall (λ r, BookRecommendation.book r ∈ books)
                 (RecommendationEngine._apply_context_filters recs c))
    as Hfiltered.
  { intros c. destruct (apply_context_filters_kept recs c)
      as (kept & Hperm & Hsub).
    rewrite Hperm. apply Forall_forall. intros r Hr.
    apply (list_elem_of_fmap_2 BookRecommendation.book) in Hr.
    apply (elem_of_sublist _ _ _ Hr) in Hsub.
    apply list_elem_of_fmap in Hsub as (r' & -> & Hr').
    rewrite Forall_forall in Hrecs. by apply Hrecs. }
  destruct context as [c|]; [case_decide|]; auto.
Qed.

End textless.

(** C8 (as amended). No failure of the vectorizer is propagated.
    [get_recommendations] returns the empty list for an empty candidate
    list, whatever the target, the profile, the context and the engine.
    When the vectorizer raises, or when no word is left in the target's
    (plain ASCII) text, its similarity to every candidate then being 0
    whenever the vectorizer returns, the TF-IDF strategy
    returns the empty list and so does the TF-IDF engine; the hybrid
    strategy then merges the results of the Preference Matcher (or its
    popularity fallback) alone, and the hybrid engine recommends only books
    which that strategy recommends. *)
Theorem get_recommendations_input_errors `{rt : PyRuntime}
    (self : RecommendationEngine.recommender) (target : Book.t)
    (candidates : list Book.t) (user_profile : option UserProfile.t)
    (context : option (gmap string string)) (top_n : Z) :
  RecommendationEngine.get_recommendations self target [] user_profile context
    top_n = []
  ∧ (tfidf_cosine (vectorizer_input target candidates) = None
     ∨ (wordless_target_law rt
        ∧ all_chars plain_ascii (Book.get_text_representation target)
        ∧ no_usable_text target) →
     TFIDFRecommender.recommend target candidates user_profile top_n = []
     ∧ RecommendationEngine.get_recommendations RecommendationEngine.TFIDF target
         candidates user_profile context top_n = []
     ∧ MLRecommender.recommend target candidates user_profile top_n
       = Py.take top_n
           (BookRecommendation.sort_reverse
              (MLRecommender.hybrid_recommendations
                 [ (MLRecommender.TFIDF, []);
                   (MLRecommender.CollaborativeFiltering,
                    CollaborativeFilteringRecommender.recommend target candidates
                      user_profile (top_n * 2)%Z) ]))
     ∧ Forall (λ r, BookRecommendation.book r
                    ∈ BookRecommendation.book
                        <$> CollaborativeFilteringRecommender.recommend target
                              (RecommendationEngine._enrich_with_sentiment
                                 candidates)
                              user_profile (top_n * 2 * 2)%Z)
         (RecommendationEngine.get_recommendations RecommendationEngine.Hybrid
            target candidates user_profile context top_n)).
Proof.
  split; [apply get_recommendations_nil|].
  intros Hcase.
  assert (tfidf_cosine (vectorizer_input target candidates) = None
          ∨ (wordless_target_law rt ∧ no_usable_text target)) as Hcase'
    by (destruct Hcase as [?|(? & _ & ?)]; auto).
  clear Hcase. rename Hcase' into Hcase.
  assert (∀ n, TFIDFRecommender.recommend target candidates user_profile n = [])
    as Hnone by (intros n; by apply tfidf_recommend_nothing).
  assert (∀ n, TFIDFRecommender.recommend target
                 (RecommendationEngine._enrich_with_sentiment candidates)
                 user_profile n = []) as Hnone'.
  { intros n. apply tfidf_recommend_nothing.
    destruct Hcase as [Hfail|?]; [left|by right].
    by rewrite vectorizer_input_enriched. }
  split; [apply Hnone|]. split; [|split].
  - apply get_recommendations_of_nothing.
    unfold RecommendationEngine.ranked_recommendations. simpl.
    rewrite Hnone'.
    destruct context as [c|]; [|done].
    case_decide; [done|apply apply_context_filters_nil].
  - apply ml_recommend_without_tfidf, Hnone.
  - apply get_recommendations_books. simpl.
    rewrite ml_recommend_without_tfidf by apply Hnone'.
    apply hybrid_of_one_strategy_books.
Qed.

(** With a vectorizer that looks at the texts: an empty candidate list
    gives nothing; a target without any text gets nothing from the TF-IDF
    engine, although the same engine recommends a candidate that shares
    its words with the target. *)
Lemma get_recommendations_input_errors_witness :
  (wordless_target_law runtime_shared_words
   ∧ all_chars plain_ascii (Book.get_text_representation blank_book)
   ∧ no_usable_text blank_book)
  ∧ RecommendationEngine.get_recommendations (rt := runtime_shared_words)
      RecommendationEngine.Hybrid zzqx [] None None 10 = []
  ∧ RecommendationEngine.get_recommendations (rt := runtime_shared_words)
      RecommendationEngine.TFIDF blank_book [book_09] None None 10 = []
  ∧ BookRecommendation.book
      <$> RecommendationEngine.get_recommendations (rt := runtime_shared_words)
            RecommendationEngine.TFIDF dune [book_09; emma] None None 10
    = [book_09].
Proof.
  assert (wordless_target_law runtime_shared_words) as Hlaw.
  { intros target_text texts sims Hwordless Hcos.
    assert (∀ others : list string,
              Forall (λ s, s = 0)
                ((λ t, if decide (shares_a_word target_text t) then 1 else 0)
                 <$> others)) as Hzero.
    { intros others. rewrite Forall_fmap. apply Forall_forall. intros t' _.
      simpl. rewrite decide_False; [done|].
      unfold shares_a_word. rewrite Hwordless. by intros ?%Exists_nil. }
    cbn [tfidf_cosine runtime_shared_words] in Hcos.
    destruct texts as [|t texts]; [done|].
    case_decide; [done|]. injection Hcos as <-. apply (Hzero (t :: texts)). }
  assert (no_usable_text blank_book) as Htext by done.
  assert (all_chars plain_ascii (Book.get_text_representation blank_book))
    as Hascii by done.
  split; [done|]. split; [|split].
  - exact (proj1 (get_recommendations_input_errors (rt := runtime_shared_words)
                    RecommendationEngine.Hybrid zzqx [] None None 10)).
  - destruct (get_recommendations_input_errors (rt := runtime_shared_words)
                RecommendationEngine.TFIDF blank_book [book_09] None None 10)
      as [_ Hcase].
    by destruct Hcase as (_ & Hengine & _); [right|].
  - compute_done.
Defined.
